(** * Replica routing and consistency verification: a shallow embedding

    The development follows three source files of the repository:

    - [src/database/connection_manager.py]  (module [ConnectionManager])
    - [src/tests/consistency_test.py]       (module [ConsistencyTest])
    - [src/tests/stability_test.py]         (module [StabilityTest])

    Conventions of the embedding.

    - Python [float]s and [int]s that carry weights, latencies and clock
      readings are exact rationals ([Q]); comparisons are the boolean
      comparisons of [Q].  The value drawn by [random.uniform] is an
      explicit argument [rand_val] that ranges over all of [Q].
    - Python [str] is [string]; a [dict] whose iteration order matters is
      an association list in insertion order, a [dict] that is only read
      and written by key is a [gmap].
    - A raised exception is the [Raise] constructor of [result]. *)

From Stdlib Require Import QArith Qabs Lqa ZArith Lia Ascii String DecimalString
  DecimalNat.
From stdpp Require Import base strings list gmap.

Open Scope Q_scope.

(** ** Python runtime values shared by the three modules *)

Inductive exn : Type :=
  | IndexError
  | ValueError
  | ZeroDivisionError
  | KeyError (key : string)
  | Exception (msg : string).

Inductive result (A : Type) : Type :=
  | Ok (a : A)
  | Raise (e : exn).
Arguments Ok {A} a.
Arguments Raise {A} e.

#[global] Instance result_ret : MRet result := fun _ a => Ok a.
#[global] Instance result_bind : MBind result := fun _ _ f r =>
  match r with
  | Ok a => f a
  | Raise e => Raise e
  end.

Definition Qlt_bool (x y : Q) : bool := negb (Qle_bool y x).

(** [sum(xs)]: Python folds from the left, starting at [0]. *)
Definition py_sum (xs : list Q) : Q := fold_left Qplus xs 0.

(** [max(xs)] and [min(xs)] on a non-empty list keep the first extremal
    element. *)
Definition py_max (x : Q) (xs : list Q) : Q :=
  fold_left (fun acc y => if Qlt_bool acc y then y else acc) xs x.
Definition py_min (x : Q) (xs : list Q) : Q :=
  fold_left (fun acc y => if Qlt_bool y acc then y else acc) xs x.

(** [int(x)] of a [float]: truncation towards zero. *)
Definition py_trunc (x : Q) : Z := Z.quot (Qnum x) (Zpos (Qden x)).

(** [f"{z}"] for an [int]. *)
Definition str_of_Z (z : Z) : string := NilEmpty.string_of_int (Z.to_int z).

(** [f"{n}"] for a non-negative [int]. *)
Definition str_of_nat (n : nat) : string :=
  NilEmpty.string_of_uint (Nat.to_uint n).

(** [s.split(sep)] for a one-character separator. *)
Fixpoint split_on (sep : ascii) (s : string) : list string :=
  match s with
  | EmptyString => [EmptyString]
  | String c s' =>
      if Ascii.eqb c sep then EmptyString :: split_on sep s'
      else match split_on sep s' with
           | [] => [String c EmptyString]
           | p :: ps => String c p :: ps
           end
  end.

(** [int(s)] on a string of ASCII decimal digits; anything else is
    [ValueError] (signs, blanks and digit separators do not occur in
    the names built by [initialize_pools]). *)
Definition py_int (s : string) : result Z :=
  match s with
  | EmptyString => Raise ValueError
  | _ => match NilEmpty.uint_of_string s with
         | Some d => Ok (Z.of_nat (Nat.of_uint d))
         | None => Raise ValueError
         end
  end.

(** Position addressed by [l[i]], with Python's negative indices. *)
Definition py_index {A} (l : list A) (i : Z) : option nat :=
  let n := Z.of_nat (length l) in
  if ((0 <=? i) && (i <? n))%Z then Some (Z.to_nat i)
  else if ((- n <=? i) && (i <? 0))%Z then Some (Z.to_nat (n + i))
  else None.

(** [l[i] = v]. *)
Definition py_setitem {A} (l : list A) (i : Z) (v : A) : result (list A) :=
  match py_index l i with
  | Some k => Ok (<[k:=v]> l)
  | None => Raise IndexError
  end.

(** [l[i]]. *)
Definition py_getitem {A} (l : list A) (i : Z) : result A :=
  match py_index l i with
  | Some k => match l !! k with
              | Some x => Ok x
              | None => Raise IndexError
              end
  | None => Raise IndexError
  end.

(** [d[k] = v] on an insertion-ordered [dict]. *)
Fixpoint dict_set {V} (d : list (string * V)) (k : string) (v : V)
  : list (string * V) :=
  match d with
  | [] => [(k, v)]
  | (k', v') :: d' =>
      if String.eqb k' k then (k, v) :: d' else (k', v') :: dict_set d' k v
  end.

Fixpoint dict_get {V} (d : list (string * V)) (k : string) : option V :=
  match d with
  | [] => None
  | (k', v') :: d' => if String.eqb k' k then Some v' else dict_get d' k
  end.

(** [k in d]. *)
Definition dict_mem {V} (d : list (string * V)) (k : string) : bool :=
  match dict_get d k with Some _ => true | None => false end.

(** [for x in xs: m = f(x, m)], stopping at the first exception. *)
Fixpoint foldM {A S} (f : A -> S -> result S) (xs : list A) (s : S)
  : result S :=
  match xs with
  | [] => Ok s
  | x :: xs' => f x s ≫= foldM f xs'
  end.

(** [enumerate(xs)]. *)
Definition enumerate {A} (xs : list A) : list (nat * A) :=
  imap (fun i x => (i, x)) xs.

(** ** [src/database/connection_manager.py] *)

Module ConnectionManager.

(** One entry of [db_configs]: the keys the module reads from the
    configuration dictionaries. *)
Record Config : Type := {
  host : string;
  port : option Z;
  user : string;
  password : string;
  db : string
}.

(** An [aiomysql] pool, as far as this module looks at it. *)
Record Pool : Type := {
  pool_config : Config;
  minsize : nat;
  maxsize : nat
}.

(** What [pool.acquire()] hands out: a connection of the pool
    registered under [conn_server]. *)
Record Connection : Type := {
  conn_server : string;
  conn_pool : Pool
}.

Record DatabaseConnectionManager : Type := {
  db_configs : list Config;
  master_config : option Config;
  slave_configs : list Config;
  connection_pools : list (string * Pool);
  pool_size : nat;
  max_overflow : nat;
  server_health : gmap string bool;
  last_health_check : Q;
  health_check_interval : Q;
  slave_weights : list Q
}.

Definition set_connection_pools (m : DatabaseConnectionManager)
  (pools : list (string * Pool)) : DatabaseConnectionManager :=
  {| db_configs := db_configs m; master_config := master_config m;
     slave_configs := slave_configs m; connection_pools := pools;
     pool_size := pool_size m; max_overflow := max_overflow m;
     server_health := server_health m;
     last_health_check := last_health_check m;
     health_check_interval := health_check_interval m;
     slave_weights := slave_weights m |}.

Definition set_server_health (m : DatabaseConnectionManager)
  (health : gmap string bool) : DatabaseConnectionManager :=
  {| db_configs := db_configs m; master_config := master_config m;
     slave_configs := slave_configs m;
     connection_pools := connection_pools m;
     pool_size := pool_size m; max_overflow := max_overflow m;
     server_health := health;
     last_health_check := last_health_check m;
     health_check_interval := health_check_interval m;
     slave_weights := slave_weights m |}.

Definition set_slave_weights (m : DatabaseConnectionManager)
  (weights : list Q) : DatabaseConnectionManager :=
  {| db_configs := db_configs m; master_config := master_config m;
     slave_configs := slave_configs m;
     connection_pools := connection_pools m;
     pool_size := pool_size m; max_overflow := max_overflow m;
     server_health := server_health m;
     last_health_check := last_health_check m;
     health_check_interval := health_check_interval m;
     slave_weights := weights |}.

Definition set_last_health_check (m : DatabaseConnectionManager)
  (t : Q) : DatabaseConnectionManager :=
  {| db_configs := db_configs m; master_config := master_config m;
     slave_configs := slave_configs m;
     connection_pools := connection_pools m;
     pool_size := pool_size m; max_overflow := max_overflow m;
     server_health := server_health m;
     last_health_check := t;
     health_check_interval := health_check_interval m;
     slave_weights := slave_weights m |}.

(** [DatabaseConnectionManager.__init__] (lines 22-42): the attributes
    set by the constructor.  The constructor has no [raise]; its outcome
    is a [result] so that it can be told apart from a registration that
    fails. *)
Definition new_manager (configs : list Config) : DatabaseConnectionManager :=
  let slaves := if (1 <? length configs)%nat then drop 1 configs else [] in
  {| db_configs := configs;
     master_config := match configs with [] => None | c :: _ => Some c end;
     slave_configs := slaves;
     connection_pools := [];
     pool_size := 20;
     max_overflow := 10;
     server_health := ∅;
     last_health_check := 0;
     health_check_interval := 30;
     slave_weights := replicate (length slaves) 1.0 |}.

Definition __init__ (configs : list Config)
  : result DatabaseConnectionManager :=
  Ok (new_manager configs).

(** The configurations of [example_usage] (lines 280-295). *)
Definition example_master : Config :=
  {| host := "localhost"; port := Some 3306%Z; user := "root";
     password := "testpass"; db := "testdb" |}.
Definition example_slave : Config :=
  {| host := "localhost"; port := Some 3307%Z; user := "root";
     password := "testpass"; db := "testdb" |}.
Definition example_configs : list Config := [example_master; example_slave].

(** ["master" if i == 0 else f"slave_{i}"] (line 49). *)
Definition server_name (i : nat) : string :=
  if (i =? 0)%nat then "master" else "slave_" +:+ str_of_nat i.

(** [_weighted_random_selection] (lines 128-143); [rand_val] is the value
    returned by [random.uniform(0, total_weight)]. *)
Fixpoint select_loop (available_slaves : list (string * Q))
  (rand_val cumulative : Q) : option string :=
  match available_slaves with
  | [] => None
  | (name, weight) :: rest =>
      let cumulative := cumulative + weight in
      if Qle_bool rand_val cumulative then Some name
      else select_loop rest rand_val cumulative
  end.

Definition _weighted_random_selection (available_slaves : list (string * Q))
  (rand_val : Q) : result string :=
  let total_weight := py_sum (map snd available_slaves) in
  if Qeq_bool total_weight 0 then
    match available_slaves with
    | (name, _) :: _ => Ok name
    | [] => Raise IndexError
    end
  else
    match select_loop available_slaves rand_val 0 with
    | Some name => Ok name
    | None =>
        match last available_slaves with
        | Some (name, _) => Ok name
        | None => Raise IndexError
        end
    end.

(** The value of the loop variable [cumulative] of
    [_weighted_random_selection] after [k] iterations. *)
Definition cumulative (l : list (string * Q)) (k : nat) : Q :=
  fold_left Qplus (map snd (take k l)) 0.

Section Manager.

(** The outside world of the manager: [aiomysql.create_pool] for a
    configuration (lines 53-63), and the two round trips of one health
    probe on a named server (lines 156-167): either some [await] raised,
    or both returned and [response_time] is the measured difference of
    the two [time.time()] readings, in seconds. *)
Inductive probe_result : Type :=
  | ProbeFailed (e : exn)
  | ProbeOk (response_time : Q).

Context (create_pool : Config -> nat -> nat -> result Pool).
Context (probe : string -> probe_result).

(** [initialize_pools] (lines 44-72). *)
Definition initialize_pool (m : DatabaseConnectionManager)
  (entry : nat * Config) : DatabaseConnectionManager :=
  let '(i, config) := entry in
  let name := server_name i in
  match create_pool config 5 (pool_size m) with
  | Ok pool =>
      set_server_health
        (set_connection_pools m (dict_set (connection_pools m) name pool))
        (<[name:=true]> (server_health m))
  | Raise _ => set_server_health m (<[name:=false]> (server_health m))
  end.

Definition initialize_pools (m : DatabaseConnectionManager)
  : DatabaseConnectionManager :=
  fold_left initialize_pool (enumerate (db_configs m)) m.

(** [get_master_connection] (lines 75-82). *)
Definition get_master_connection (m : DatabaseConnectionManager)
  : result Connection :=
  match dict_get (connection_pools m) "master" with
  | None => Raise (Exception "Master 연결 풀이 초기화되지 않음")
  | Some pool => Ok {| conn_server := "master"; conn_pool := pool |}
  end.

(** The test of lines 92-93 on the replica at position [i] of
    [slave_configs]: it has a pool and its recorded health is [True]. *)
Definition available (m : DatabaseConnectionManager) (i : nat) : bool :=
  let slave_name := "slave_" +:+ str_of_nat (i + 1) in
  dict_mem (connection_pools m) slave_name
  && default false (server_health m !! slave_name).

(** The list [available_slaves] built by lines 88-94. *)
Definition collect_slave (m : DatabaseConnectionManager)
  (entry : nat * Config) (acc : list (string * Q))
  : result (list (string * Q)) :=
  let '(i, _) := entry in
  let slave_name := "slave_" +:+ str_of_nat (i + 1) in
  if available m i
  then match slave_weights m !! i with
       | Some w => Ok (acc ++ [(slave_name, w)])
       | None => Raise IndexError
       end
  else Ok acc.

Definition available_slaves (m : DatabaseConnectionManager)
  : result (list (string * Q)) :=
  foldM (collect_slave m) (enumerate (slave_configs m)) [].

(** Truth value of an [Optional[str]]. *)
Definition truthy (s : option string) : bool :=
  match s with
  | Some (String _ _) => true
  | _ => false
  end.

(** [get_slave_connection] (lines 85-112). *)
Definition get_slave_connection (m : DatabaseConnectionManager)
  (prefer_server : option string) (rand_val : Q) : result Connection :=
  slaves ← available_slaves m;
  match slaves with
  | [] => get_master_connection m
  | _ =>
      selected_slave ←
        (if truthy prefer_server
            && bool_decide (default "" prefer_server ∈ map fst slaves)
         then Ok (default "" prefer_server)
         else _weighted_random_selection slaves rand_val);
      match dict_get (connection_pools m) selected_slave with
      | Some pool => Ok {| conn_server := selected_slave; conn_pool := pool |}
      | None => Raise (KeyError selected_slave)
      end
  end.

(** Latency tier of lines 174-179, [response_time] in seconds. *)
Definition weight_tier (response_time : Q) : Q :=
  if Qlt_bool response_time 0.05 then 1.2
  else if Qlt_bool response_time 0.1 then 1.0
  else 0.8.

(** [int(server_name.split("_")[1]) - 1] (lines 173 and 189). *)
Definition slave_index (name : string) : result Z :=
  match split_on "_" name !! 1%nat with
  | Some digits => k ← py_int digits; Ok (k - 1)%Z
  | None => Raise IndexError
  end.

(** Lines 172-179 and 188-190: the weight update of a replica. *)
Definition adjust_weight (m : DatabaseConnectionManager) (name : string)
  (w : Q) : result DatabaseConnectionManager :=
  if String.prefix "slave_" name then
    idx ← slave_index name;
    weights ← py_setitem (slave_weights m) idx w;
    Ok (set_slave_weights m weights)
  else Ok m.

(** The [except] branch of the loop body (lines 183-190). *)
Definition probe_except (m : DatabaseConnectionManager) (name : string)
  : result DatabaseConnectionManager :=
  adjust_weight (set_server_health m (<[name:=false]> (server_health m)))
    name 0.

(** One iteration of the loop of lines 154-190. *)
Definition probe_server (entry : string * Pool)
  (m : DatabaseConnectionManager) : result DatabaseConnectionManager :=
  let name := entry.1 in
  match probe name with
  | ProbeOk response_time =>
      let m1 := set_server_health m (<[name:=true]> (server_health m)) in
      match adjust_weight m1 name (weight_tier response_time) with
      | Ok m2 => Ok m2
      | Raise _ => probe_except m1 name
      end
  | ProbeFailed _ => probe_except m name
  end.

(** [health_check] (lines 145-193); the returned dictionary is
    [server_health] of the resulting manager. *)
Definition health_check (m : DatabaseConnectionManager)
  (current_time : Q) (force : bool) : result DatabaseConnectionManager :=
  if negb force
     && Qlt_bool (current_time - last_health_check m)
          (health_check_interval m)
  then Ok m
  else
    m' ← foldM probe_server (connection_pools m) m;
    Ok (set_last_health_check m' current_time).

(** What the loop body records for a probed server: its health, and for
    a replica its weight. *)
Definition probed_health (name : string) : bool :=
  match probe name with
  | ProbeOk _ => true
  | ProbeFailed _ => false
  end.

Definition probed_weight (name : string) : Q :=
  match probe name with
  | ProbeOk response_time => weight_tier response_time
  | ProbeFailed _ => 0
  end.

(** The manager after the loop body has run on the server numbered [k]
    (the master is [0], [slave_k] is [k]). *)
Definition probe_effect (m : DatabaseConnectionManager) (k : nat)
  : DatabaseConnectionManager :=
  let name := server_name k in
  let m1 :=
    set_server_health m (<[name:=probed_health name]> (server_health m)) in
  if (k =? 0)%nat then m1
  else set_slave_weights m1
         (<[(k - 1)%nat:=probed_weight name]> (slave_weights m1)).

End Manager.

(** [get_any_connection] (lines 114-126).  An exception raised by the
    replica path is caught and the master is used; what the caller does
    with the connection is outside this function. *)
Definition get_any_connection (m : DatabaseConnectionManager)
  (prefer_read : bool) (rand_val : Q) : result Connection :=
  if prefer_read
     && match slave_configs m with [] => false | _ :: _ => true end
  then match get_slave_connection m None rand_val with
       | Ok conn => Ok conn
       | Raise _ => get_master_connection m
       end
  else get_master_connection m.

(** [close_all_pools] (lines 245-258): failures of [close] are logged,
    then both dictionaries are cleared. *)
Definition close_all_pools (m : DatabaseConnectionManager)
  : DatabaseConnectionManager :=
  set_server_health (set_connection_pools m []) ∅.

(** The managers a caller sees inside [async with QuickDBConnection(...)]
    (lines 261-275): the pools are initialised once on a fresh manager,
    after which health checks run, each with its own probe results. *)
Inductive reachable (create_pool : Config -> nat -> nat -> result Pool)
  : DatabaseConnectionManager -> Prop :=
  | reachable_initialized (configs : list Config) :
      reachable create_pool
        (initialize_pools create_pool (new_manager configs))
  | reachable_checked (m m' : DatabaseConnectionManager)
      (probe : string -> probe_result) (current_time : Q) (force : bool) :
      reachable create_pool m ->
      health_check probe m current_time force = Ok m' ->
      reachable create_pool m'.

(** What the read path relies on: one weight per configured replica,
    pools named as [initialize_pools] names them, and a strictly
    positive weight for every replica whose recorded health is [True]. *)
Definition well_formed (m : DatabaseConnectionManager) : Prop :=
  length (slave_weights m) = length (slave_configs m)
  /\ (forall name, name ∈ map fst (connection_pools m) ->
        exists k, name = server_name k
                  /\ (k <= length (slave_weights m))%nat)
  /\ (forall i w,
        default false (server_health m !! server_name (S i)) = true ->
        slave_weights m !! i = Some w -> 0 < w).

(** One value of the dictionary returned by [get_connection_stats]; the
    key ["weight"] is present for replicas only. *)
Record server_stats : Type := {
  stat_pool_size : nat;
  pool_freesize : nat;
  health_status : bool;
  weight : option Q
}.

Section Stats.

(** [pool.size] and [pool.freesize] of the pool registered under a
    name. *)
Context (pool_usage : string -> Pool -> nat * nat).

(** One iteration of the loop of lines 231-241. *)
Definition server_stat (m : DatabaseConnectionManager)
  (entry : string * Pool) (stats : list (string * server_stats))
  : result (list (string * server_stats)) :=
  let '(name, pool) := entry in
  let entry_stats := fun w =>
    {| stat_pool_size := (pool_usage name pool).1;
       pool_freesize := (pool_usage name pool).2;
       health_status := default false (server_health m !! name);
       weight := w |} in
  if String.prefix "slave_" name then
    idx ← slave_index name;
    w ← py_getitem (slave_weights m) idx;
    Ok (dict_set stats name (entry_stats (Some w)))
  else Ok (dict_set stats name (entry_stats None)).

(** [get_connection_stats] (lines 227-243). *)
Definition get_connection_stats (m : DatabaseConnectionManager)
  : result (list (string * server_stats)) :=
  foldM (server_stat m) (connection_pools m) [].

End Stats.





(** ** Statements run on an acquired connection

    What [execute_transaction] does with the connection it acquires is
    a sequence of calls on the connection and on its cursor.  Each call
    either returns or raises, as the server decides from what was done
    before; the calls made so far are kept as a log of pairs of the
    server of the connection and the operation. *)

Inductive db_op : Type :=
  | Begin
  | OpenCursor
  | Execute (query : string) (params : list string)
  | CloseCursor
  | Commit
  | Rollback.

Definition Session (A : Type) : Type :=
  list (string * db_op) -> result A * list (string * db_op).

Definition and_then {A B} (c : Session A) (f : A -> Session B)
  : Session B := fun log =>
  match c log with
  | (Ok a, log') => f a log'
  | (Raise e, log') => (Raise e, log')
  end.

Section Statements.

Context (db_outcome : list (string * db_op) -> string * db_op -> option exn).







End Statements.

End ConnectionManager.

(** ** The clock and the network of the two test suites

    Both suites observe the world through [time.time()], through
    [asyncio.sleep] and through database round trips.  A [World] is the
    current wall-clock time and the number of effects performed so far;
    the [n]-th effect lasts [io_time n] seconds when it is a round trip
    and its requested delay plus [sleep_late n] seconds when it is a
    sleep; clock readings are kept in lowest terms.  A computation that
    runs a [while] loop takes fuel, and yields [None] when the fuel does
    not suffice. *)

Module World.

Record World : Type := { now : Q; tick : nat }.

Definition M (A : Type) : Type := World -> option (A * World).

#[global] Instance M_ret : MRet M := fun _ a w => Some (a, w).
#[global] Instance M_bind : MBind M := fun _ _ f c w =>
  match c w with
  | Some (a, w') => f a w'
  | None => None
  end.

Definition out_of_fuel {A} : M A := fun _ => None.

Section Effects.

Context (io_time sleep_late : nat -> Q).

(** [time.time()]. *)
Definition time_time : M Q := fun w => Some (now w, w).

(** [await asyncio.sleep(d)]. *)
Definition sleep (d : Q) : M unit := fun w =>
  Some (tt, {| now := Qred (now w + d + sleep_late (tick w));
               tick := S (tick w) |}).

(** A database round trip whose outcome is read off a table indexed by
    the effect counter. *)
Definition io {A} (outcome : nat -> A) : M A := fun w =>
  Some (outcome (tick w),
        {| now := Qred (now w + io_time (tick w)); tick := S (tick w) |}).

(** Sequencing of a computation that may raise. *)
Definition and_then {A B} (c : M (result A)) (f : A -> M (result B))
  : M (result B) :=
  r ← c;
  match r with
  | Ok a => f a
  | Raise e => mret (Raise e)
  end.

(** [for x in xs: s = f(x, s)]. *)
Fixpoint for_each {A S} (f : A -> S -> M S) (xs : list A) (s : S) : M S :=
  match xs with
  | [] => mret s
  | x :: xs' => s' ← f x s; for_each f xs' s'
  end.

End Effects.

End World.

(** ** [src/tests/consistency_test.py] *)

Module ConsistencyTest.

Import World.

Definition Config : Type := ConnectionManager.Config.

Record ConsistencyTestSuite : Type := {
  master_config : Config;
  slave_configs : list Config
}.

(** [ConsistencyTestSuite.__init__] (lines 18-35). *)
Definition default_suite : ConsistencyTestSuite :=
  {| master_config :=
       {| ConnectionManager.host := "localhost";
          ConnectionManager.port := Some 3306%Z;
          ConnectionManager.user := "root";
          ConnectionManager.password := "testpass";
          ConnectionManager.db := "testdb" |};
     slave_configs :=
       [ {| ConnectionManager.host := "localhost";
            ConnectionManager.port := Some 3307%Z;
            ConnectionManager.user := "root";
            ConnectionManager.password := "testpass";
            ConnectionManager.db := "testdb" |} ] |}.

(** What the [try] block of [_read_and_verify] gets from the replica:
    an exception somewhere between [connect] and [fetchone], no row, or
    the two selected columns (an SQL [NULL] is [None]). *)
Inductive fetch_result : Type :=
  | FetchRaised (e : exn)
  | NoRow
  | Row (stored_data stored_checksum : option string).

(** One entry of [lag_measurements]. *)
Record measurement : Type := {
  slave_index : nat;
  lag_seconds : Q;
  test_case : nat
}.

(** The dictionary returned by [_test_replication_lag]. *)
Record lag_report : Type := {
  avg_lag_seconds : Q;
  max_lag_seconds : Q;
  min_lag_seconds : Q;
  measurements : list measurement
}.

(** Lines 139-156: the statistics over the collected samples. *)
Definition lag_statistics (lag_measurements : list measurement)
  : lag_report :=
  match map lag_seconds lag_measurements with
  | [] =>
      {| avg_lag_seconds := 0; max_lag_seconds := 0; min_lag_seconds := 0;
         measurements := lag_measurements |}
  | t :: ts =>
      {| avg_lag_seconds :=
           py_sum (t :: ts) / inject_Z (Z.of_nat (length (t :: ts)));
         max_lag_seconds := py_max t ts;
         min_lag_seconds := py_min t ts;
         measurements := lag_measurements |}
  end.

(** One entry of [consistency_results]; [timestamp] is the clock reading
    behind [datetime.now().isoformat()]. *)
Record observation : Type := {
  obs_test_case : nat;
  obs_slave_index : nat;
  delay_seconds : Q;
  consistent : bool;
  timestamp : Q
}.

(** The dictionary returned by [_test_read_after_write_consistency]. *)
Record consistency_report : Type := {
  total_tests : nat;
  consistent_tests : nat;
  consistency_rate : Q;
  detailed_results : list observation
}.

(** Lines 91-104: the analysis of the collected observations. *)
Definition consistency_analysis (consistency_results : list observation)
  : consistency_report :=
  let total_tests := length consistency_results in
  let consistent_tests :=
    length (List.filter consistent consistency_results) in
  {| total_tests := total_tests;
     consistent_tests := consistent_tests;
     consistency_rate :=
       if (0 <? total_tests)%nat
       then inject_Z (Z.of_nat consistent_tests)
            / inject_Z (Z.of_nat total_tests)
       else 0;
     detailed_results := consistency_results |}.

Section Suite.

Context (io_time sleep_late : nat -> Q).

(** [hashlib.md5(s.encode()).hexdigest()]; strings are their UTF-8
    encodings. *)
Context (md5_hexdigest : string -> string).

(** Outcome of the round trip of [_write_to_master] (committed or
    raised) and of the round trip of [_read_and_verify], per effect. *)
Context (write_committed : nat -> bool).
Context (replica_fetch : nat -> fetch_result).

(** [_write_to_master] (lines 158-188). *)
Definition _write_to_master (suite : ConsistencyTestSuite)
  (test_id test_data : string) : M bool :=
  io io_time write_committed.

(** Lines 202-209 and 211-212: the verdict on what was fetched. *)
Definition verdict (fetched : fetch_result)
  (test_id expected_data : string) : bool :=
  match fetched with
  | FetchRaised _ => false
  | NoRow => false
  | Row stored_data stored_checksum =>
      let expected_checksum := md5_hexdigest (test_id +:+ expected_data) in
      bool_decide (stored_data = Some expected_data)
      && bool_decide (stored_checksum = Some expected_checksum)
  end.

(** [_read_and_verify] (lines 190-212). *)
Definition _read_and_verify (slave_config : Config)
  (test_id expected_data : string) : M bool :=
  fetched ← io io_time replica_fetch;
  mret (verdict fetched test_id expected_data).

(** [_cleanup_test_data] (lines 214-225): failures are swallowed. *)
Definition _cleanup_test_data (suite : ConsistencyTestSuite)
  (test_id : string) : M unit :=
  io io_time (fun _ => tt).

(** The [while] loop of lines 124-134 for one replica; its result is
    the sample appended to [lag_measurements], if any. *)
Fixpoint poll_replica (fuel : nat) (slave_idx i : nat)
  (slave_config : Config) (test_id test_data : string)
  (write_end read_start : Q) : M (option measurement) :=
  match fuel with
  | O => out_of_fuel
  | S fuel' =>
      t ← time_time;
      if Qlt_bool (t - read_start) 5.0 then
        matched ← _read_and_verify slave_config test_id test_data;
        if matched : bool then
          t' ← time_time;
          mret (Some {| slave_index := slave_idx;
                        lag_seconds := t' - write_end;
                        test_case := i |})
        else
          _ ← sleep sleep_late 0.1;
          poll_replica fuel' slave_idx i slave_config test_id test_data
            write_end read_start
      else mret None
  end.

(** Lines 120-134: the replicas of one test case, in order. *)
Definition poll_slave (fuel : nat) (i : nat) (test_id test_data : string)
  (write_end : Q) (entry : nat * Config)
  (lag_measurements : list measurement) : M (list measurement) :=
  let '(slave_idx, slave_config) := entry in
  read_start ← time_time;
  sample ← poll_replica fuel slave_idx i slave_config test_id test_data
             write_end read_start;
  mret (match sample with
        | Some m => lag_measurements ++ [m]
        | None => lag_measurements
        end).

(** Lines 110-137: one of the ten measurements. *)
Definition lag_case (fuel : nat) (suite : ConsistencyTestSuite) (i : nat)
  (lag_measurements : list measurement) : M (list measurement) :=
  t ← time_time;
  let test_id := "lag_test_" +:+ str_of_Z (py_trunc t) +:+ "_"
                 +:+ str_of_nat i in
  let test_data := "지연_측정_" +:+ str_of_nat i in
  write_start ← time_time;
  _ ← _write_to_master suite test_id test_data;
  write_end ← time_time;
  lag_measurements' ←
    for_each (poll_slave fuel i test_id test_data write_end)
      (enumerate (slave_configs suite)) lag_measurements;
  _ ← _cleanup_test_data suite test_id;
  _ ← sleep sleep_late 0.5;
  mret lag_measurements'.

(** [_test_replication_lag] (lines 106-156). *)
Definition _test_replication_lag (fuel : nat) (suite : ConsistencyTestSuite)
  : M lag_report :=
  lag_measurements ← for_each (lag_case fuel suite) (seq 0 10) [];
  mret (lag_statistics lag_measurements).

(** [random.randint(1000, 9999)] of test case [i]. *)
Context (randint : nat -> Z).

(** Lines 75-86: one read on one replica, recorded. *)
Definition observe_slave (i : nat) (delay : Q) (test_id test_data : string)
  (entry : nat * Config) (consistency_results : list observation)
  : M (list observation) :=
  let '(slave_idx, slave_config) := entry in
  is_consistent ← _read_and_verify slave_config test_id test_data;
  t ← time_time;
  mret (consistency_results
          ++ [ {| obs_test_case := i;
                  obs_slave_index := slave_idx;
                  delay_seconds := delay;
                  consistent := is_consistent;
                  timestamp := t |} ]).

(** Lines 71-86: one delay, then every replica. *)
Definition observe_after (suite : ConsistencyTestSuite) (i : nat)
  (test_id test_data : string) (delay : Q)
  (consistency_results : list observation) : M (list observation) :=
  _ ← sleep sleep_late delay;
  for_each (observe_slave i delay test_id test_data)
    (enumerate (slave_configs suite)) consistency_results.

(** Lines 60-89: one of the twenty test cases; a failed write skips the
    reads and the clean-up ([continue]). *)
Definition consistency_case (suite : ConsistencyTestSuite) (i : nat)
  (consistency_results : list observation) : M (list observation) :=
  t ← time_time;
  let test_id := "consistency_test_" +:+ str_of_Z (py_trunc t) +:+ "_"
                 +:+ str_of_nat i in
  let test_data := "네이버_테스트_데이터_" +:+ str_of_Z (randint i) in
  write_success ← _write_to_master suite test_id test_data;
  if write_success : bool then
    consistency_results' ←
      for_each (observe_after suite i test_id test_data)
        [0.1; 0.5; 1.0; 2.0] consistency_results;
    _ ← _cleanup_test_data suite test_id;
    mret consistency_results'
  else mret consistency_results.

(** [_test_read_after_write_consistency] (lines 55-104). *)
Definition _test_read_after_write_consistency
  (suite : ConsistencyTestSuite) : M consistency_report :=
  consistency_results ← for_each (consistency_case suite) (seq 0 20) [];
  mret (consistency_analysis consistency_results).

End Suite.

End ConsistencyTest.

(** ** [src/tests/stability_test.py] *)

Module StabilityTest.

Import World.

Definition Config : Type := ConnectionManager.Config.

Record StabilityTestSuite : Type := {
  db_configs : list Config
}.

(** [StabilityTestSuite.__init__] (lines 18-37). *)
Definition default_suite : StabilityTestSuite :=
  {| db_configs :=
       [ {| ConnectionManager.host := "localhost";
            ConnectionManager.port := Some 3306%Z;
            ConnectionManager.user := "root";
            ConnectionManager.password := "testpass";
            ConnectionManager.db := "testdb" |};
         {| ConnectionManager.host := "localhost";
            ConnectionManager.port := Some 3307%Z;
            ConnectionManager.user := "root";
            ConnectionManager.password := "testpass";
            ConnectionManager.db := "testdb" |} ] |}.

(** One entry of [connection_errors]. *)
Record connection_error : Type := {
  batch_size : nat;
  connection_id : nat;
  error : string
}.

(** The dictionary returned by [_test_connection_pool_exhaustion]. *)
Record pool_report : Type := {
  max_successful_connections : nat;
  connection_errors : nat;
  error_details : list connection_error;
  connection_stability : string
}.

(** The dictionary returned by [_measure_performance]. *)
Record performance : Type := {
  qps : Q;
  avg_response_time : Q;
  request_count : nat;
  error_count : nat
}.

(** The dictionary returned by [_simulate_failover_test]. *)
Record failover_report : Type := {
  recovery_time_seconds : Q;
  normal_qps : Q;
  recovery_qps : Q;
  performance_impact_percent : Q;
  recovery_quality : string;
  target_recovery_time : Q;
  recovery_success : bool
}.

(** Lines 294-322: the report computed from the two measurements and
    the measured [recovery_time]. *)
Definition assess_recovery (normal_performance recovery_performance
  : performance) (recovery_time : Q) : result failover_report :=
  if Qeq_bool (avg_response_time normal_performance) 0
  then Raise ZeroDivisionError
  else
    let performance_degradation :=
      (avg_response_time normal_performance
       - avg_response_time recovery_performance)
      / avg_response_time normal_performance * 100 in
    let recovery_quality :=
      if Qle_bool recovery_time 30
         && Qle_bool (Qabs performance_degradation) 20
      then "EXCELLENT"
      else if Qle_bool recovery_time 60
              && Qle_bool (Qabs performance_degradation) 40
      then "GOOD"
      else "NEEDS_IMPROVEMENT" in
    Ok {| recovery_time_seconds := recovery_time;
          normal_qps := qps normal_performance;
          recovery_qps := qps recovery_performance;
          performance_impact_percent := Qabs performance_degradation;
          recovery_quality := recovery_quality;
          target_recovery_time := 30;
          recovery_success := Qle_bool recovery_time 30 |}.

(** The dictionary returned by [_test_memory_leak]. *)
Record leak_report : Type := {
  initial_memory_mb : Q;
  final_memory_mb : Q;
  memory_increase_mb : Q;
  memory_increase_rate : Q;
  connections_tested : nat;
  leak_suspected : bool;
  memory_samples : list Q
}.

(** Lines 188-209: the verdict computed from the two memory readings. *)
Definition leak_analysis (initial_memory final_memory : Q)
  (connections_created : nat) (memory_samples : list Q) : leak_report :=
  let memory_increase := final_memory - initial_memory in
  let memory_increase_rate :=
    if Qlt_bool 0 initial_memory
    then memory_increase / initial_memory * 100
    else 0 in
  {| initial_memory_mb := initial_memory;
     final_memory_mb := final_memory;
     memory_increase_mb := memory_increase;
     memory_increase_rate := memory_increase_rate;
     connections_tested := connections_created;
     leak_suspected :=
       Qlt_bool 5 memory_increase || Qlt_bool 10 memory_increase_rate;
     memory_samples := memory_samples |}.

(** The counters of [_simulate_long_running_test] and the figures
    computed from them (lines 132-137 and 145-151). *)
Module LongRunning.

Record report : Type := {
  total_requests : nat;
  error_count : nat;
  success_rate : Q;
  uptime_percentage : Q;
  avg_response_time_ms : Q
}.

End LongRunning.

Definition availability (total_requests error_count : nat)
  (response_times : list Q) : LongRunning.report :=
  let success_rate :=
    if (0 <? total_requests)%nat
    then inject_Z (Z.of_nat total_requests - Z.of_nat error_count)
         / inject_Z (Z.of_nat total_requests)
    else 0 in
  {| LongRunning.total_requests := total_requests;
     LongRunning.error_count := error_count;
     LongRunning.success_rate := success_rate;
     LongRunning.uptime_percentage := success_rate * 100;
     LongRunning.avg_response_time_ms :=
       match response_times with
       | [] => 0
       | _ => py_sum response_times
              / inject_Z (Z.of_nat (length response_times))
       end |}.

(** The query patterns of lines 89-94. *)
Definition load_queries : list string :=
  [ "SELECT COUNT(*) FROM information_schema.tables";
    "SELECT NOW(), CONNECTION_ID()";
    "SHOW STATUS LIKE 'Threads_connected'";
    "SELECT SLEEP(0.01)" ].

Section Suite.

Context (io_time sleep_late : nat -> Q).

(** [aiomysql.connect] for attempt [connection_id] of the batch of
    [batch_size] attempts: [None] when a connection came back,
    [Some msg] when it raised an exception [e] with [str(e) = msg]. *)
Context (connect : nat -> nat -> option string).

(** Outcome of the round trip of one query of [_measure_performance],
    per effect: completed or raised. *)
Context (query_completed : nat -> bool).

(** The [try] block of [create_connection] (lines 228-240). *)
Definition attempt (suite : StabilityTestSuite)
  (batch_size connection_id : nat) : option string :=
  match db_configs suite !! 0%nat with
  | None => Some "list index out of range"
  | Some _ => connect batch_size connection_id
  end.

(** The attempts of one batch that returned a connection, and the
    entries recorded for those that raised, by [connection_id]. *)
Definition succeeded (o : option string) : bool :=
  match o with None => true | Some _ => false end.

Definition successes (suite : StabilityTestSuite) (batch_size : nat) : nat :=
  length (List.filter (fun id => succeeded (attempt suite batch_size id))
            (seq 0 batch_size)).

Definition failure_entry (suite : StabilityTestSuite) (batch_size id : nat)
  : list connection_error :=
  match attempt suite batch_size id with
  | None => []
  | Some msg => [ {| batch_size := batch_size; connection_id := id;
                     error := msg |} ]
  end.

Definition failures (suite : StabilityTestSuite) (batch_size : nat)
  : list connection_error :=
  concat (map (failure_entry suite batch_size) (seq 0 batch_size)).

(** [create_connection] (lines 226-240) on the pair
    [(successful_connections, connection_errors)]. *)
Definition create_connection (suite : StabilityTestSuite) (batch_size : nat)
  (st : nat * list connection_error) (connection_id : nat)
  : nat * list connection_error :=
  match attempt suite batch_size connection_id with
  | None => (S st.1, st.2)
  | Some msg =>
      (st.1, st.2 ++ [ {| batch_size := batch_size;
                          connection_id := connection_id;
                          error := msg |} ])
  end.

(** One batch (lines 219-257) on the pair
    [(max_successful_connections, connection_errors)].  The tasks of
    [asyncio.gather] only add to two counters, so they are run in the
    order of their [connection_id]. *)
Definition run_batch (suite : StabilityTestSuite)
  (st : nat * list connection_error) (batch_size : nat)
  : nat * list connection_error :=
  let '(successful_connections, errors) :=
    fold_left (create_connection suite batch_size) (seq 0 batch_size)
      (0%nat, st.2) in
  (Nat.max st.1 successful_connections, errors).

Definition batch_sizes : list nat := [10; 50; 100; 200; 500]%nat.

(** [_test_connection_pool_exhaustion] (lines 211-268).  No clock
    reading enters the report, so the settle delays are left out. *)
Definition _test_connection_pool_exhaustion (suite : StabilityTestSuite)
  : pool_report :=
  let '(max_successful, errors) :=
    fold_left (run_batch suite) batch_sizes (0%nat, []) in
  {| max_successful_connections := max_successful;
     connection_errors := length errors;
     error_details := take 5 errors;
     connection_stability :=
       if (length errors <? 10)%nat then "GOOD" else "POOR" |}.

(** The [while] loop of [_measure_performance] (lines 333-348) on the
    triple [(request_count, response_times, error_count)]. *)
Fixpoint measure_loop (fuel : nat) (start_time duration : Q)
  (st : nat * list Q * nat) : M (nat * list Q * nat) :=
  match fuel with
  | O => out_of_fuel
  | S fuel' =>
      t ← time_time;
      if Qlt_bool (t - start_time) duration then
        let '(request_count, response_times, error_count) := st in
        query_start ← time_time;
        completed ← io io_time query_completed;
        st' ← (if completed : bool then
                 t' ← time_time;
                 let response_time := (t' - query_start) * 1000 in
                 mret (S request_count, response_times ++ [response_time],
                       error_count)
               else mret (request_count, response_times, S error_count));
        _ ← sleep sleep_late 0.1;
        measure_loop fuel' start_time duration st'
      else mret st
  end.

(** [_measure_performance] (lines 324-359). *)
Definition _measure_performance (fuel : nat) (suite : StabilityTestSuite)
  (duration : Q) (use_slave : bool) : M (result performance) :=
  match db_configs suite !! (if use_slave then 1 else 0)%nat with
  | None => mret (Raise IndexError)
  | Some config =>
      start_time ← time_time;
      st ← measure_loop fuel start_time duration (0%nat, [], 0%nat);
      let '(request_count, response_times, error_count) := st in
      t ← time_time;
      let actual_duration := t - start_time in
      if Qeq_bool actual_duration 0 then mret (Raise ZeroDivisionError)
      else
        mret (Ok {| qps := inject_Z (Z.of_nat request_count)
                           / actual_duration;
                    avg_response_time :=
                      match response_times with
                      | [] => 0
                      | _ => py_sum response_times
                             / inject_Z (Z.of_nat (length response_times))
                      end;
                    request_count := request_count;
                    error_count := error_count |})
  end.

(** [_simulate_failover_test] (lines 270-322). *)
Definition _simulate_failover_test (fuel : nat) (suite : StabilityTestSuite)
  : M (result failover_report) :=
  and_then (_measure_performance fuel suite 30 false)
    (fun normal_performance =>
       failure_start ← time_time;
       _ ← sleep sleep_late 5;
       and_then (_measure_performance fuel suite 30 true)
         (fun recovery_performance =>
            failure_end ← time_time;
            let recovery_time := failure_end - failure_start in
            mret (assess_recovery normal_performance recovery_performance
                    recovery_time))).

(** [psutil.Process().memory_info().rss], in bytes, per effect. *)
Context (memory_rss : nat -> Z).

(** [psutil.Process().memory_info().rss / 1024 / 1024]. *)
Definition memory_mb : M Q :=
  io io_time (fun n => inject_Z (memory_rss n) / 1024 / 1024).

(** One iteration of the loop of [_test_memory_leak] (lines 165-182) on
    the pair [(connections_created, memory_samples)].  Opening the
    connection, the query and the close that ends the [async with]
    block are round trips, each of which may raise. *)
Definition leak_round (suite : StabilityTestSuite) (i : nat)
  (st : nat * list Q) : M (nat * list Q) :=
  let '(connections_created, memory_samples) := st in
  st' ← match db_configs suite !! 0%nat with
        | None => mret st
        | Some config =>
            connected ← io io_time query_completed;
            if connected : bool then
              answered ← io io_time query_completed;
              if answered : bool then
                closed ← io io_time query_completed;
                if closed : bool then
                  if (i mod 10 =? 0)%nat then
                    current_memory ← memory_mb;
                    mret (S connections_created,
                          memory_samples ++ [current_memory])
                  else mret (S connections_created, memory_samples)
                else mret (S connections_created, memory_samples)
              else mret st
            else mret st
        end;
  _ ← sleep sleep_late 0.05;
  mret st'.

(** [_test_memory_leak] (lines 155-209). *)
Definition _test_memory_leak (suite : StabilityTestSuite) : M leak_report :=
  initial_memory ← memory_mb;
  st ← for_each (leak_round suite) (seq 0 100) (0%nat, []);
  final_memory ← memory_mb;
  mret (leak_analysis initial_memory final_memory st.1 st.2).

(** The loop of lines 96-103 on the pair
    [(total_requests, response_times)]; the flag tells whether every
    query returned. *)
Fixpoint run_queries (queries : list string) (st : nat * list Q)
  : M (bool * (nat * list Q)) :=
  match queries with
  | [] => mret (true, st)
  | query :: rest =>
      query_start ← time_time;
      completed ← io io_time query_completed;
      if completed : bool then
        t ← time_time;
        let response_time := (t - query_start) * 1000 in
        run_queries rest (S st.1, st.2 ++ [response_time])
      else mret (false, st)
  end.

(** The connection of one round of [continuous_load] (lines 85-103) on
    the pair [(total_requests, response_times)]: opening it, its four
    queries and the close that ends the [async with] block; the flag
    tells whether the block ended without an exception. *)
Definition load_attempt (suite : StabilityTestSuite) (st : nat * list Q)
  : M (bool * (nat * list Q)) :=
  match db_configs suite !! 0%nat with
  | None => mret (false, st)
  | Some config =>
      connected ← io io_time query_completed;
      if connected : bool then
        r ← run_queries load_queries st;
        if r.1 : bool then
          closed ← io io_time query_completed;
          mret (closed, r.2)
        else mret r
      else mret (false, st)
  end.

(** [continuous_load] (lines 80-109) on the triple
    [(total_requests, response_times, error_count)].  The task runs
    beside [monitor_resources]; the time that passes while it is
    suspended is part of the durations of its own round trips and
    sleeps. *)
Fixpoint continuous_load (fuel : nat) (suite : StabilityTestSuite)
  (start_time test_duration : Q) (st : nat * list Q * nat)
  : M (nat * list Q * nat) :=
  match fuel with
  | O => out_of_fuel
  | S fuel' =>
      t ← time_time;
      if Qlt_bool (t - start_time) test_duration then
        let '(total_requests, response_times, error_count) := st in
        r ← load_attempt suite (total_requests, response_times);
        if r.1 : bool then
          _ ← sleep sleep_late 0.1;
          continuous_load fuel' suite start_time test_duration
            (r.2.1, r.2.2, error_count)
        else
          _ ← sleep sleep_late 1;
          continuous_load fuel' suite start_time test_duration
            (r.2.1, r.2.2, S error_count)
      else mret st
  end.

(** The counters of [_simulate_long_running_test] (lines 70-75, 80-109)
    and the figures of lines 132-137. *)
Definition long_running_load (fuel : nat) (suite : StabilityTestSuite)
  : M LongRunning.report :=
  start_time ← time_time;
  st ← continuous_load fuel suite start_time 180 (0%nat, [], 0%nat);
  let '(total_requests, response_times, error_count) := st in
  mret (availability total_requests error_count response_times).

End Suite.

End StabilityTest.

(** * Properties *)

(** ** Arithmetic of the Python helpers *)

Lemma Qlt_bool_iff (x y : Q) : Qlt_bool x y = true <-> x < y.
Proof.
  unfold Qlt_bool. rewrite negb_true_iff.
  destruct (Qle_bool y x) eqn:E.
  - apply Qle_bool_iff in E. split; [discriminate | intros H; lra].
  - split; [intros _ | reflexivity].
    destruct (Qlt_le_dec x y) as [H | H]; [exact H |].
    apply Qle_bool_iff in H. congruence.
Qed.

Lemma Qlt_bool_false (x y : Q) : Qlt_bool x y = false <-> y <= x.
Proof.
  unfold Qlt_bool. rewrite negb_false_iff. apply Qle_bool_iff.
Qed.

Lemma Qle_bool_false (x y : Q) : Qle_bool x y = false <-> y < x.
Proof.
  rewrite <- Qlt_bool_iff. unfold Qlt_bool.
  destruct (Qle_bool x y); simpl; split; congruence.
Qed.

Lemma py_max_upper (xs : list Q) (x : Q) :
  x <= py_max x xs /\ Forall (fun y => y <= py_max x xs) xs.
Proof.
  unfold py_max. revert x. induction xs as [| y xs IH]; intros x; simpl.
  - split; [apply Qle_refl | constructor].
  - destruct (IH (if Qlt_bool x y then y else x)) as [H1 H2].
    destruct (Qlt_bool x y) eqn:E;
      [apply Qlt_bool_iff in E | apply Qlt_bool_false in E].
    + split; [lra |]. constructor; [exact H1 | exact H2].
    + split; [exact H1 |]. constructor; [lra | exact H2].
Qed.

Lemma py_min_lower (xs : list Q) (x : Q) :
  py_min x xs <= x /\ Forall (fun y => py_min x xs <= y) xs.
Proof.
  unfold py_min. revert x. induction xs as [| y xs IH]; intros x; simpl.
  - split; [apply Qle_refl | constructor].
  - destruct (IH (if Qlt_bool y x then y else x)) as [H1 H2].
    destruct (Qlt_bool y x) eqn:E;
      [apply Qlt_bool_iff in E | apply Qlt_bool_false in E].
    + split; [lra |]. constructor; [exact H1 | exact H2].
    + split; [exact H1 |]. constructor; [lra | exact H2].
Qed.

Lemma py_max_elem (xs : list Q) (x : Q) : py_max x xs ∈ x :: xs.
Proof.
  unfold py_max. revert x. induction xs as [| y xs IH]; intros x; simpl.
  - apply list_elem_of_here.
  - specialize (IH (if Qlt_bool x y then y else x)).
    apply elem_of_cons in IH as [IH | IH].
    + rewrite IH. destruct (Qlt_bool x y).
      * apply list_elem_of_further, list_elem_of_here.
      * apply list_elem_of_here.
    + now do 2 apply list_elem_of_further.
Qed.

Lemma py_min_elem (xs : list Q) (x : Q) : py_min x xs ∈ x :: xs.
Proof.
  unfold py_min. revert x. induction xs as [| y xs IH]; intros x; simpl.
  - apply list_elem_of_here.
  - specialize (IH (if Qlt_bool y x then y else x)).
    apply elem_of_cons in IH as [IH | IH].
    + rewrite IH. destruct (Qlt_bool y x).
      * apply list_elem_of_further, list_elem_of_here.
      * apply list_elem_of_here.
    + now do 2 apply list_elem_of_further.
Qed.

Lemma inject_nat_succ (n : nat) :
  inject_Z (Z.of_nat (S n)) == inject_Z (Z.of_nat n) + 1.
Proof.
  rewrite Nat2Z.inj_succ. unfold Z.succ. rewrite inject_Z_plus. reflexivity.
Qed.

Lemma fold_sum_nonneg (xs : list Q) (a : Q) :
  Forall (fun y => 0 <= y) xs -> 0 <= a -> 0 <= fold_left Qplus xs a.
Proof.
  revert a. induction xs as [| y xs IH]; intros a H Ha; [exact Ha |].
  inversion H; subst. cbn [fold_left]. apply IH; [assumption | lra].
Qed.

Lemma inject_nat_nonneg (n : nat) : 0 <= inject_Z (Z.of_nat n).
Proof. change 0 with (inject_Z 0). rewrite <- Zle_Qle. lia. Qed.

Lemma inject_nat_le (m n : nat) :
  (m <= n)%nat -> inject_Z (Z.of_nat m) <= inject_Z (Z.of_nat n).
Proof. intros H. rewrite <- Zle_Qle. lia. Qed.

Lemma fold_sum_bounds (xs : list Q) (a lo hi : Q) :
  Forall (fun y => lo <= y /\ y <= hi) xs ->
  a + inject_Z (Z.of_nat (length xs)) * lo <= fold_left Qplus xs a
  /\ fold_left Qplus xs a <= a + inject_Z (Z.of_nat (length xs)) * hi.
Proof.
  revert a. induction xs as [| y xs IH]; intros a H.
  - simpl. change (inject_Z (Z.of_nat 0)) with 0. lra.
  - inversion H as [| ? ? [Hlo Hhi] Hrest]; subst.
    destruct (IH (a + y) Hrest) as [H1 H2].
    cbn [fold_left length].
    assert (E1 : inject_Z (Z.of_nat (S (length xs))) * lo
                 == inject_Z (Z.of_nat (length xs)) * lo + lo)
      by (rewrite inject_nat_succ; ring).
    assert (E2 : inject_Z (Z.of_nat (S (length xs))) * hi
                 == inject_Z (Z.of_nat (length xs)) * hi + hi)
      by (rewrite inject_nat_succ; ring).
    lra.
Qed.

Lemma py_average_bounds (xs : list Q) (lo hi : Q) :
  xs <> [] ->
  Forall (fun y => lo <= y /\ y <= hi) xs ->
  lo <= py_sum xs / inject_Z (Z.of_nat (length xs))
  /\ py_sum xs / inject_Z (Z.of_nat (length xs)) <= hi.
Proof.
  intros Hne H. destruct (fold_sum_bounds xs 0 lo hi H) as [H1 H2].
  assert (Hn : 0 < inject_Z (Z.of_nat (length xs))).
  { destruct xs as [| y ys]; [done |].
    pose proof (inject_nat_succ (length ys)) as E. cbn [length].
    assert (0 <= inject_Z (Z.of_nat (length ys))).
    { change 0 with (inject_Z 0). rewrite <- Zle_Qle. lia. }
    lra. }
  unfold py_sum. split.
  - apply Qle_shift_div_l; [exact Hn |].
    rewrite Qmult_comm. lra.
  - apply Qle_shift_div_r; [exact Hn |].
    rewrite Qmult_comm. lra.
Qed.

(** ** Weighted random selection *)

Module SelectionProofs.

Import ConnectionManager.

Lemma cumulative_all (l : list (string * Q)) :
  cumulative l (length l) = py_sum (map snd l).
Proof. unfold cumulative. now rewrite firstn_all. Qed.

Lemma cumulative_S (l : list (string * Q)) (i : nat) (n : string) (w : Q) :
  l !! i = Some (n, w) -> cumulative l (S i) = cumulative l i + w.
Proof.
  intros H. unfold cumulative.
  rewrite (take_S_r l i (n, w) H), map_app, fold_left_app. reflexivity.
Qed.

(** The loop started with [c] behaves on [l] as the loop started with
    [0] behaves on a list whose prefix sums are shifted by [c]. *)
Lemma select_loop_first_fit (l : list (string * Q)) (r c : Q)
  (i : nat) (n : string) (w : Q) :
  l !! i = Some (n, w) ->
  r <= fold_left Qplus (map snd (take (S i) l)) c ->
  (forall j, (j < i)%nat -> fold_left Qplus (map snd (take (S j) l)) c < r) ->
  select_loop l r c = Some n.
Proof.
  revert c i. induction l as [| [n0 w0] l IH]; intros c i Hi Hle Hlt.
  - discriminate.
  - simpl. destruct i as [| i].
    + injection Hi as -> ->. simpl in Hle.
      apply Qle_bool_iff in Hle. now rewrite Hle.
    + assert (H0 : Qle_bool r (c + w0) = false).
      { apply Qle_bool_false. apply (Hlt 0%nat). lia. }
      rewrite H0. apply (IH (c + w0) i); [exact Hi | exact Hle |].
      intros j Hj. apply (Hlt (S j)). lia.
Qed.

Lemma select_loop_finds (l : list (string * Q)) (r c : Q) :
  l <> [] -> r <= fold_left Qplus (map snd l) c ->
  exists i n w,
    l !! i = Some (n, w)
    /\ r <= fold_left Qplus (map snd (take (S i) l)) c
    /\ forall j, (j < i)%nat ->
         fold_left Qplus (map snd (take (S j) l)) c < r.
Proof.
  revert c. induction l as [| [n0 w0] l IH]; intros c Hne Hle; [done |].
  destruct (Qle_bool r (c + w0)) eqn:E.
  - exists 0%nat, n0, w0. split; [reflexivity |]. split.
    + simpl. now apply Qle_bool_iff.
    + intros j Hj. lia.
  - apply Qle_bool_false in E.
    destruct l as [| p l'].
    { simpl in Hle. lra. }
    destruct (IH (c + w0)) as (i & n & w & Hi & Hle' & Hlt);
      [done | exact Hle |].
    exists (S i), n, w. split; [exact Hi |]. split; [exact Hle' |].
    intros [| j] Hj; [exact E |]. apply Hlt. lia.
Qed.

Lemma select_loop_elem (l : list (string * Q)) (r c : Q) (n : string) :
  select_loop l r c = Some n -> n ∈ map fst l.
Proof.
  revert c. induction l as [| [n0 w0] l IH]; intros c; simpl; [done |].
  destruct (Qle_bool r (c + w0)).
  - intros [= ->]. apply list_elem_of_here.
  - intros H. apply list_elem_of_further. eapply IH, H.
Qed.

Lemma select_loop_none (l : list (string * Q)) (r c : Q) :
  (forall j, (j < length l)%nat ->
     fold_left Qplus (map snd (take (S j) l)) c < r) ->
  select_loop l r c = None.
Proof.
  revert c. induction l as [| [n0 w0] l IH]; intros c H; [reflexivity |].
  simpl. assert (H0 : Qle_bool r (c + w0) = false).
  { apply Qle_bool_false. apply (H 0%nat). simpl. lia. }
  rewrite H0. apply IH. intros j Hj. apply (H (S j)). simpl. lia.
Qed.

Lemma last_elem (l : list (string * Q)) (p : string * Q) :
  last l = Some p -> p.1 ∈ map fst l.
Proof.
  intros H. apply list_elem_of_fmap. exists p. split; [reflexivity |].
  rewrite last_lookup in H. eapply list_elem_of_lookup_2, H.
Qed.

(** The selection on a non-empty list, case by case. *)
Lemma selection_zero_total (n : string) (w : Q) (rest : list (string * Q))
  (r : Q) :
  py_sum (map snd ((n, w) :: rest)) == 0 ->
  _weighted_random_selection ((n, w) :: rest) r = Ok n.
Proof.
  intros H. unfold _weighted_random_selection.
  apply Qeq_bool_iff in H. now rewrite H.
Qed.

Lemma selection_first_fit (l : list (string * Q)) (r : Q)
  (i : nat) (n : string) (w : Q) :
  ~ py_sum (map snd l) == 0 ->
  l !! i = Some (n, w) ->
  r <= cumulative l (S i) ->
  (forall j, (j < i)%nat -> cumulative l (S j) < r) ->
  _weighted_random_selection l r = Ok n.
Proof.
  intros HW Hi Hle Hlt. unfold _weighted_random_selection.
  destruct (Qeq_bool (py_sum (map snd l)) 0) eqn:E.
  { apply Qeq_bool_iff in E. contradiction. }
  now rewrite (select_loop_first_fit l r 0 i n w Hi Hle Hlt).
Qed.

Lemma selection_fallback (l : list (string * Q)) (r : Q) :
  ~ py_sum (map snd l) == 0 ->
  (forall j, (j < length l)%nat -> cumulative l (S j) < r) ->
  _weighted_random_selection l r
  = match last l with
    | Some (n, _) => Ok n
    | None => Raise IndexError
    end.
Proof.
  intros HW H. unfold _weighted_random_selection.
  destruct (Qeq_bool (py_sum (map snd l)) 0) eqn:E.
  { apply Qeq_bool_iff in E. contradiction. }
  now rewrite (select_loop_none l r 0 H).
Qed.

(** C5: on the eligible replicas in registration order, a total weight
    of zero returns the first replica; otherwise, for a draw [r] of at
    most the total weight, the replica returned is the first one whose
    cumulative weight reaches [r], the comparison being inclusive: a
    replica whose cumulative weight equals [r] is returned when every
    earlier cumulative weight lies strictly below [r]. *)
Theorem weighted_selection_first_fit (l : list (string * Q)) (r : Q) :
  l <> [] ->
  (py_sum (map snd l) == 0 ->
     exists n w, l !! 0%nat = Some (n, w)
                 /\ _weighted_random_selection l r = Ok n)
  /\ (~ py_sum (map snd l) == 0 -> r <= py_sum (map snd l) ->
       exists i n w,
         l !! i = Some (n, w)
         /\ _weighted_random_selection l r = Ok n
         /\ r <= cumulative l (S i)
         /\ forall j, (j < i)%nat -> cumulative l (S j) < r)
  /\ (~ py_sum (map snd l) == 0 ->
       forall i n w,
         l !! i = Some (n, w) ->
         r == cumulative l (S i) ->
         (forall j, (j < i)%nat -> cumulative l (S j) < r) ->
         _weighted_random_selection l r = Ok n).
Proof.
  intros Hne. split; [| split].
  - intros HW. destruct l as [| [n w] rest]; [done |].
    exists n, w. split; [reflexivity |]. now apply selection_zero_total.
  - intros HW Hle.
    destruct (select_loop_finds l r 0 Hne Hle) as (i & n & w & Hi & H1 & H2).
    exists i, n, w. split; [exact Hi |]. split; [| split].
    + now apply (selection_first_fit l r i n w).
    + exact H1.
    + exact H2.
  - intros HW i n w Hi Heq Hlt.
    apply (selection_first_fit l r i n w); [exact HW | exact Hi | | exact Hlt].
    rewrite Heq. apply Qle_refl.
Qed.

Lemma weighted_selection_first_fit_witness :
  let l := [("slave_1", 1.2); ("slave_2", 0.8)] in
  _weighted_random_selection l 1.2 = Ok "slave_1"
  /\ exists i n w,
       l !! i = Some (n, w)
       /\ _weighted_random_selection l 1.3 = Ok n
       /\ 1.3 <= cumulative l (S i)
       /\ forall j, (j < i)%nat -> cumulative l (S j) < 1.3.
Proof.
  intros l.
  assert (Hne : l <> []) by discriminate.
  assert (HW : ~ py_sum (map snd l) == 0) by (vm_compute; discriminate).
  split.
  - apply (proj2 (proj2 (weighted_selection_first_fit l 1.2 Hne)) HW
             0%nat "slave_1" 1.2).
    + reflexivity.
    + vm_compute. reflexivity.
    + intros j Hj. lia.
  - apply (proj1 (proj2 (weighted_selection_first_fit l 1.3 Hne)) HW).
    vm_compute. discriminate.
Defined.

(** C10: on a non-empty list the selection returns, for every draw, the
    name of a server of the list; when the loop ends without a server
    whose cumulative weight reaches the draw, the last server is
    returned, whatever its weight. *)
Theorem weighted_selection_total (l : list (string * Q)) (r : Q) :
  l <> [] ->
  (exists n, _weighted_random_selection l r = Ok n /\ n ∈ map fst l)
  /\ (~ py_sum (map snd l) == 0 ->
       (forall j, (j < length l)%nat -> cumulative l (S j) < r) ->
       exists n w, last l = Some (n, w)
                   /\ _weighted_random_selection l r = Ok n).
Proof.
  intros Hne. split.
  - unfold _weighted_random_selection.
    destruct (Qeq_bool (py_sum (map snd l)) 0).
    + destruct l as [| [n w] rest]; [done |].
      exists n. split; [reflexivity | apply list_elem_of_here].
    + destruct (select_loop l r 0) as [n |] eqn:E.
      * exists n. split; [reflexivity |]. eapply select_loop_elem, E.
      * destruct (last l) as [[n w] |] eqn:El.
        -- exists n. split; [reflexivity |].
           apply (last_elem l (n, w) El).
        -- apply last_None in El. contradiction.
  - intros HW Hall. rewrite (selection_fallback l r HW Hall).
    destruct (last l) as [[n w] |] eqn:El.
    + exists n, w. split; reflexivity.
    + apply last_None in El. contradiction.
Qed.

Lemma weighted_selection_total_witness :
  let l := [("slave_1", 1); ("slave_2", 0)] in
  (exists n, _weighted_random_selection l 2 = Ok n /\ n ∈ map fst l)
  /\ exists n w, last l = Some (n, w)
                 /\ _weighted_random_selection l 2 = Ok n.
Proof.
  intros l.
  assert (Hne : l <> []) by discriminate.
  destruct (weighted_selection_total l 2 Hne) as [H1 H2].
  split; [exact H1 |]. apply H2.
  - vm_compute. discriminate.
  - intros j Hj. simpl in Hj.
    destruct j as [| [| j]]; [vm_compute; reflexivity .. | lia].
Defined.

(** C1, as amended: when the total weight is positive and the draw [r]
    lies in [[0, W]], the selection returns a replica of strictly
    positive weight, unless [r] is [0] and the first replica has weight
    [0]. *)
Theorem weighted_selection_positive (l : list (string * Q)) (r : Q) :
  0 < py_sum (map snd l) ->
  0 <= r -> r <= py_sum (map snd l) ->
  (0 < r \/ forall n w, l !! 0%nat = Some (n, w) -> ~ w == 0) ->
  exists i n w,
    l !! i = Some (n, w)
    /\ _weighted_random_selection l r = Ok n
    /\ 0 < w.
Proof.
  intros HW H0 Hle Hfirst.
  assert (Hne : l <> []).
  { intros ->. vm_compute in HW. discriminate. }
  assert (HW' : ~ py_sum (map snd l) == 0) by lra.
  destruct (select_loop_finds l r 0 Hne Hle) as (i & n & w & Hi & H1 & H2).
  exists i, n, w. split; [exact Hi |]. split.
  { now apply (selection_first_fit l r i n w). }
  fold (cumulative l (S i)) in H1.
  rewrite (cumulative_S l i n w Hi) in H1.
  destruct i as [| i].
  - assert (Hc : cumulative l 0 = 0) by reflexivity.
    rewrite Hc in H1.
    destruct Hfirst as [Hr | Hw]; [lra |].
    specialize (Hw n w Hi). lra.
  - specialize (H2 i). fold (cumulative l (S i)) in H2.
    assert (cumulative l (S i) < r) by (apply H2; lia). lra.
Qed.

Lemma weighted_selection_positive_witness :
  exists i n w,
    [("slave_1", 0); ("slave_2", 1.2)] !! i = Some (n, w)
    /\ _weighted_random_selection
         [("slave_1", 0); ("slave_2", 1.2)] 0.5 = Ok n
    /\ 0 < w.
Proof.
  apply (weighted_selection_positive
           [("slave_1", 0); ("slave_2", 1.2)] 0.5).
  - vm_compute. reflexivity.
  - vm_compute. discriminate.
  - vm_compute. discriminate.
  - left. vm_compute. reflexivity.
Defined.

(** C1, as stated, fails: with weights [0] and [1] and the draw [0], the
    total weight is positive, the draw lies in [[0, W]], and the replica
    returned is the first one, whose weight is [0]. *)
Lemma weighted_selection_zero_weight_chosen :
  ~ (forall (l : list (string * Q)) (r : Q),
       0 < py_sum (map snd l) ->
       0 <= r -> r <= py_sum (map snd l) ->
       forall n, _weighted_random_selection l r = Ok n ->
       exists i w, l !! i = Some (n, w) /\ 0 < w).
Proof.
  intros H.
  destruct (H [("slave_1", 0); ("slave_2", 1)] 0) with (n := "slave_1")
    as (i & w & Hi & Hw).
  - vm_compute. reflexivity.
  - vm_compute. discriminate.
  - vm_compute. discriminate.
  - vm_compute. reflexivity.
  - destruct i as [| [| i]]; simpl in Hi; try discriminate.
    injection Hi as <-. vm_compute in Hw. discriminate.
Qed.

End SelectionProofs.

(** ** Server names *)

Module NameProofs.

Import ConnectionManager.

Lemma to_uint_nonnil (n : nat) : Nat.to_uint n <> Decimal.Nil.
Proof.
  intros H. pose proof (Unsigned.of_to n) as E. rewrite H in E.
  simpl in E. subst n. discriminate.
Qed.

Lemma string_of_uint_nonempty (d : Decimal.uint) :
  d <> Decimal.Nil -> NilEmpty.string_of_uint d <> EmptyString.
Proof. destruct d; simpl; congruence. Qed.

Lemma str_of_nat_inj (j k : nat) : str_of_nat j = str_of_nat k -> j = k.
Proof.
  unfold str_of_nat. intros H. apply Unsigned.to_uint_inj.
  pose proof (NilEmpty.usu (Nat.to_uint j)) as Hj.
  pose proof (NilEmpty.usu (Nat.to_uint k)) as Hk.
  rewrite H in Hj. congruence.
Qed.

Lemma py_int_str_of_nat (k : nat) : py_int (str_of_nat k) = Ok (Z.of_nat k).
Proof.
  unfold py_int, str_of_nat.
  pose proof (string_of_uint_nonempty _ (to_uint_nonnil k)) as Hne.
  destruct (NilEmpty.string_of_uint (Nat.to_uint k)) eqn:E; [done |].
  rewrite <- E, NilEmpty.usu, Unsigned.of_to. reflexivity.
Qed.

Lemma split_digits (d : Decimal.uint) :
  split_on "_" (NilEmpty.string_of_uint d) = [NilEmpty.string_of_uint d].
Proof. induction d; simpl; [reflexivity | now rewrite IHd ..]. Qed.

Lemma split_slave_name (k : nat) :
  split_on "_" ("slave_" +:+ str_of_nat k) = ["slave"; str_of_nat k].
Proof.
  unfold str_of_nat. cbv [String.append String.app]. simpl.
  now rewrite split_digits.
Qed.

Lemma slave_index_server_name (k : nat) :
  (1 <= k)%nat -> slave_index (server_name k) = Ok (Z.of_nat k - 1)%Z.
Proof.
  intros Hk. unfold server_name.
  destruct (Nat.eqb_spec k 0) as [-> | _]; [lia |].
  unfold slave_index. rewrite split_slave_name. simpl.
  now rewrite py_int_str_of_nat.
Qed.

Lemma prefix_server_name (k : nat) :
  String.prefix "slave_" (server_name k) = negb (k =? 0)%nat.
Proof.
  unfold server_name. destruct (k =? 0)%nat; [reflexivity |].
  simpl. now destruct (str_of_nat k).
Qed.

Lemma server_name_inj (j k : nat) : server_name j = server_name k -> j = k.
Proof.
  unfold server_name.
  destruct (Nat.eqb_spec j 0) as [-> | Hj], (Nat.eqb_spec k 0) as [-> | Hk];
    try reflexivity; try discriminate.
  intros [= H]. now apply str_of_nat_inj.
Qed.

Lemma py_setitem_in_range {A} (l : list A) (k : nat) (v : A) :
  (1 <= k <= length l)%nat ->
  py_setitem l (Z.of_nat k - 1) v = Ok (<[(k - 1)%nat := v]> l).
Proof.
  intros Hk. unfold py_setitem, py_index.
  destruct (Z.leb_spec 0 (Z.of_nat k - 1)); [| lia].
  destruct (Z.ltb_spec (Z.of_nat k - 1) (Z.of_nat (length l))); [| lia].
  simpl. do 2 f_equal. lia.
Qed.

End NameProofs.

(** ** Health check *)

Module HealthProofs.

Import ConnectionManager NameProofs.

Section Probing.

Context (probe : string -> probe_result).

Lemma adjust_weight_master (m : DatabaseConnectionManager) (w : Q) :
  adjust_weight m (server_name 0) w = Ok m.
Proof. reflexivity. Qed.

Lemma adjust_weight_slave (m : DatabaseConnectionManager) (k : nat) (w : Q) :
  (1 <= k <= length (slave_weights m))%nat ->
  adjust_weight m (server_name k) w
  = Ok (set_slave_weights m (<[(k - 1)%nat:=w]> (slave_weights m))).
Proof.
  intros Hk. unfold adjust_weight.
  rewrite prefix_server_name.
  destruct (Nat.eqb_spec k 0) as [-> | _]; [lia |]. simpl.
  rewrite slave_index_server_name by lia. simpl.
  rewrite py_setitem_in_range by lia. reflexivity.
Qed.

Lemma probe_server_effect (entry : string * Pool)
  (m : DatabaseConnectionManager) (k : nat) :
  entry.1 = server_name k ->
  (k <= length (slave_weights m))%nat ->
  probe_server probe entry m = Ok (probe_effect probe m k).
Proof.
  intros He Hk. unfold probe_server, probe_effect, probe_except,
    probed_health, probed_weight.
  rewrite He. destruct (Nat.eqb_spec k 0) as [-> | Hk0].
  - destruct (probe (server_name 0)); now rewrite adjust_weight_master.
  - destruct (probe (server_name k));
      now rewrite adjust_weight_slave by (simpl; lia).
Qed.

Lemma probe_effect_length (m : DatabaseConnectionManager) (k : nat) :
  length (slave_weights (probe_effect probe m k)) = length (slave_weights m).
Proof.
  unfold probe_effect. destruct (k =? 0)%nat; simpl; [reflexivity |].
  apply length_insert.
Qed.

Lemma probe_effect_health (m : DatabaseConnectionManager) (k j : nat) :
  server_health (probe_effect probe m k) !! server_name j
  = if decide (j = k) then Some (probed_health probe (server_name k))
    else server_health m !! server_name j.
Proof.
  assert (E : server_health (probe_effect probe m k)
              = <[server_name k:=probed_health probe (server_name k)]>
                  (server_health m)).
  { unfold probe_effect. now destruct (k =? 0)%nat. }
  rewrite E. destruct (decide (j = k)) as [-> | Hne].
  - apply lookup_insert_eq.
  - apply lookup_insert_ne. intros H. apply server_name_inj in H. auto.
Qed.

Lemma probe_effect_weight (m : DatabaseConnectionManager) (k j : nat) :
  (k <= length (slave_weights m))%nat -> (1 <= j)%nat ->
  slave_weights (probe_effect probe m k) !! (j - 1)%nat
  = if decide (j = k) then Some (probed_weight probe (server_name k))
    else slave_weights m !! (j - 1)%nat.
Proof.
  intros Hk Hj. unfold probe_effect.
  destruct (Nat.eqb_spec k 0) as [-> | Hk0]; simpl.
  - destruct (decide (j = 0%nat)); [lia | reflexivity].
  - destruct (decide (j = k)) as [-> | Hne].
    + apply list_lookup_insert_eq. lia.
    + apply list_lookup_insert_ne. lia.
Qed.

Lemma probe_effect_frame (m : DatabaseConnectionManager) (k : nat) :
  connection_pools (probe_effect probe m k) = connection_pools m
  /\ last_health_check (probe_effect probe m k) = last_health_check m
  /\ health_check_interval (probe_effect probe m k)
     = health_check_interval m.
Proof. unfold probe_effect. now destruct (k =? 0)%nat. Qed.

Lemma health_loop (pools : list (string * Pool))
  (m : DatabaseConnectionManager) :
  (forall name, name ∈ map fst pools ->
     exists k, name = server_name k
               /\ (k <= length (slave_weights m))%nat) ->
  exists m',
    foldM (probe_server probe) pools m = Ok m'
    /\ length (slave_weights m') = length (slave_weights m)
    /\ connection_pools m' = connection_pools m
    /\ (forall j,
          server_health m' !! server_name j
          = if decide (server_name j ∈ map fst pools)
            then Some (probed_health probe (server_name j))
            else server_health m !! server_name j)
    /\ (forall j, (1 <= j)%nat ->
          slave_weights m' !! (j - 1)%nat
          = if decide (server_name j ∈ map fst pools)
            then Some (probed_weight probe (server_name j))
            else slave_weights m !! (j - 1)%nat).
Proof.
  revert m. induction pools as [| e rest IH]; intros m Hnames.
  - exists m. simpl. repeat split; intros; case_decide; try reflexivity;
      exfalso; eapply not_elem_of_nil; eassumption.
  - destruct (Hnames e.1) as (k & He & Hk); [apply list_elem_of_here |].
    destruct (IH (probe_effect probe m k)) as (m' & Hrun & Hlen & Hpools & Hh & Hw).
    { intros name Hin. rewrite probe_effect_length.
      apply Hnames. simpl. now apply list_elem_of_further. }
    exists m'. simpl. rewrite (probe_server_effect e m k He Hk). simpl.
    split; [exact Hrun |].
    split; [now rewrite Hlen, probe_effect_length |].
    split; [rewrite Hpools; apply probe_effect_frame |].
    split.
    + intros j. rewrite Hh, probe_effect_health, He.
      destruct (decide (server_name j ∈ map fst rest)) as [Hin | Hnin].
      * rewrite decide_True; [reflexivity |]. now apply list_elem_of_further.
      * destruct (decide (j = k)) as [-> | Hne].
        -- rewrite decide_True; [reflexivity | apply list_elem_of_here].
        -- rewrite decide_False; [reflexivity |].
           intros [H | H]%elem_of_cons; [| contradiction].
           apply server_name_inj in H. contradiction.
    + intros j Hj. rewrite (Hw j Hj), (probe_effect_weight m k j Hk Hj), He.
      destruct (decide (server_name j ∈ map fst rest)) as [Hin | Hnin].
      * rewrite decide_True; [reflexivity |]. now apply list_elem_of_further.
      * destruct (decide (j = k)) as [-> | Hne].
        -- rewrite decide_True; [reflexivity | apply list_elem_of_here].
        -- rewrite decide_False; [reflexivity |].
           intros [H | H]%elem_of_cons; [| contradiction].
           apply server_name_inj in H. contradiction.
Qed.

Lemma weight_tier_ms (response_time : Q) :
  (response_time * 1000 < 50 -> weight_tier response_time = 1.2)
  /\ (50 <= response_time * 1000 -> response_time * 1000 < 100 ->
      weight_tier response_time = 1.0)
  /\ (100 <= response_time * 1000 -> weight_tier response_time = 0.8).
Proof.
  unfold weight_tier.
  destruct (Qlt_bool response_time 0.05) eqn:E1;
    [apply Qlt_bool_iff in E1 | apply Qlt_bool_false in E1];
    (destruct (Qlt_bool response_time 0.1) eqn:E2;
     [apply Qlt_bool_iff in E2 | apply Qlt_bool_false in E2]);
    repeat split; intros; try reflexivity; exfalso; lra.
Qed.

(** C6: when the health check probes (it is forced, or the interval has
    elapsed), every replica that has a pool is marked healthy after a
    successful probe, with weight [1.2] for a latency below 50 ms, [1.0]
    from 50 ms and below 100 ms, [0.8] from 100 ms on (so 30 ms, 80 ms
    and 150 ms give [1.2], [1.0] and [0.8]), and is marked unhealthy
    with weight [0] after a failed probe.  The pools are those of
    servers named by [initialize_pools], the replica [slave_k] having a
    weight slot. *)
Theorem health_check_records_probes (m : DatabaseConnectionManager)
  (current_time : Q) (force : bool) :
  (force = true
   \/ health_check_interval m <= current_time - last_health_check m) ->
  (forall name, name ∈ map fst (connection_pools m) ->
     exists k, name = server_name k
               /\ (k <= length (slave_weights m))%nat) ->
  exists m',
    health_check probe m current_time force = Ok m'
    /\ (forall k, (1 <= k)%nat ->
          server_name k ∈ map fst (connection_pools m) ->
          (forall response_time,
             probe (server_name k) = ProbeOk response_time ->
             server_health m' !! server_name k = Some true
             /\ slave_weights m' !! (k - 1)%nat
                = Some (weight_tier response_time)
             /\ (response_time * 1000 < 50 ->
                 slave_weights m' !! (k - 1)%nat = Some 1.2)
             /\ (50 <= response_time * 1000 ->
                 response_time * 1000 < 100 ->
                 slave_weights m' !! (k - 1)%nat = Some 1.0)
             /\ (100 <= response_time * 1000 ->
                 slave_weights m' !! (k - 1)%nat = Some 0.8))
          /\ (forall e,
                probe (server_name k) = ProbeFailed e ->
                server_health m' !! server_name k = Some false
                /\ slave_weights m' !! (k - 1)%nat = Some 0))
    /\ weight_tier 0.030 = 1.2
    /\ weight_tier 0.080 = 1.0
    /\ weight_tier 0.150 = 0.8.
Proof.
  intros Hgate Hnames.
  destruct (health_loop (connection_pools m) m Hnames)
    as (m' & Hrun & _ & _ & Hh & Hw).
  exists (set_last_health_check m' current_time).
  split; [| split; [| repeat split]].
  - unfold health_check.
    assert (G : negb force
                && Qlt_bool (current_time - last_health_check m)
                     (health_check_interval m) = false).
    { destruct Hgate as [-> | Hle]; [reflexivity |].
      apply andb_false_iff. right. now apply Qlt_bool_false. }
    rewrite G, Hrun. reflexivity.
  - intros k Hk Hin. simpl.
    specialize (Hh k). specialize (Hw k Hk).
    rewrite decide_True in Hh by exact Hin.
    rewrite decide_True in Hw by exact Hin.
    unfold probed_health in Hh. unfold probed_weight in Hw.
    split.
    + intros rt Hp. rewrite Hp in Hh, Hw.
      destruct (weight_tier_ms rt) as (T1 & T2 & T3).
      split; [exact Hh |]. split; [exact Hw |].
      split; [| split].
      * intros H. now rewrite Hw, T1.
      * intros H1 H2. now rewrite Hw, T2.
      * intros H. now rewrite Hw, T3.
    + intros e Hp. rewrite Hp in Hh, Hw. split; assumption.
Qed.

End Probing.

Lemma health_check_records_probes_witness :
  let create_pool := fun (c : Config) (lo hi : nat) =>
    Ok {| pool_config := c; minsize := lo; maxsize := hi |} in
  let probe := fun name : string =>
    if String.eqb name "slave_1" then ProbeOk 0.030 else ProbeOk 0.010 in
  let m := initialize_pools create_pool (new_manager example_configs) in
  exists m',
    health_check probe m 100 true = Ok m'
    /\ server_health m' !! "slave_1" = Some true
    /\ slave_weights m' !! 0%nat = Some 1.2.
Proof.
  intros create_pool probe m.
  destruct (health_check_records_probes probe m 100 true)
    as (m' & Hrun & Hk & _).
  - left. reflexivity.
  - intros name Hin. vm_compute in Hin.
    apply elem_of_cons in Hin as [-> | Hin].
    { exists 0%nat. split; [reflexivity | vm_compute; lia]. }
    apply elem_of_cons in Hin as [-> | Hin].
    { exists 1%nat. split; [reflexivity | vm_compute; lia]. }
    exfalso. eapply not_elem_of_nil, Hin.
  - exists m'. split; [exact Hrun |].
    destruct (Hk 1%nat) as [Hok _]; [lia | |].
    { vm_compute. apply list_elem_of_further, list_elem_of_here. }
    destruct (Hok 0.030) as (H1 & _ & H2 & _); [reflexivity |].
    split; [exact H1 |]. apply H2. vm_compute. reflexivity.
Defined.

(** The pools opened by [initialize_pools] on a fresh manager are named
    as the theorem above requires. *)
Lemma dict_set_keys {V} (d : list (string * V)) (k name : string) (v : V) :
  name ∈ map fst (dict_set d k v) -> name = k \/ name ∈ map fst d.
Proof.
  induction d as [| [k' v'] d IH]; simpl.
  - intros H%list_elem_of_singleton. now left.
  - destruct (String.eqb k' k); simpl; intros [-> | H]%elem_of_cons.
    + now left.
    + right. now apply list_elem_of_further.
    + right. apply list_elem_of_here.
    + destruct (IH H) as [-> | H']; [now left |].
      right. now apply list_elem_of_further.
Qed.

Lemma initialize_pools_fold
  (create_pool : Config -> nat -> nat -> result Pool)
  (l : list Config) (f : nat -> nat) (m : DatabaseConnectionManager) :
  let m' := fold_left (initialize_pool create_pool)
              (imap (fun i c => (f i, c)) l) m in
  slave_weights m' = slave_weights m
  /\ forall name, name ∈ map fst (connection_pools m') ->
       name ∈ map fst (connection_pools m)
       \/ exists j, (j < length l)%nat /\ name = server_name (f j).
Proof.
  revert f m. induction l as [| c l IH]; intros f m.
  - split; [reflexivity |]. intros name H. now left.
  - change (imap (fun i c => (f i, c)) (c :: l))
      with ((f 0%nat, c) :: imap (fun i c => ((f ∘ S) i, c)) l).
    cbn [fold_left].
    destruct (IH (f ∘ S) (initialize_pool create_pool m (f 0%nat, c)))
      as [Hw Hn].
    cbn zeta. split.
    + rewrite Hw. unfold initialize_pool.
      now destruct (create_pool c 5%nat (pool_size m)).
    + intros name H. destruct (Hn name H) as [H1 | (j & Hj & ->)].
      * unfold initialize_pool in H1.
        destruct (create_pool c 5%nat (pool_size m)); simpl in H1.
        -- apply dict_set_keys in H1 as [-> | H1]; [| now left].
           right. exists 0%nat. split; [simpl; lia | reflexivity].
        -- now left.
      * right. exists (S j). split; [simpl; lia | reflexivity].
Qed.

Lemma initialize_pools_names
  (create_pool : Config -> nat -> nat -> result Pool)
  (configs : list Config) :
  let m := initialize_pools create_pool (new_manager configs) in
  forall name, name ∈ map fst (connection_pools m) ->
    exists k, name = server_name k
              /\ (k <= length (slave_weights m))%nat.
Proof.
  intros m name Hin.
  destruct (initialize_pools_fold create_pool configs (fun i => i)
              (new_manager configs)) as [Hw Hn].
  fold (enumerate configs) in Hw, Hn.
  change (db_configs (new_manager configs)) with configs in *.
  destruct (Hn name Hin) as [H | (j & Hj & ->)].
  { simpl in H. exfalso. eapply not_elem_of_nil, H. }
  exists j. split; [reflexivity |].
  unfold m, initialize_pools.
  change (db_configs (new_manager configs)) with configs.
  rewrite Hw. simpl. rewrite length_replicate.
  destruct (Nat.ltb_spec 1 (length configs)).
  - rewrite length_drop. lia.
  - simpl. lia.
Qed.

End HealthProofs.

(** ** Registration and read acquisition *)

Module RouterProofs.

Import ConnectionManager.

(** C4, as amended: the constructor accepts every list of
    configurations, the empty one included; it records the first entry
    (if any) as master, the others as replicas with weight [1.0], and
    opens no pool. *)
Theorem init_accepts_every_list (configs : list Config) :
  exists m,
    __init__ configs = Ok m
    /\ db_configs m = configs
    /\ master_config m = head configs
    /\ slave_configs m = tail configs
    /\ slave_weights m = replicate (length (tail configs)) 1.0
    /\ connection_pools m = [].
Proof.
  eexists. split; [reflexivity |]. simpl.
  destruct configs as [| c [| c' configs]]; simpl; repeat split.
Qed.

(** C4, as stated, fails: the empty list is accepted, nothing is
    raised. *)
Lemma init_empty_list_not_rejected :
  ~ (forall configs : list Config,
       configs = [] -> exists e, __init__ configs = Raise e).
Proof.
  intros H. destruct (H [] eq_refl) as [e He]. discriminate.
Qed.

Section Acquisition.

Context (m : DatabaseConnectionManager).

Lemma collect_none (l : list Config) (f : nat -> nat)
  (acc : list (string * Q)) :
  (forall j, (j < length l)%nat -> available m (f j) = false) ->
  foldM (collect_slave m) (imap (fun i x => (f i, x)) l) acc = Ok acc.
Proof.
  revert f. induction l as [| x l IH]; intros f H; [reflexivity |].
  simpl. unfold collect_slave at 1.
  pose proof (H 0%nat ltac:(simpl; lia)) as H0.
  rewrite H0. simpl. apply (IH (f ∘ S)).
  intros j Hj. apply (H (S j)). simpl. lia.
Qed.

Lemma no_available_slaves :
  (forall i, (i < length (slave_configs m))%nat -> available m i = false) ->
  available_slaves m = Ok [].
Proof.
  intros H. unfold available_slaves, enumerate.
  apply (collect_none (slave_configs m) (fun i => i) [] H).
Qed.

End Acquisition.




End RouterProofs.

(** ** Life cycle of the manager *)

Module LifecycleProofs.

Import ConnectionManager NameProofs.

Lemma dict_get_set_eq {V} (d : list (string * V)) (k : string) (v : V) :
  dict_get (dict_set d k v) k = Some v.
Proof.
  induction d as [| [k' v'] d IH]; simpl.
  - now rewrite String.eqb_refl.
  - destruct (String.eqb k' k) eqn:E; simpl.
    + now rewrite String.eqb_refl.
    + now rewrite E.
Qed.

Lemma dict_get_set_ne {V} (d : list (string * V)) (k k' : string) (v : V) :
  k <> k' -> dict_get (dict_set d k v) k' = dict_get d k'.
Proof.
  intros Hne. induction d as [| [k0 v0] d IH]; simpl.
  - destruct (String.eqb_spec k k'); [contradiction | reflexivity].
  - destruct (String.eqb_spec k0 k) as [-> | Hk]; simpl.
    + destruct (String.eqb_spec k k'); [contradiction | reflexivity].
    + destruct (String.eqb_spec k0 k'); [reflexivity | exact IH].
Qed.

Lemma dict_set_fresh {V} (d : list (string * V)) (k : string) (v : V) :
  k ∉ map fst d -> dict_set d k v = d ++ [(k, v)].
Proof.
  induction d as [| [k' v'] d IH]; simpl; [reflexivity |].
  intros Hk. destruct (String.eqb_spec k' k) as [-> | Hne].
  - exfalso. apply Hk, list_elem_of_here.
  - f_equal. apply IH. intros H. apply Hk. now apply list_elem_of_further.
Qed.

Lemma dict_set_nodup {V} (d : list (string * V)) (k : string) (v : V) :
  NoDup (map fst d) -> NoDup (map fst (dict_set d k v)).
Proof.
  induction d as [| [k' v'] d IH]; simpl.
  - intros _. apply NoDup_singleton.
  - intros [Hk Hd]%NoDup_cons.
    destruct (String.eqb_spec k' k) as [-> | Hne]; simpl.
    + now apply NoDup_cons.
    + apply NoDup_cons. split; [| now apply IH].
      intros [-> | H]%HealthProofs.dict_set_keys; contradiction.
Qed.

Lemma dict_get_elem {V} (d : list (string * V)) (k : string) (v : V) :
  dict_get d k = Some v -> (k, v) ∈ d.
Proof.
  induction d as [| [k' v'] d IH]; simpl; [discriminate |].
  destruct (String.eqb_spec k' k) as [-> | Hne].
  - intros [= ->]. apply list_elem_of_here.
  - intros H. apply list_elem_of_further, IH, H.
Qed.

Lemma dict_get_app_l {V} (d d' : list (string * V)) (k : string) (v : V) :
  dict_get d k = Some v -> dict_get (d ++ d') k = Some v.
Proof.
  induction d as [| [k' v'] d IH]; simpl; [discriminate |].
  destruct (String.eqb k' k); [trivial | exact IH].
Qed.

Section Initialisation.

Context (create_pool : Config -> nat -> nat -> result Pool).

Lemma initialize_pool_frame (m : DatabaseConnectionManager)
  (entry : nat * Config) :
  pool_size (initialize_pool create_pool m entry) = pool_size m
  /\ slave_weights (initialize_pool create_pool m entry) = slave_weights m
  /\ slave_configs (initialize_pool create_pool m entry) = slave_configs m.
Proof.
  destruct entry as [i c]. unfold initialize_pool.
  now destruct (create_pool c 5%nat (pool_size m)).
Qed.

Lemma initialize_pool_other (m : DatabaseConnectionManager) (i k : nat)
  (c : Config) :
  i <> k ->
  dict_get (connection_pools (initialize_pool create_pool m (i, c)))
    (server_name k) = dict_get (connection_pools m) (server_name k)
  /\ server_health (initialize_pool create_pool m (i, c)) !! server_name k
     = server_health m !! server_name k.
Proof.
  intros Hne.
  assert (Hn : server_name i <> server_name k).
  { intros H. apply server_name_inj in H. contradiction. }
  unfold initialize_pool.
  destruct (create_pool c 5%nat (pool_size m)); simpl.
  - split; [now apply dict_get_set_ne | now apply lookup_insert_ne].
  - split; [reflexivity | now apply lookup_insert_ne].
Qed.

Lemma initialize_pool_self (m : DatabaseConnectionManager) (i : nat)
  (c : Config) :
  match create_pool c 5%nat (pool_size m) with
  | Ok pool =>
      dict_get (connection_pools (initialize_pool create_pool m (i, c)))
        (server_name i) = Some pool
      /\ server_health (initialize_pool create_pool m (i, c))
           !! server_name i = Some true
  | Raise _ =>
      dict_get (connection_pools (initialize_pool create_pool m (i, c)))
        (server_name i) = dict_get (connection_pools m) (server_name i)
      /\ server_health (initialize_pool create_pool m (i, c))
           !! server_name i = Some false
  end.
Proof.
  unfold initialize_pool.
  destruct (create_pool c 5%nat (pool_size m)); simpl.
  - split; [apply dict_get_set_eq | apply lookup_insert_eq].
  - split; [reflexivity | apply lookup_insert_eq].
Qed.

(** The loop of [initialize_pools] over the entries numbered by an
    injective [f]. *)
Lemma initialize_fold (l : list Config) (f : nat -> nat)
  (m : DatabaseConnectionManager) :
  (forall a b, f a = f b -> a = b) ->
  let m' := fold_left (initialize_pool create_pool)
              (imap (fun i c => (f i, c)) l) m in
  pool_size m' = pool_size m
  /\ slave_weights m' = slave_weights m
  /\ slave_configs m' = slave_configs m
  /\ (forall j c, l !! j = Some c ->
        match create_pool c 5%nat (pool_size m) with
        | Ok pool =>
            dict_get (connection_pools m') (server_name (f j)) = Some pool
            /\ server_health m' !! server_name (f j) = Some true
        | Raise _ =>
            dict_get (connection_pools m') (server_name (f j))
            = dict_get (connection_pools m) (server_name (f j))
            /\ server_health m' !! server_name (f j) = Some false
        end)
  /\ (forall k, (forall j, (j < length l)%nat -> f j <> k) ->
        dict_get (connection_pools m') (server_name k)
        = dict_get (connection_pools m) (server_name k)
        /\ server_health m' !! server_name k
           = server_health m !! server_name k).
Proof.
  revert f m. induction l as [| c0 l IH]; intros f m Hinj.
  - cbn zeta. simpl. repeat split; try reflexivity. intros j c H.
    discriminate.
  - change (imap (fun i c => (f i, c)) (c0 :: l))
      with ((f 0%nat, c0) :: imap (fun i c => ((f ∘ S) i, c)) l).
    cbn [fold_left]. cbn zeta.
    set (m1 := initialize_pool create_pool m (f 0%nat, c0)).
    destruct (initialize_pool_frame m (f 0%nat, c0)) as (Hp1 & Hw1 & Hc1).
    fold m1 in Hp1, Hw1, Hc1.
    destruct (IH (f ∘ S) m1) as (Hp & Hw & Hc & Hin & Hout).
    { intros a b H. apply Hinj in H. lia. }
    cbn zeta in Hp, Hw, Hc, Hin, Hout.
    split; [congruence |]. split; [congruence |]. split; [congruence |].
    split.
    + intros [| j] c Hj.
      * injection Hj as <-.
        destruct (Hout (f 0%nat)) as [Hd Hh].
        { intros j Hj H. apply Hinj in H. lia. }
        rewrite Hd, Hh. apply initialize_pool_self.
      * specialize (Hin j c Hj). rewrite Hp1 in Hin.
        destruct (create_pool c 5%nat (pool_size m)); [exact Hin |].
        destruct Hin as [Hd Hh]. split; [| exact Hh].
        etransitivity; [exact Hd |].
        apply initialize_pool_other.
        intros H. apply Hinj in H. lia.
    + intros k Hk.
      destruct (Hout k) as [Hd Hh].
      { intros j Hj. apply (Hk (S j)). simpl. lia. }
      rewrite Hd, Hh. apply initialize_pool_other.
      apply (Hk 0%nat). simpl. lia.
Qed.

(** X7: after [initialize_pools] on a fresh manager, the server at
    position [i] of the configurations has a registered pool and is
    marked healthy when its pool could be created, and has no pool and
    is marked unhealthy when the creation raised; every replica weight
    is still [1.0]. *)
Theorem initialize_pools_registers (configs : list Config) (i : nat)
  (c : Config) :
  configs !! i = Some c ->
  let m := initialize_pools create_pool (new_manager configs) in
  match create_pool c 5%nat 20%nat with
  | Ok pool =>
      dict_get (connection_pools m) (server_name i) = Some pool
      /\ server_health m !! server_name i = Some true
  | Raise _ =>
      dict_get (connection_pools m) (server_name i) = None
      /\ server_health m !! server_name i = Some false
  end
  /\ slave_weights m = replicate (length configs - 1) 1.0.
Proof.
  intros Hi m.
  destruct (initialize_fold configs (fun j => j) (new_manager configs))
    as (_ & Hw & _ & Hin & _); [auto |].
  cbn zeta in Hw, Hin. fold (enumerate configs) in Hw, Hin.
  change (enumerate configs)
    with (enumerate (db_configs (new_manager configs))) in Hw, Hin.
  fold (initialize_pools create_pool (new_manager configs)) in Hw, Hin.
  fold m in Hw, Hin. split.
  - apply (Hin i c Hi).
  - rewrite Hw. simpl. f_equal.
    destruct (Nat.ltb_spec 1 (length configs)).
    + rewrite length_drop. reflexivity.
    + simpl. lia.
Qed.

End Initialisation.

Lemma initialize_pools_registers_witness :
  let m := initialize_pools
             (fun _ _ _ => Raise (Exception "Connection refused"))
             (new_manager example_configs) in
  dict_get (connection_pools m) "slave_1" = None
  /\ server_health m !! "slave_1" = Some false.
Proof.
  intros m.
  pose proof (initialize_pools_registers
                (fun _ _ _ => Raise (Exception "Connection refused"))
                example_configs 1 example_slave eq_refl) as H.
  cbn beta iota zeta in H. destruct H as [H _]. exact H.
Defined.

Lemma weight_tier_positive (response_time : Q) :
  0 < weight_tier response_time.
Proof.
  unfold weight_tier.
  destruct (Qlt_bool response_time 0.05); [reflexivity |].
  destruct (Qlt_bool response_time 0.1); reflexivity.
Qed.

Section Checking.

Context (probe : string -> probe_result).

Lemma adjust_weight_frame (m m' : DatabaseConnectionManager)
  (name : string) (w : Q) :
  adjust_weight m name w = Ok m' ->
  slave_configs m' = slave_configs m
  /\ connection_pools m' = connection_pools m
  /\ health_check_interval m' = health_check_interval m
  /\ last_health_check m' = last_health_check m
  /\ server_health m' = server_health m.
Proof.
  unfold adjust_weight. destruct (String.prefix "slave_" name).
  - destruct (slave_index name) as [idx | e]; [| discriminate]. simpl.
    destruct (py_setitem (slave_weights m) idx w) as [ws | e];
      [| discriminate].
    simpl. intros [= <-]. repeat split.
  - intros [= <-]. repeat split.
Qed.

Lemma probe_server_frame (entry : string * Pool)
  (m m' : DatabaseConnectionManager) :
  probe_server probe entry m = Ok m' ->
  slave_configs m' = slave_configs m
  /\ connection_pools m' = connection_pools m
  /\ health_check_interval m' = health_check_interval m
  /\ last_health_check m' = last_health_check m.
Proof.
  unfold probe_server, probe_except.
  destruct (probe entry.1) as [e | rt].
  - intros H. apply adjust_weight_frame in H as (H1 & H2 & H3 & H4 & _).
    repeat split; assumption.
  - destruct (adjust_weight _ _ (weight_tier rt)) as [m2 | e] eqn:E.
    + intros [= <-].
      apply adjust_weight_frame in E as (H1 & H2 & H3 & H4 & _).
      repeat split; assumption.
    + intros H. apply adjust_weight_frame in H as (H1 & H2 & H3 & H4 & _).
      repeat split; assumption.
Qed.

Lemma probe_loop_frame (pools : list (string * Pool))
  (m m' : DatabaseConnectionManager) :
  foldM (probe_server probe) pools m = Ok m' ->
  slave_configs m' = slave_configs m
  /\ connection_pools m' = connection_pools m
  /\ health_check_interval m' = health_check_interval m
  /\ last_health_check m' = last_health_check m.
Proof.
  revert m. induction pools as [| e pools IH]; intros m; simpl.
  - intros [= <-]. repeat split.
  - destruct (probe_server probe e m) as [m1 | err] eqn:E; [| discriminate].
    simpl. intros H. apply IH in H as (H1 & H2 & H3 & H4).
    apply probe_server_frame in E as (E1 & E2 & E3 & E4).
    repeat split; congruence.
Qed.

(** A health check keeps a manager well formed. *)
Lemma health_check_well_formed (m m' : DatabaseConnectionManager)
  (current_time : Q) (force : bool) :
  well_formed m ->
  health_check probe m current_time force = Ok m' ->
  well_formed m'.
Proof.
  intros (Hlen & Hnames & Hpos). unfold health_check.
  destruct (negb force && _); [intros [= <-]; repeat split; assumption |].
  destruct (HealthProofs.health_loop probe (connection_pools m) m Hnames)
    as (m1 & Hrun & Hlen1 & Hpools1 & Hh & Hw).
  rewrite Hrun. simpl. intros [= <-].
  destruct (probe_loop_frame _ _ _ Hrun) as (Hc & _).
  repeat split; simpl.
  - congruence.
  - rewrite Hpools1, Hlen1. exact Hnames.
  - intros i w Hhealthy Hweight.
    specialize (Hh (S i)). specialize (Hw (S i) ltac:(lia)).
    replace (S i - 1)%nat with i in Hw by lia.
    rewrite Hh in Hhealthy. rewrite Hw in Hweight.
    destruct (decide (server_name (S i) ∈ map fst (connection_pools m))).
    + injection Hweight as <-. simpl in Hhealthy.
      unfold probed_health in Hhealthy. unfold probed_weight.
      destruct (probe (server_name (S i))); [discriminate |].
      apply weight_tier_positive.
    + apply (Hpos i w Hhealthy Hweight).
Qed.

End Checking.

Lemma initialize_pools_well_formed
  (create_pool : Config -> nat -> nat -> result Pool)
  (configs : list Config) :
  well_formed (initialize_pools create_pool (new_manager configs)).
Proof.
  destruct (initialize_fold create_pool configs (fun j => j)
              (new_manager configs)) as (_ & Hw & Hc & _); [auto |].
  cbn zeta in Hw, Hc. fold (enumerate configs) in Hw, Hc.
  change (enumerate configs)
    with (enumerate (db_configs (new_manager configs))) in Hw, Hc.
  fold (initialize_pools create_pool (new_manager configs)) in Hw, Hc.
  split; [| split].
  - rewrite Hw, Hc. simpl. apply length_replicate.
  - apply HealthProofs.initialize_pools_names.
  - intros i w _. rewrite Hw. simpl. intros H.
    apply lookup_replicate in H as [-> _]. reflexivity.
Qed.

Section ReadPath.

Context (m : DatabaseConnectionManager).













End ReadPath.


(** X10: after [close_all_pools] every acquisition raises the "master
    pool not initialised" exception, whatever was registered before. *)
Theorem acquire_after_close_raises (m : DatabaseConnectionManager)
  (prefer_server : option string) (prefer_read : bool) (rand_val : Q) :
  let closed := close_all_pools m in
  connection_pools closed = []
  /\ server_health closed = ∅
  /\ get_master_connection closed
     = Raise (Exception "Master 연결 풀이 초기화되지 않음")
  /\ get_slave_connection closed prefer_server rand_val
     = Raise (Exception "Master 연결 풀이 초기화되지 않음")
  /\ get_any_connection closed prefer_read rand_val
     = Raise (Exception "Master 연결 풀이 초기화되지 않음").
Proof.
  intros closed.
  assert (Hm : get_master_connection closed
               = Raise (Exception "Master 연결 풀이 초기화되지 않음"))
    by reflexivity.
  assert (Hs : forall p r,
             get_slave_connection closed p r
             = Raise (Exception "Master 연결 풀이 초기화되지 않음")).
  { intros p r. unfold get_slave_connection.
    rewrite (RouterProofs.no_available_slaves closed); [exact Hm |].
    intros i _. reflexivity. }
  split; [reflexivity |]. split; [reflexivity |].
  split; [exact Hm |]. split; [apply Hs |].
  unfold get_any_connection. rewrite Hs, Hm. now destruct (_ && _).
Qed.

Lemma reachable_well_formed
  (create_pool : Config -> nat -> nat -> result Pool)
  (m : DatabaseConnectionManager) :
  reachable create_pool m -> well_formed m.
Proof.
  induction 1 as [configs | m m' probe t force _ IH Hcheck].
  - apply initialize_pools_well_formed.
  - eapply health_check_well_formed; eassumption.
Qed.



(** X12: in every such state a health check does not raise, whatever
    the probes answer; it leaves the pools and the configured replicas
    as they are, and a server that has no pool keeps its recorded health
    and, if it is the replica [slave_k], its weight. *)
Theorem reachable_health_check_total
  (create_pool : Config -> nat -> nat -> result Pool)
  (m : DatabaseConnectionManager) (probe : string -> probe_result)
  (current_time : Q) (force : bool) :
  reachable create_pool m ->
  exists m',
    health_check probe m current_time force = Ok m'
    /\ connection_pools m' = connection_pools m
    /\ slave_configs m' = slave_configs m
    /\ length (slave_weights m') = length (slave_weights m)
    /\ (forall k, server_name k ∉ map fst (connection_pools m) ->
          server_health m' !! server_name k
          = server_health m !! server_name k
          /\ ((1 <= k)%nat ->
              slave_weights m' !! (k - 1)%nat
              = slave_weights m !! (k - 1)%nat)).
Proof.
  intros Hr. destruct (reachable_well_formed _ _ Hr) as (_ & Hnames & _).
  unfold health_check.
  destruct (negb force && _).
  { exists m. repeat split. }
  destruct (HealthProofs.health_loop probe (connection_pools m) m Hnames)
    as (m1 & Hrun & Hlen & Hpools & Hh & Hw).
  destruct (probe_loop_frame probe _ _ _ Hrun) as (Hc & _).
  rewrite Hrun. simpl. eexists. split; [reflexivity |]. simpl.
  split; [exact Hpools |]. split; [exact Hc |]. split; [exact Hlen |].
  intros k Hk. split.
  - rewrite Hh. now rewrite decide_False.
  - intros Hk1. rewrite (Hw k Hk1). now rewrite decide_False.
Qed.

Lemma reachable_health_check_total_witness :
  let create_pool := fun (c : Config) (lo hi : nat) =>
    if bool_decide (port c = Some 3306%Z)
    then Ok {| pool_config := c; minsize := lo; maxsize := hi |}
    else Raise (Exception "Connection refused") in
  let m := initialize_pools create_pool (new_manager example_configs) in
  exists m',
    health_check (fun _ => ProbeFailed (Exception "timeout")) m 100 true
    = Ok m'
    /\ server_health m' !! "slave_1" = Some false
    /\ slave_weights m' !! 0%nat = Some 1.0.
Proof.
  intros create_pool m.
  destruct (reachable_health_check_total create_pool m
              (fun _ => ProbeFailed (Exception "timeout")) 100 true)
    as (m' & Hrun & _ & _ & _ & Hframe).
  - apply reachable_initialized.
  - exists m'. split; [exact Hrun |].
    destruct (Hframe 1%nat) as [Hh Hw].
    + vm_compute. intros H.
      apply elem_of_cons in H as [H | H]; [discriminate |].
      eapply not_elem_of_nil, H.
    + split.
      * etransitivity; [exact Hh |]. vm_compute. reflexivity.
      * etransitivity; [apply Hw; lia |]. vm_compute. reflexivity.
Defined.

(** X13: a health check that probes at time [t] records [t], so that a
    later call that is not forced and comes less than
    [health_check_interval] seconds after [t] probes nothing and returns
    the manager unchanged. *)
Theorem health_check_throttled (m m' : DatabaseConnectionManager)
  (probe probe' : string -> probe_result) (t t' : Q) :
  health_check probe m t true = Ok m' ->
  t' - t < health_check_interval m ->
  last_health_check m' = t
  /\ health_check probe' m' t' false = Ok m'.
Proof.
  unfold health_check at 1. simpl.
  destruct (foldM (probe_server probe) (connection_pools m) m)
    as [m1 | e] eqn:Hrun; [| discriminate].
  simpl. intros [= <-] Hlt.
  destruct (probe_loop_frame probe _ _ _ Hrun) as (_ & _ & Hi & _).
  split; [reflexivity |].
  unfold health_check. simpl. rewrite Hi.
  apply Qlt_bool_iff in Hlt. now rewrite Hlt.
Qed.

Lemma health_check_throttled_witness :
  let create_pool := fun (c : Config) (lo hi : nat) =>
    Ok {| pool_config := c; minsize := lo; maxsize := hi |} in
  let m := initialize_pools create_pool (new_manager example_configs) in
  let probe := fun _ : string => ProbeOk 0.010 in
  let probe' := fun _ : string => ProbeFailed (Exception "timeout") in
  exists m',
    health_check probe m 100 true = Ok m'
    /\ health_check probe' m' 129 false = Ok m'.
Proof.
  intros create_pool m probe probe'.
  assert (Hrun : exists m', health_check probe m 100 true = Ok m').
  { vm_compute. eexists. reflexivity. }
  destruct Hrun as [m' Hrun]. exists m'. split; [exact Hrun |].
  apply (health_check_throttled m m' probe probe' 100 129 Hrun).
  vm_compute. reflexivity.
Defined.

(** X15: a pool registered under the name of a replica that has no
    weight slot makes a probing health check raise [IndexError]: the
    assignment fails in the [try] block, fails again in the [except]
    handler, and the servers after it are not probed. *)
Theorem health_check_index_error (m : DatabaseConnectionManager)
  (probe : string -> probe_result) (current_time : Q) (k : nat)
  (pool : Pool) (rest : list (string * Pool)) :
  connection_pools m = (server_name k, pool) :: rest ->
  (length (slave_weights m) < k)%nat ->
  health_check probe m current_time true = Raise IndexError.
Proof.
  intros Hpools Hk.
  assert (Hadj : forall m0 w,
             slave_weights m0 = slave_weights m ->
             adjust_weight m0 (server_name k) w = Raise IndexError).
  { intros m0 w Hw. unfold adjust_weight.
    rewrite prefix_server_name.
    destruct (Nat.eqb_spec k 0) as [-> | _]; [lia |]. simpl.
    rewrite slave_index_server_name by lia. simpl.
    unfold py_setitem, py_index. rewrite Hw.
    destruct (Z.ltb_spec (Z.of_nat k - 1)
                (Z.of_nat (length (slave_weights m)))); [lia |].
    rewrite andb_false_r.
    destruct (Z.ltb_spec (Z.of_nat k - 1) 0); [lia |].
    rewrite andb_false_r. reflexivity. }
  unfold health_check. simpl. rewrite Hpools. cbn [foldM].
  unfold probe_server, probe_except. cbn [fst].
  destruct (probe (server_name k)); rewrite !Hadj; reflexivity.
Qed.

Lemma health_check_index_error_witness :
  let m := set_connection_pools (new_manager [example_master])
             [("slave_1", {| pool_config := example_slave;
                             minsize := 5; maxsize := 20 |})] in
  health_check (fun _ => ProbeOk 0.010) m 100 true = Raise IndexError.
Proof.
  intros m.
  apply (health_check_index_error m (fun _ => ProbeOk 0.010) 100 1
           {| pool_config := example_slave; minsize := 5; maxsize := 20 |}
           []).
  - reflexivity.
  - simpl. lia.
Defined.

Lemma initialize_fold_nodup
  (create_pool : Config -> nat -> nat -> result Pool)
  (l : list (nat * Config)) (m : DatabaseConnectionManager) :
  NoDup (map fst (connection_pools m)) ->
  NoDup (map fst (connection_pools
                    (fold_left (initialize_pool create_pool) l m))).
Proof.
  revert m. induction l as [| [i c] l IH]; intros m Hm; [exact Hm |].
  simpl. apply IH. unfold initialize_pool.
  destruct (create_pool c 5%nat (pool_size m)); simpl; [| exact Hm].
  now apply dict_set_nodup.
Qed.

Lemma health_check_pools (probe : string -> probe_result)
  (m m' : DatabaseConnectionManager) (current_time : Q) (force : bool) :
  health_check probe m current_time force = Ok m' ->
  connection_pools m' = connection_pools m.
Proof.
  unfold health_check. destruct (negb force && _); [now intros [= <-] |].
  destruct (foldM (probe_server probe) (connection_pools m) m)
    as [m1 | e] eqn:Hrun; [| discriminate].
  simpl. intros [= <-]. simpl.
  now destruct (probe_loop_frame probe _ _ _ Hrun) as (_ & H & _).
Qed.

Lemma reachable_pools_nodup
  (create_pool : Config -> nat -> nat -> result Pool)
  (m : DatabaseConnectionManager) :
  reachable create_pool m -> NoDup (map fst (connection_pools m)).
Proof.
  induction 1 as [configs | m m' probe t force _ IH Hcheck].
  - apply initialize_fold_nodup. simpl. apply NoDup_nil_2.
  - now rewrite (health_check_pools _ _ _ _ _ Hcheck).
Qed.

Section Statistics.

Context (pool_usage : string -> Pool -> nat * nat).
Context (m : DatabaseConnectionManager).

(** The entry of [get_connection_stats] for the server numbered [k]. *)
Lemma server_stat_step (k : nat) (pool : Pool)
  (stats : list (string * server_stats)) :
  (k <= length (slave_weights m))%nat ->
  server_stat pool_usage m (server_name k, pool) stats
  = Ok (dict_set stats (server_name k)
          {| stat_pool_size := (pool_usage (server_name k) pool).1;
             pool_freesize := (pool_usage (server_name k) pool).2;
             health_status :=
               default false (server_health m !! server_name k);
             weight := if (k =? 0)%nat then None
                       else slave_weights m !! (k - 1)%nat |}).
Proof.
  intros Hk. unfold server_stat. rewrite prefix_server_name.
  destruct (Nat.eqb_spec k 0) as [-> | Hk0]; [reflexivity |]. simpl.
  rewrite slave_index_server_name by lia. simpl.
  unfold py_getitem, py_index.
  destruct (Z.leb_spec 0 (Z.of_nat k - 1)); [| lia].
  destruct (Z.ltb_spec (Z.of_nat k - 1)
              (Z.of_nat (length (slave_weights m)))); [| lia].
  simpl. replace (Z.to_nat (Z.of_nat k - 1)) with (k - 1)%nat by lia.
  destruct (lookup_lt_is_Some_2 (slave_weights m) (k - 1)%nat) as [w Hw];
    [lia |].
  rewrite Hw. reflexivity.
Qed.

Lemma stats_loop (pools : list (string * Pool))
  (acc : list (string * server_stats)) :
  (forall name, name ∈ map fst pools ->
     exists k, name = server_name k
               /\ (k <= length (slave_weights m))%nat) ->
  NoDup (map fst pools) ->
  (forall name, name ∈ map fst pools -> name ∉ map fst acc) ->
  exists stats,
    foldM (server_stat pool_usage m) pools acc = Ok stats
    /\ map fst stats = map fst acc ++ map fst pools
    /\ (forall name s, dict_get acc name = Some s ->
          dict_get stats name = Some s)
    /\ (forall k pool, (server_name k, pool) ∈ pools ->
          dict_get stats (server_name k)
          = Some {| stat_pool_size := (pool_usage (server_name k) pool).1;
                    pool_freesize := (pool_usage (server_name k) pool).2;
                    health_status :=
                      default false (server_health m !! server_name k);
                    weight := if (k =? 0)%nat then None
                              else slave_weights m !! (k - 1)%nat |}).
Proof.
  revert acc. induction pools as [| [name pool] rest IH];
    intros acc Hnames Hnd Hfresh.
  - exists acc. simpl. rewrite app_nil_r. repeat split; [auto |].
    intros k pool H. exfalso. eapply not_elem_of_nil, H.
  - simpl in Hnd. apply NoDup_cons in Hnd as [Hhead Hnd].
    destruct (Hnames name) as (k & -> & Hk); [apply list_elem_of_here |].
    assert (Hnew : server_name k ∉ map fst acc)
      by (apply Hfresh, list_elem_of_here).
    cbn [foldM]. rewrite (server_stat_step k pool acc Hk).
    rewrite (dict_set_fresh acc _ _ Hnew).
    set (s := {| stat_pool_size := (pool_usage (server_name k) pool).1 |}).
    destruct (IH (acc ++ [(server_name k, s)]))
      as (stats & Hrun & Hkeys & Hold & Hentries).
    { intros n Hn. apply Hnames. simpl. now apply list_elem_of_further. }
    { exact Hnd. }
    { intros n Hn. rewrite map_app. simpl.
      intros [H | H%list_elem_of_singleton]%elem_of_app.
      - revert H. apply Hfresh. simpl. now apply list_elem_of_further.
      - subst n. contradiction. }
    exists stats. split; [exact Hrun |]. split; [| split].
    + rewrite Hkeys, map_app. simpl. now rewrite <- app_assoc.
    + intros n s0 Hn. apply Hold. now apply dict_get_app_l.
    + intros j p [[= Hj ->] | Hin]%elem_of_cons.
      * apply server_name_inj in Hj as ->. apply Hold.
        rewrite <- (dict_set_fresh acc _ _ Hnew). apply dict_get_set_eq.
      * now apply Hentries.
Qed.

End Statistics.

Lemma stats_of_reachable
  (create_pool : Config -> nat -> nat -> result Pool)
  (pool_usage : string -> Pool -> nat * nat)
  (m : DatabaseConnectionManager) :
  reachable create_pool m ->
  exists stats,
    get_connection_stats pool_usage m = Ok stats
    /\ map fst stats = map fst (connection_pools m)
    /\ (forall k pool,
          dict_get (connection_pools m) (server_name k) = Some pool ->
          dict_get stats (server_name k)
          = Some {| stat_pool_size := (pool_usage (server_name k) pool).1;
                    pool_freesize := (pool_usage (server_name k) pool).2;
                    health_status :=
                      default false (server_health m !! server_name k);
                    weight := if (k =? 0)%nat then None
                              else slave_weights m !! (k - 1)%nat |}).
Proof.
  intros Hr.
  destruct (reachable_well_formed _ _ Hr) as (_ & Hnames & _).
  destruct (stats_loop pool_usage m (connection_pools m) [] Hnames)
    as (stats & Hrun & Hkeys & _ & Hentries).
  { eapply reachable_pools_nodup, Hr. }
  { intros n _ H. eapply not_elem_of_nil, H. }
  exists stats. split; [exact Hrun |]. split; [exact Hkeys |].
  intros k pool Hget. apply Hentries. now apply dict_get_elem.
Qed.

Lemma dict_get_key {V} (d : list (string * V)) (k : string) (v : V) :
  dict_get d k = Some v -> k ∈ map fst d.
Proof.
  intros H%dict_get_elem. apply list_elem_of_fmap. now exists (k, v).
Qed.

(** X16: in every state reached by initialising the pools once and then
    running health checks, [get_connection_stats] does not raise and
    reports exactly the registered pools, in registration order: for
    each the two sizes of its pool, the recorded health ([False] when
    none is recorded), and for a replica [slave_k] the weight in slot
    [k - 1]; the master entry has no weight. *)
Theorem connection_stats_report
  (create_pool : Config -> nat -> nat -> result Pool)
  (pool_usage : string -> Pool -> nat * nat)
  (m : DatabaseConnectionManager) :
  reachable create_pool m ->
  exists stats,
    get_connection_stats pool_usage m = Ok stats
    /\ map fst stats = map fst (connection_pools m)
    /\ (forall k pool,
          dict_get (connection_pools m) (server_name k) = Some pool ->
          dict_get stats (server_name k)
          = Some {| stat_pool_size := (pool_usage (server_name k) pool).1;
                    pool_freesize := (pool_usage (server_name k) pool).2;
                    health_status :=
                      default false (server_health m !! server_name k);
                    weight := if (k =? 0)%nat then None
                              else slave_weights m !! (k - 1)%nat |}).
Proof. apply stats_of_reachable. Qed.

Lemma connection_stats_report_witness :
  let create_pool := fun (c : Config) (lo hi : nat) =>
    Ok {| pool_config := c; minsize := lo; maxsize := hi |} in
  let m := initialize_pools create_pool (new_manager example_configs) in
  exists stats,
    get_connection_stats (fun _ _ => (5, 5)%nat) m = Ok stats
    /\ map fst stats = ["master"; "slave_1"].
Proof.
  intros create_pool m.
  destruct (connection_stats_report create_pool (fun _ _ => (5, 5)%nat) m)
    as (stats & Hrun & Hkeys & _).
  - apply reachable_initialized.
  - exists stats. split; [exact Hrun | exact Hkeys].
Defined.

(** X17: the statistics read after a forced health check show what the
    probes found: a registered server is reported healthy exactly when
    its probe succeeded, and a registered replica is reported with the
    weight of its latency tier, or with weight [0] when its probe
    failed. *)
Theorem health_check_then_stats
  (create_pool : Config -> nat -> nat -> result Pool)
  (pool_usage : string -> Pool -> nat * nat)
  (probe : string -> probe_result)
  (m m' : DatabaseConnectionManager) (current_time : Q) :
  reachable create_pool m ->
  health_check probe m current_time true = Ok m' ->
  exists stats,
    get_connection_stats pool_usage m' = Ok stats
    /\ forall k pool,
         dict_get (connection_pools m) (server_name k) = Some pool ->
         exists s,
           dict_get stats (server_name k) = Some s
           /\ health_status s = probed_health probe (server_name k)
           /\ weight s = if (k =? 0)%nat then None
                         else Some (probed_weight probe (server_name k)).
Proof.
  intros Hr Hcheck.
  destruct (stats_of_reachable create_pool pool_usage m')
    as (stats & Hrun & _ & Hentries).
  { eapply reachable_checked; eassumption. }
  exists stats. split; [exact Hrun |]. intros k pool Hget.
  pose proof (health_check_pools _ _ _ _ _ Hcheck) as Hpools.
  rewrite <- Hpools in Hget. rewrite (Hentries k pool Hget).
  eexists. split; [reflexivity |]. simpl.
  rewrite Hpools in Hget. apply dict_get_key in Hget.
  destruct (reachable_well_formed _ _ Hr) as (_ & Hnames & _).
  destruct (HealthProofs.health_loop probe (connection_pools m) m Hnames)
    as (m1 & Hloop & _ & _ & Hh & Hw).
  unfold health_check in Hcheck. simpl in Hcheck.
  rewrite Hloop in Hcheck. simpl in Hcheck. injection Hcheck as <-.
  simpl. split.
  - rewrite Hh. now rewrite decide_True.
  - destruct (Nat.eqb_spec k 0) as [-> | Hk]; [reflexivity |].
    rewrite Hw by lia. now rewrite decide_True.
Qed.

Lemma health_check_then_stats_witness :
  let create_pool := fun (c : Config) (lo hi : nat) =>
    Ok {| pool_config := c; minsize := lo; maxsize := hi |} in
  let m := initialize_pools create_pool (new_manager example_configs) in
  let probe := fun name : string =>
    if String.eqb name "slave_1" then ProbeOk 0.080
    else ProbeFailed (Exception "timeout") in
  exists m' stats s,
    health_check probe m 100 true = Ok m'
    /\ get_connection_stats (fun _ _ => (5, 5)%nat) m' = Ok stats
    /\ dict_get stats "slave_1" = Some s
    /\ health_status s = true
    /\ weight s = Some 1.0.
Proof.
  intros create_pool m probe.
  assert (Hcheck : exists m', health_check probe m 100 true = Ok m').
  { vm_compute. eexists. reflexivity. }
  destruct Hcheck as [m' Hcheck].
  destruct (health_check_then_stats create_pool (fun _ _ => (5, 5)%nat)
              probe m m' 100 (reachable_initialized _ _) Hcheck)
    as (stats & Hrun & Hentries).
  destruct (Hentries 1%nat
              {| pool_config := example_slave; minsize := 5; maxsize := 20 |}
              eq_refl) as (s & Hs & Hh & Hw).
  exists m', stats, s. repeat split; assumption.
Defined.








End LifecycleProofs.

(** ** Transactions *)

Module TransactionProofs.

Import ConnectionManager.


Section Transactions.

Context (db_outcome : list (string * db_op) -> string * db_op -> option exn).
Context (conn : Connection).







End Transactions.



End TransactionProofs.

(** ** Consistency verification *)

Module ConsistencyProofs.

Import World ConsistencyTest.

Section Verification.

Context (io_time sleep_late : nat -> Q).
Context (md5_hexdigest : string -> string).
Context (write_committed : nat -> bool).
Context (replica_fetch : nat -> fetch_result).

Lemma verdict_true_iff (fetched : fetch_result)
  (test_id expected_data : string) :
  verdict md5_hexdigest fetched test_id expected_data = true
  <-> fetched = Row (Some expected_data)
                    (Some (md5_hexdigest (test_id +:+ expected_data))).
Proof.
  unfold verdict. destruct fetched as [e | | d c].
  - split; discriminate.
  - split; discriminate.
  - rewrite andb_true_iff, !bool_decide_eq_true. split.
    + intros [-> ->]. reflexivity.
    + intros [= -> ->]. split; reflexivity.
Qed.

(** C2: a verification read always returns a boolean to its caller, and
    that boolean is [True] exactly when a row was fetched whose payload
    is the expected payload and whose checksum is the checksum
    recomputed from the identifier and the payload; no row, another
    payload, another checksum and an exception during the read all give
    [False]. *)
Theorem read_and_verify_consistent_iff (slave_config : Config)
  (test_id expected_data : string) (w : World) :
  exists consistent w',
    _read_and_verify io_time md5_hexdigest replica_fetch slave_config
      test_id expected_data w = Some (consistent, w')
    /\ (consistent = true
        <-> exists stored_data stored_checksum,
              replica_fetch (tick w)
              = Row (Some stored_data) (Some stored_checksum)
              /\ stored_data = expected_data
              /\ stored_checksum
                 = md5_hexdigest (test_id +:+ expected_data))
    /\ (replica_fetch (tick w) = NoRow -> consistent = false)
    /\ (forall e, replica_fetch (tick w) = FetchRaised e ->
                  consistent = false)
    /\ (forall stored_data stored_checksum,
          replica_fetch (tick w) = Row stored_data stored_checksum ->
          stored_data <> Some expected_data -> consistent = false)
    /\ (forall stored_data stored_checksum,
          replica_fetch (tick w) = Row stored_data stored_checksum ->
          stored_checksum
          <> Some (md5_hexdigest (test_id +:+ expected_data)) ->
          consistent = false).
Proof.
  exists (verdict md5_hexdigest (replica_fetch (tick w)) test_id
            expected_data).
  eexists. split; [reflexivity |]. split; [| repeat split].
  - rewrite verdict_true_iff. split.
    + intros H. eauto.
    + intros (d & c & H & -> & ->). exact H.
  - intros ->. reflexivity.
  - intros e ->. reflexivity.
  - intros d c -> Hd. apply not_true_is_false. intros H.
    apply verdict_true_iff in H. congruence.
  - intros d c -> Hc. apply not_true_is_false. intros H.
    apply verdict_true_iff in H. congruence.
Qed.

End Verification.

Section Lag.

Context (io_time sleep_late : nat -> Q).
Context (md5_hexdigest : string -> string).
Context (write_committed : nat -> bool).
Context (replica_fetch : nat -> fetch_result).

(** Effects take time: no round trip and no sleep makes the clock go
    backwards. *)
Hypothesis io_time_nonneg : forall n, 0 <= io_time n.
Hypothesis sleep_late_nonneg : forall n, 0 <= sleep_late n.

Lemma inject_nat_S (n : nat) :
  inject_Z (Z.of_nat (S n)) == inject_Z (Z.of_nat n) + 1.
Proof.
  rewrite Nat2Z.inj_succ. unfold Z.succ. rewrite inject_Z_plus. reflexivity.
Qed.

Lemma poll_replica_step (slave_idx i : nat) (slave_config : Config)
  (test_id test_data : string) (write_end read_start : Q) (fuel : nat)
  (w : World) :
  poll_replica io_time sleep_late md5_hexdigest replica_fetch (S fuel)
    slave_idx i slave_config test_id test_data write_end read_start w
  = if Qlt_bool (now w - read_start) 5.0 then
      let w1 := {| now := Qred (now w + io_time (tick w));
                   tick := S (tick w) |} in
      if verdict md5_hexdigest (replica_fetch (tick w)) test_id test_data
      then Some (Some {| slave_index := slave_idx;
                         lag_seconds := now w1 - write_end;
                         test_case := i |}, w1)
      else poll_replica io_time sleep_late md5_hexdigest replica_fetch fuel
             slave_idx i slave_config test_id test_data write_end read_start
             {| now := Qred (now w1 + 0.1 + sleep_late (tick w1));
                tick := S (tick w1) |}
    else Some (None, w).
Proof.
  cbn [poll_replica]. unfold mbind, M_bind, time_time.
  destruct (Qlt_bool (now w - read_start) 5.0); [| reflexivity].
  unfold _read_and_verify, io, mbind, M_bind, mret, M_ret. cbn beta iota zeta.
  destruct (verdict md5_hexdigest (replica_fetch (tick w)) test_id test_data);
    reflexivity.
Qed.

(** The polling loop of one replica, started at [w] with enough fuel
    for the time that is left before the ceiling: [p] polls fail, each
    followed by a sleep of 100 ms, and then either a poll that began
    before the ceiling matches, or the ceiling is reached. *)
Lemma poll_replica_spec (slave_idx i : nat) (slave_config : Config)
  (test_id test_data : string) (write_end read_start : Q) (fuel : nat) :
  forall w,
    5 - (now w - read_start) <= inject_Z (Z.of_nat fuel) * 0.1 ->
    exists sample w' p,
      poll_replica io_time sleep_late md5_hexdigest replica_fetch (S fuel)
        slave_idx i slave_config test_id test_data write_end read_start w
      = Some (sample, w')
      /\ (forall q, (q < p)%nat ->
            verdict md5_hexdigest (replica_fetch (tick w + 2 * q)%nat)
              test_id test_data = false)
      /\ (p <= fuel)%nat
      /\ now w + 0.1 * inject_Z (Z.of_nat p) <= now w'
      /\ match sample with
         | Some m =>
             verdict md5_hexdigest (replica_fetch (tick w + 2 * p)%nat)
               test_id test_data = true
             /\ tick w' = (tick w + 2 * p + 1)%nat
             /\ now w' - io_time (tick w + 2 * p)%nat - read_start < 5
             /\ slave_index m = slave_idx
             /\ test_case m = i
             /\ lag_seconds m = now w' - write_end
         | None =>
             tick w' = (tick w + 2 * p)%nat
             /\ 5 <= now w' - read_start
         end.
Proof.
  induction fuel as [| fuel IH]; intros w Hfuel;
    rewrite poll_replica_step.
  - exists None, w, 0%nat.
    assert (E : Qlt_bool (now w - read_start) 5.0 = false).
    { apply Qlt_bool_false. change (inject_Z (Z.of_nat 0)) with 0 in Hfuel.
      lra. }
    rewrite E.
    split; [reflexivity |]. split; [intros q Hq; lia |].
    split; [lia |].
    split; [change (inject_Z (Z.of_nat 0)) with 0; lra |].
    split; [lia |]. apply Qlt_bool_false in E. lra.
  - destruct (Qlt_bool (now w - read_start) 5.0) eqn:E.
    + set (w1 := {| now := Qred (now w + io_time (tick w));
                    tick := S (tick w) |}).
      assert (Hw1 : now w1 == now w + io_time (tick w))
        by apply Qred_correct.
      cbn zeta. fold w1.
      pose proof (io_time_nonneg (tick w)).
      destruct (verdict md5_hexdigest (replica_fetch (tick w)) test_id
                  test_data) eqn:V.
      * exists (Some {| slave_index := slave_idx;
                        lag_seconds := now w1 - write_end;
                        test_case := i |}), w1, 0%nat.
        split; [reflexivity |].
        split; [intros q Hq; lia |].
        split; [lia |].
        apply Qlt_bool_iff in E.
        split; [change (inject_Z (Z.of_nat 0)) with 0; lra |].
        rewrite !Nat.add_0_r. split; [exact V |].
        split; [simpl; lia |]. split; [lra |]. repeat split.
      * set (w2 := {| now := Qred (now w1 + 0.1 + sleep_late (tick w1));
                      tick := S (tick w1) |}).
        assert (Hw2 : now w2 == now w1 + 0.1 + sleep_late (tick w1))
          by apply Qred_correct.
        pose proof (sleep_late_nonneg (tick w1)).
        destruct (IH w2)
          as (sample & w' & p & Hrun & Hfail & Hp & Htime & Hs).
        { rewrite inject_nat_S in Hfuel. lra. }
        exists sample, w', (S p).
        split; [exact Hrun |].
        assert (T : forall q, (tick w + 2 * S q = tick w2 + 2 * q)%nat)
          by (intros q; simpl; lia).
        split.
        { intros [| q] Hq; [now rewrite Nat.add_0_r |].
          rewrite T. apply Hfail. lia. }
        split; [lia |].
        split; [rewrite inject_nat_S; lra |].
        destruct sample as [m |]; rewrite T; exact Hs.
    + exists None, w, 0%nat.
      split; [reflexivity |].
      split; [intros q Hq; lia |].
      split; [lia |].
      split; [change (inject_Z (Z.of_nat 0)) with 0; lra |].
      split; [lia |]. apply Qlt_bool_false in E. lra.
Qed.

Lemma for_each_invariant {A S} (I : list A -> S -> World -> Prop)
  (f : A -> S -> M S) :
  (forall x xs s w, I (x :: xs) s w ->
     exists s' w', f x s w = Some (s', w') /\ I xs s' w') ->
  forall xs s w, I xs s w ->
    exists s' w', for_each f xs s w = Some (s', w') /\ I [] s' w'.
Proof.
  intros Hstep xs. induction xs as [| x xs IH]; intros s w HI.
  - exists s, w. split; [reflexivity | exact HI].
  - destruct (Hstep x xs s w HI) as (s1 & w1 & Hf & HI1).
    destruct (IH s1 w1 HI1) as (s' & w' & Hrun & HI').
    exists s', w'. split; [| exact HI'].
    cbn [for_each]. unfold mbind, M_bind. now rewrite Hf.
Qed.

Lemma poll_slave_step (fuel i : nat) (test_id test_data : string)
  (write_end : Q) (slave_idx : nat) (slave_config : Config)
  (lag_measurements : list measurement) (w : World) :
  poll_slave io_time sleep_late md5_hexdigest replica_fetch fuel i test_id
    test_data write_end (slave_idx, slave_config) lag_measurements w
  = match poll_replica io_time sleep_late md5_hexdigest replica_fetch fuel
            slave_idx i slave_config test_id test_data write_end (now w) w
    with
    | Some (Some m, w') => Some (lag_measurements ++ [m], w')
    | Some (None, w') => Some (lag_measurements, w')
    | None => None
    end.
Proof.
  unfold poll_slave, mbind, M_bind, time_time, mret, M_ret.
  destruct (poll_replica _ _ _ _ _ _ _ _ _ _ _ _ _) as [[[m |] w'] |];
    reflexivity.
Qed.

(** One replica of one test case adds at most one sample, never a
    negative one. *)
Lemma poll_slave_invariant (i : nat) (test_id test_data : string)
  (write_end : Q) (entry : nat * Config)
  (lag_measurements : list measurement) (w : World) :
  write_end <= now w ->
  Forall (fun m => 0 <= lag_seconds m) lag_measurements ->
  exists ms' w',
    poll_slave io_time sleep_late md5_hexdigest replica_fetch 51 i test_id
      test_data write_end entry lag_measurements w = Some (ms', w')
    /\ write_end <= now w'
    /\ Forall (fun m => 0 <= lag_seconds m) ms'
    /\ (length ms' <= S (length lag_measurements))%nat.
Proof.
  intros Hw Hms. destruct entry as [slave_idx slave_config].
  rewrite poll_slave_step.
  destruct (poll_replica_spec slave_idx i slave_config test_id test_data
              write_end (now w) 50 w)
    as (sample & w' & p & Hrun & _ & _ & Htime & Hs).
  { change (inject_Z (Z.of_nat 50)) with 50. lra. }
  rewrite Hrun.
  assert (Hp : 0 <= inject_Z (Z.of_nat p)).
  { change 0 with (inject_Z 0). rewrite <- Zle_Qle. lia. }
  destruct sample as [m |].
  - destruct Hs as (_ & _ & _ & _ & _ & Hlag).
    exists (lag_measurements ++ [m]), w'.
    split; [reflexivity |]. split; [lra |]. split.
    + apply Forall_app. split; [exact Hms |].
      constructor; [| constructor]. rewrite Hlag. lra.
    + rewrite length_app. simpl. lia.
  - exists lag_measurements, w'.
    split; [reflexivity |]. split; [lra |]. split; [exact Hms | lia].
Qed.

Lemma lag_case_invariant (suite : ConsistencyTestSuite) (i : nat)
  (lag_measurements : list measurement) (w : World) :
  Forall (fun m => 0 <= lag_seconds m) lag_measurements ->
  exists ms' w',
    lag_case io_time sleep_late md5_hexdigest write_committed replica_fetch
      51 suite i lag_measurements w = Some (ms', w')
    /\ Forall (fun m => 0 <= lag_seconds m) ms'
    /\ (length ms'
        <= length lag_measurements + length (slave_configs suite))%nat.
Proof.
  intros Hms.
  cbv [lag_case mbind M_bind time_time _write_to_master io
       _cleanup_test_data sleep mret M_ret].
  set (w1 := {| now := Qred (now w + io_time (tick w));
                tick := S (tick w) |}).
  set (test_id := _ +:+ _ +:+ _ +:+ _).
  set (test_data := _ +:+ _).
  destruct (for_each_invariant
              (fun rest ms w' =>
                 now w1 <= now w'
                 /\ Forall (fun m => 0 <= lag_seconds m) ms
                 /\ (length ms + length rest
                     <= length lag_measurements
                        + length (enumerate (slave_configs suite)))%nat)
              (poll_slave io_time sleep_late md5_hexdigest replica_fetch 51
                 i test_id test_data (now w1)))
    with (xs := enumerate (slave_configs suite)) (s := lag_measurements)
         (w := w1)
    as (ms' & w2 & Hrun & _ & Hms' & Hlen).
  - intros x xs ms0 w0 (Hw0 & Hms0 & Hlen0).
    destruct (poll_slave_invariant i test_id test_data (now w1) x ms0 w0
                Hw0 Hms0) as (ms1 & w' & Hp & Hw' & Hms1 & Hlen1).
    exists ms1, w'. split; [exact Hp |]. split; [exact Hw' |].
    split; [exact Hms1 |]. simpl in Hlen0. lia.
  - split; [apply Qle_refl |]. split; [exact Hms | lia].
  - rewrite Hrun. eexists _, _. split; [reflexivity |].
    split; [exact Hms' |].
    unfold enumerate in Hlen. rewrite length_imap in Hlen.
    simpl in Hlen. lia.
Qed.

(** X1: the polling of one replica, as [_test_replication_lag] starts
    it (the clock at [read_start], fuel for 51 rounds), always comes to
    an end: after [p <= 50] polls that did not match, each followed by a
    sleep of at least 100 ms, either a poll that began less than 5 s
    after [read_start] matches, and the sample is the clock reading
    right after that poll minus [write_end]; or 5 s have passed and
    there is no sample. *)
Theorem lag_poll_first_match (slave_idx i : nat) (slave_config : Config)
  (test_id test_data : string) (write_end : Q) (w : World) :
  exists sample w' p,
    poll_replica io_time sleep_late md5_hexdigest replica_fetch 51
      slave_idx i slave_config test_id test_data write_end (now w) w
    = Some (sample, w')
    /\ (p <= 50)%nat
    /\ (forall q, (q < p)%nat ->
          verdict md5_hexdigest (replica_fetch (tick w + 2 * q)%nat)
            test_id test_data = false)
    /\ now w + 0.1 * inject_Z (Z.of_nat p) <= now w'
    /\ match sample with
       | Some m =>
           verdict md5_hexdigest (replica_fetch (tick w + 2 * p)%nat)
             test_id test_data = true
           /\ now w' - io_time (tick w + 2 * p)%nat - now w < 5
           /\ slave_index m = slave_idx
           /\ test_case m = i
           /\ lag_seconds m = now w' - write_end
       | None => 5 <= now w' - now w
       end.
Proof.
  destruct (poll_replica_spec slave_idx i slave_config test_id test_data
              write_end (now w) 50 w)
    as (sample & w' & p & Hrun & Hfail & Hp & Htime & Hs).
  { change (inject_Z (Z.of_nat 50)) with 50. lra. }
  exists sample, w', p. split; [exact Hrun |]. split; [exact Hp |].
  split; [exact Hfail |]. split; [exact Htime |].
  destruct sample as [m |].
  - destruct Hs as (H1 & _ & H3 & H4 & H5 & H6). repeat split; assumption.
  - apply Hs.
Qed.

(** X2: with fuel for 51 polling rounds per replica the whole lag
    measurement returns its report; no sample is negative, there are at
    most ten samples per replica, and the statistics are those of the
    samples. *)
Theorem replication_lag_run (suite : ConsistencyTestSuite) (w : World) :
  exists report w',
    _test_replication_lag io_time sleep_late md5_hexdigest write_committed
      replica_fetch 51 suite w = Some (report, w')
    /\ Forall (fun m => 0 <= lag_seconds m) (measurements report)
    /\ (length (measurements report)
        <= 10 * length (slave_configs suite))%nat
    /\ report = lag_statistics (measurements report).
Proof.
  unfold _test_replication_lag, mbind, M_bind.
  destruct (for_each_invariant
              (fun rest ms (_ : World) =>
                 Forall (fun m => 0 <= lag_seconds m) ms
                 /\ (length ms + length rest * length (slave_configs suite)
                     <= 10 * length (slave_configs suite))%nat)
              (lag_case io_time sleep_late md5_hexdigest write_committed
                 replica_fetch 51 suite))
    with (xs := seq 0 10) (s := @nil measurement) (w := w)
    as (ms & w' & Hrun & Hms & Hlen).
  - intros x xs ms0 w0 (Hms0 & Hlen0).
    destruct (lag_case_invariant suite x ms0 w0 Hms0)
      as (ms1 & w1 & Hc & Hms1 & Hlen1).
    exists ms1, w1. split; [exact Hc |]. split; [exact Hms1 |].
    simpl in Hlen0. lia.
  - split; [constructor |]. simpl. lia.
  - rewrite Hrun. exists (lag_statistics ms), w'.
    assert (E : measurements (lag_statistics ms) = ms).
    { unfold lag_statistics. now destruct (map lag_seconds ms). }
    split; [reflexivity |]. rewrite E.
    split; [exact Hms |]. split; [simpl in Hlen; lia | reflexivity].
Qed.

End Lag.

Lemma lag_poll_first_match_witness :
  let replica_fetch := fun n : nat =>
    if (n =? 4)%nat then Row (Some "payload") (Some "id1payload")
    else NoRow in
  exists sample w' p,
    poll_replica (fun _ => 0.01) (fun _ => 0) (fun s => s) replica_fetch 51
      0 0 ConnectionManager.example_slave "id1" "payload" 10 10
      {| now := 10; tick := 0 |}
    = Some (sample, w')
    /\ (p <= 50)%nat
    /\ 10 + 0.1 * inject_Z (Z.of_nat p) <= now w'.
Proof.
  intros replica_fetch.
  destruct (lag_poll_first_match (fun _ => 0.01) (fun _ => 0) (fun s => s)
              replica_fetch (fun n => ltac:(vm_compute; discriminate))
              (fun n => ltac:(vm_compute; discriminate))
              0%nat 0%nat ConnectionManager.example_slave "id1" "payload"
              10 {| now := 10; tick := 0 |})
    as (sample & w' & p & Hrun & Hp & _ & Htime & _).
  exists sample, w', p. split; [exact Hrun |]. split; [exact Hp |].
  exact Htime.
Defined.

Lemma replication_lag_run_witness :
  exists report w',
    _test_replication_lag (fun _ => 0.01) (fun _ => 0) (fun s => s)
      (fun _ => true) (fun _ => NoRow) 51 default_suite
      {| now := 1700000000; tick := 0 |} = Some (report, w')
    /\ Forall (fun m => 0 <= lag_seconds m) (measurements report)
    /\ (length (measurements report)
        <= 10 * length (slave_configs default_suite))%nat
    /\ report = lag_statistics (measurements report).
Proof.
  apply (replication_lag_run (fun _ => 0.01) (fun _ => 0)).
  - intros n. vm_compute. discriminate.
  - intros n. vm_compute. discriminate.
Defined.

(** X3: the statistics of the lag report.  Without samples the average,
    the maximum and the minimum are all [0]; with samples, every sample
    lies between the minimum and the maximum, both are the lag of some
    sample, and the average lies between them. *)
Theorem lag_statistics_bounds (ms : list measurement) :
  let report := lag_statistics ms in
  measurements report = ms
  /\ (ms = [] ->
      avg_lag_seconds report = 0 /\ max_lag_seconds report = 0
      /\ min_lag_seconds report = 0)
  /\ (ms <> [] ->
      (forall m, m ∈ ms ->
         min_lag_seconds report <= lag_seconds m
         /\ lag_seconds m <= max_lag_seconds report)
      /\ min_lag_seconds report <= avg_lag_seconds report
      /\ avg_lag_seconds report <= max_lag_seconds report
      /\ (exists m, m ∈ ms /\ lag_seconds m = max_lag_seconds report)
      /\ (exists m, m ∈ ms /\ lag_seconds m = min_lag_seconds report)).
Proof.
  intros report. unfold report, lag_statistics.
  destruct ms as [| m0 ms]; cbn [map].
  - split; [reflexivity |]. split; [intros _; repeat split |].
    intros Hne. contradiction.
  - cbn [measurements avg_lag_seconds max_lag_seconds min_lag_seconds].
    split; [reflexivity |]. split; [discriminate |]. intros _.
    set (t := lag_seconds m0). set (ts := map lag_seconds ms).
    destruct (py_max_upper ts t) as [Hx0 Hx].
    destruct (py_min_lower ts t) as [Hn0 Hn].
    assert (Hall : Forall (fun y => py_min t ts <= y /\ y <= py_max t ts)
                     (t :: ts)).
    { constructor; [split; assumption |].
      rewrite Forall_forall in Hx, Hn. apply Forall_forall.
      intros y Hy. split; [apply Hn | apply Hx]; exact Hy. }
    split; [| split; [| split; [| split]]].
    + intros m Hm. rewrite Forall_forall in Hall. apply Hall.
      change (t :: ts) with (map lag_seconds (m0 :: ms)).
      apply list_elem_of_fmap. eauto.
    + apply (py_average_bounds (t :: ts) _ _ ltac:(discriminate) Hall).
    + apply (py_average_bounds (t :: ts) _ _ ltac:(discriminate) Hall).
    + pose proof (py_max_elem ts t) as H.
      change (t :: ts) with (map lag_seconds (m0 :: ms)) in H.
      apply list_elem_of_fmap in H as (m & Hm & Hin). eauto.
    + pose proof (py_min_elem ts t) as H.
      change (t :: ts) with (map lag_seconds (m0 :: ms)) in H.
      apply list_elem_of_fmap in H as (m & Hm & Hin). eauto.
Qed.

(** The analysis of the observations of the read-after-write test. *)
Lemma consistency_analysis_bounds (rs : list observation) :
  let report := consistency_analysis rs in
  total_tests report = length rs
  /\ detailed_results report = rs
  /\ (consistent_tests report <= total_tests report)%nat
  /\ 0 <= consistency_rate report
  /\ consistency_rate report <= 1
  /\ (total_tests report = 0%nat -> consistency_rate report = 0).
Proof.
  unfold consistency_analysis. cbn zeta.
  cbn [total_tests detailed_results consistent_tests consistency_rate].
  pose proof (List.filter_length_le consistent rs) as Hle.
  set (c := length (List.filter consistent rs)) in *.
  split; [reflexivity |]. split; [reflexivity |]. split; [exact Hle |].
  pose proof (inject_nat_nonneg c) as Hc.
  pose proof (inject_nat_le c (length rs) Hle) as Hcl.
  destruct (Nat.ltb_spec 0 (length rs)) as [Hpos | Hzero].
  - assert (Hn : 0 < inject_Z (Z.of_nat (length rs))).
    { change 0 with (inject_Z 0). rewrite <- Zlt_Qlt. lia. }
    split; [apply Qle_shift_div_l; [exact Hn | lra] |].
    split; [apply Qle_shift_div_r; [exact Hn | lra] |].
    intros H. lia.
  - split; [apply Qle_refl |]. split; [discriminate | reflexivity].
Qed.

Section ReadAfterWrite.

Context (io_time sleep_late : nat -> Q).
Context (md5_hexdigest : string -> string).
Context (write_committed : nat -> bool).
Context (replica_fetch : nat -> fetch_result).
Context (randint : nat -> Z).

Lemma observe_slave_adds_one (i : nat) (delay : Q)
  (test_id test_data : string) (entry : nat * Config)
  (rs : list observation) (w : World) :
  exists o w',
    observe_slave io_time md5_hexdigest replica_fetch i delay test_id
      test_data entry rs w = Some (rs ++ [o], w')
    /\ obs_test_case o = i /\ delay_seconds o = delay.
Proof.
  destruct entry as [slave_idx slave_config].
  unfold observe_slave, _read_and_verify, io, time_time, mbind, M_bind,
    mret, M_ret.
  eexists _, _. split; [reflexivity |]. split; reflexivity.
Qed.

Lemma observe_after_adds (suite : ConsistencyTestSuite) (i : nat)
  (test_id test_data : string) (delay : Q) (rs : list observation)
  (w : World) :
  exists os w',
    observe_after io_time sleep_late md5_hexdigest replica_fetch suite i
      test_id test_data delay rs w = Some (rs ++ os, w')
    /\ length os = length (slave_configs suite).
Proof.
  unfold observe_after, mbind, M_bind, sleep.
  set (w1 := {| now := _; tick := _ |}).
  destruct (for_each_invariant
              (fun rest rs' (_ : World) =>
                 exists os, rs' = rs ++ os
                            /\ (length os + length rest
                                = length (enumerate (slave_configs suite)))%nat)
              (observe_slave io_time md5_hexdigest replica_fetch i delay
                 test_id test_data))
    with (xs := enumerate (slave_configs suite)) (s := rs) (w := w1)
    as (rs' & w' & Hrun & os & -> & Hlen).
  - intros x xs rs0 w0 (os & -> & Hlen).
    destruct (observe_slave_adds_one i delay test_id test_data x
                (rs ++ os) w0) as (o & w' & Hrun & _).
    exists ((rs ++ os) ++ [o]), w'. split; [exact Hrun |].
    exists (os ++ [o]). split; [now rewrite app_assoc |].
    rewrite length_app. simpl in *. lia.
  - exists []. split; [now rewrite app_nil_r | reflexivity].
  - exists os, w'. split; [exact Hrun |].
    unfold enumerate in Hlen. rewrite length_imap in Hlen.
    simpl in Hlen. lia.
Qed.

Lemma consistency_case_adds (suite : ConsistencyTestSuite) (i : nat)
  (rs : list observation) (w : World) :
  exists rs' w',
    consistency_case io_time sleep_late md5_hexdigest write_committed
      replica_fetch randint suite i rs w = Some (rs', w')
    /\ (length rs'
        = length rs + (if write_committed (tick w)
                       then 4 * length (slave_configs suite) else 0))%nat.
Proof.
  cbv [consistency_case mbind M_bind time_time _write_to_master io
       _cleanup_test_data mret M_ret].
  destruct (write_committed (tick w)).
  - set (w1 := {| now := _; tick := _ |}).
    set (test_id := _ +:+ _ +:+ _ +:+ _).
    set (test_data := _ +:+ _).
    destruct (observe_after_adds suite i test_id test_data 0.1 rs w1)
      as (os1 & w2 & H1 & L1).
    destruct (observe_after_adds suite i test_id test_data 0.5
                (rs ++ os1) w2) as (os2 & w3 & H2 & L2).
    destruct (observe_after_adds suite i test_id test_data 1.0
                ((rs ++ os1) ++ os2) w3) as (os3 & w4 & H3 & L3).
    destruct (observe_after_adds suite i test_id test_data 2.0
                (((rs ++ os1) ++ os2) ++ os3) w4) as (os4 & w5 & H4 & L4).
    cbn [for_each]. unfold mbind, M_bind, mret, M_ret.
    rewrite H1, H2, H3, H4.
    eexists _, _. split; [reflexivity |].
    rewrite !length_app. lia.
  - eexists rs, _. split; [reflexivity | lia].
Qed.

(** X14: the read-after-write test always returns its report.  The
    number of observations is four per replica for every test case
    whose write succeeded, none for the others: at most [80] per
    replica, exactly that many when every write succeeds, and none when
    every write fails, in which case the rate is [0] and nothing is
    divided.  The consistent observations are at most the total and the
    rate lies between [0] and [1]. *)
Theorem read_after_write_report (suite : ConsistencyTestSuite) (w : World) :
  exists report w',
    _test_read_after_write_consistency io_time sleep_late md5_hexdigest
      write_committed replica_fetch randint suite w = Some (report, w')
    /\ (exists k, (k <= 20)%nat
                  /\ total_tests report
                     = (k * (4 * length (slave_configs suite)))%nat
                  /\ ((forall t, write_committed t = false) -> k = 0%nat)
                  /\ ((forall t, write_committed t = true) -> k = 20%nat))
    /\ total_tests report = length (detailed_results report)
    /\ (consistent_tests report <= total_tests report)%nat
    /\ 0 <= consistency_rate report
    /\ consistency_rate report <= 1
    /\ (total_tests report = 0%nat -> consistency_rate report = 0).
Proof.
  unfold _test_read_after_write_consistency, mbind, M_bind.
  set (n := length (slave_configs suite)).
  destruct (for_each_invariant
              (fun rest rs (_ : World) =>
                 exists k, length rs = (k * (4 * n))%nat
                           /\ (k + length rest <= 20)%nat
                           /\ ((forall t, write_committed t = false) ->
                               k = 0%nat)
                           /\ ((forall t, write_committed t = true) ->
                               (k + length rest = 20)%nat))
              (consistency_case io_time sleep_late md5_hexdigest
                 write_committed replica_fetch randint suite))
    with (xs := seq 0 20) (s := @nil observation) (w := w)
    as (rs & w' & Hrun & k & Hlen & Hk & Hnone & Hall).
  - intros x xs rs0 w0 (k & Hlen & Hk & Hnone & Hall).
    destruct (consistency_case_adds suite x rs0 w0)
      as (rs1 & w1 & Hc & Hlen1).
    exists rs1, w1. split; [exact Hc |]. fold n in Hlen1.
    destruct (write_committed (tick w0)) eqn:E.
    + exists (S k). split; [lia |]. simpl in Hk. split; [lia |].
      split.
      * intros H. rewrite H in E. discriminate.
      * intros H. specialize (Hall H). simpl in Hall. lia.
    + exists k. split; [lia |]. simpl in Hk. split; [lia |].
      split; [exact Hnone |].
      intros H. rewrite H in E. discriminate.
  - exists 0%nat. simpl. repeat split; lia.
  - rewrite Hrun. exists (consistency_analysis rs), w'.
    split; [reflexivity |].
    destruct (consistency_analysis_bounds rs)
      as (Ht & Hd & Hc & H0 & H1 & Hz).
    split.
    { exists k. split; [simpl in Hk; lia |]. split; [congruence |].
      split; [exact Hnone |]. intros H. specialize (Hall H).
      simpl in Hall. lia. }
    split; [congruence |]. repeat split; assumption.
Qed.

End ReadAfterWrite.

End ConsistencyProofs.

(** ** Capacity probe and failover simulation *)

Module StabilityProofs.

Import World StabilityTest.

Section Capacity.

Context (connect : nat -> nat -> option string).
Context (suite : StabilityTestSuite).

Lemma create_connection_fold (b : nat) (ids : list nat) (n : nat)
  (errs : list connection_error) :
  fold_left (create_connection connect suite b) ids (n, errs)
  = ((n + length (List.filter
                    (fun id => succeeded (attempt connect suite b id)) ids))%nat,
     errs ++ concat (map (failure_entry connect suite b) ids)).
Proof.
  revert n errs. induction ids as [| id ids IH]; intros n errs; simpl.
  - now rewrite Nat.add_0_r, app_nil_r.
  - assert (Hstep : create_connection connect suite b (n, errs) id
                    = ((n + if succeeded (attempt connect suite b id)
                            then 1 else 0)%nat,
                       errs ++ failure_entry connect suite b id)).
    { unfold create_connection, failure_entry.
      destruct (attempt connect suite b id); simpl.
      - now rewrite Nat.add_0_r.
      - now rewrite app_nil_r, Nat.add_1_r. }
    rewrite Hstep, IH, <- app_assoc.
    destruct (succeeded (attempt connect suite b id)); simpl;
      f_equal; lia.
Qed.

Lemma run_batch_eq (mx : nat) (errs : list connection_error) (b : nat) :
  run_batch connect suite (mx, errs) b
  = (Nat.max mx (successes connect suite b),
     errs ++ failures connect suite b).
Proof.
  unfold run_batch. simpl. rewrite create_connection_fold. reflexivity.
Qed.

Lemma run_batches_eq (bs : list nat) (mx : nat)
  (errs : list connection_error) :
  fold_left (run_batch connect suite) bs (mx, errs)
  = (fold_left Nat.max (map (successes connect suite) bs) mx,
     errs ++ concat (map (failures connect suite) bs)).
Proof.
  revert mx errs. induction bs as [| b bs IH]; intros mx errs; simpl.
  - now rewrite app_nil_r.
  - rewrite run_batch_eq, IH. now rewrite <- app_assoc.
Qed.

Lemma successes_le (b : nat) : (successes connect suite b <= b)%nat.
Proof.
  unfold successes.
  etransitivity; [apply List.filter_length_le |]. now rewrite length_seq.
Qed.

Lemma attempts_partition (b : nat) (ids : list nat) :
  (length (List.filter
             (fun id => succeeded (attempt connect suite b id)) ids)
   + length (concat (map (failure_entry connect suite b) ids))
   = length ids)%nat.
Proof.
  induction ids as [| id ids IH]; [reflexivity |].
  simpl. unfold failure_entry at 1.
  destruct (attempt connect suite b id); simpl; lia.
Qed.

Lemma successes_failures (b : nat) :
  (successes connect suite b + length (failures connect suite b) = b)%nat.
Proof.
  unfold successes, failures.
  rewrite attempts_partition. apply length_seq.
Qed.

Lemma fold_max_eq (l : list nat) (a : nat) :
  fold_left Nat.max l a = Nat.max a (max_list l).
Proof.
  revert a. induction l as [| x l IH]; intros a; simpl; [lia |].
  rewrite IH. lia.
Qed.

Lemma max_list_attained (l : list nat) :
  l <> [] -> max_list l ∈ l.
Proof.
  induction l as [| x l IH]; [done |]. intros _. simpl.
  destruct l as [| y l].
  - simpl. rewrite Nat.max_0_r. apply list_elem_of_here.
  - destruct (Nat.max_spec x (max_list (y :: l))) as [[_ E] | [_ E]];
      rewrite E.
    + apply list_elem_of_further, IH. discriminate.
    + apply list_elem_of_here.
Qed.

(** C9: the reported maximum is the maximum, over the five batches, of
    the number of successful acquisitions of the batch: it bounds every
    batch, it is the count of one single batch, and it does not exceed
    the largest batch size; the reported number of errors is the number
    of failed attempts of all batches, and the stability is [GOOD] when
    that number is below ten and [POOR] otherwise. *)
Theorem capacity_probe_report :
  let report := _test_connection_pool_exhaustion connect suite in
  max_successful_connections report
  = max_list (map (successes connect suite) batch_sizes)
  /\ (forall b, b ∈ batch_sizes ->
        (successes connect suite b
         <= max_successful_connections report)%nat)
  /\ (exists b, b ∈ batch_sizes
        /\ max_successful_connections report = successes connect suite b
        /\ (max_successful_connections report <= b)%nat)
  /\ (max_successful_connections report <= 500)%nat
  /\ connection_errors report
     = sum_list (map (fun b => (b - successes connect suite b)%nat)
                   batch_sizes)
  /\ (connection_stability report = "GOOD"
      <-> (connection_errors report < 10)%nat)
  /\ (connection_stability report = "POOR"
      <-> (10 <= connection_errors report)%nat).
Proof.
  intros report.
  assert (Hmax : max_successful_connections report
                 = max_list (map (successes connect suite) batch_sizes)).
  { unfold report, _test_connection_pool_exhaustion.
    rewrite run_batches_eq, fold_max_eq. apply Nat.max_0_l. }
  assert (Herr : connection_errors report
                 = length (concat (map (failures connect suite)
                                     batch_sizes))).
  { unfold report, _test_connection_pool_exhaustion.
    now rewrite run_batches_eq. }
  assert (Hstab : connection_stability report
                  = if (connection_errors report <? 10)%nat
                    then "GOOD" else "POOR").
  { unfold report, _test_connection_pool_exhaustion.
    now rewrite run_batches_eq. }
  pose proof (successes_le 10) as L1.
  pose proof (successes_le 50) as L2.
  pose proof (successes_le 100) as L3.
  pose proof (successes_le 200) as L4.
  pose proof (successes_le 500) as L5.
  pose proof (successes_failures 10) as F1.
  pose proof (successes_failures 50) as F2.
  pose proof (successes_failures 100) as F3.
  pose proof (successes_failures 200) as F4.
  pose proof (successes_failures 500) as F5.
  split; [exact Hmax |]. split; [| split; [| split; [| split; [| split]]]].
  - intros b Hb. rewrite Hmax. apply max_list_elem_of_le.
    apply list_elem_of_fmap. eauto.
  - assert (Hin : max_list (map (successes connect suite) batch_sizes)
                  ∈ map (successes connect suite) batch_sizes).
    { apply max_list_attained. discriminate. }
    apply list_elem_of_fmap in Hin as (b & Hb & Hin).
    exists b. split; [exact Hin |]. rewrite Hmax, Hb.
    split; [reflexivity | apply successes_le].
  - rewrite Hmax.
    change (map (successes connect suite) batch_sizes)
      with [successes connect suite 10; successes connect suite 50;
            successes connect suite 100; successes connect suite 200;
            successes connect suite 500].
    revert L1 L2 L3 L4 L5.
    generalize (successes connect suite 10) (successes connect suite 50)
      (successes connect suite 100) (successes connect suite 200)
      (successes connect suite 500).
    intros s1 s2 s3 s4 s5 L1 L2 L3 L4 L5. simpl. lia.
  - rewrite Herr.
    change (map (failures connect suite) batch_sizes)
      with [failures connect suite 10; failures connect suite 50;
            failures connect suite 100; failures connect suite 200;
            failures connect suite 500].
    change (map (fun b => (b - successes connect suite b)%nat) batch_sizes)
      with [(10 - successes connect suite 10)%nat;
            (50 - successes connect suite 50)%nat;
            (100 - successes connect suite 100)%nat;
            (200 - successes connect suite 200)%nat;
            (500 - successes connect suite 500)%nat].
    revert L1 L2 L3 L4 L5 F1 F2 F3 F4 F5.
    generalize (successes connect suite 10) (successes connect suite 50)
      (successes connect suite 100) (successes connect suite 200)
      (successes connect suite 500)
      (failures connect suite 10) (failures connect suite 50)
      (failures connect suite 100) (failures connect suite 200)
      (failures connect suite 500).
    intros s1 s2 s3 s4 s5 f1 f2 f3 f4 f5 L1 L2 L3 L4 L5 F1 F2 F3 F4 F5.
    simpl. rewrite !length_app. simpl. lia.
  - rewrite Hstab. destruct (Nat.ltb_spec (connection_errors report) 10).
    + split; [intros _; assumption | reflexivity].
    + split; [discriminate | lia].
  - rewrite Hstab. destruct (Nat.ltb_spec (connection_errors report) 10).
    + split; [discriminate | lia].
    + split; [intros _; assumption | reflexivity].
Qed.

End Capacity.

Section Failover.

Context (io_time sleep_late : nat -> Q).
Context (query_completed : nat -> bool).

(** Effects take time: no round trip and no sleep makes the clock go
    backwards. *)
Hypothesis io_time_nonneg : forall n, 0 <= io_time n.
Hypothesis sleep_late_nonneg : forall n, 0 <= sleep_late n.

Lemma measure_loop_step (fuel : nat) (start_time duration : Q)
  (request_count : nat) (response_times : list Q) (error_count : nat)
  (w : World) :
  measure_loop io_time sleep_late query_completed (S fuel) start_time
    duration (request_count, response_times, error_count) w
  = if Qlt_bool (now w - start_time) duration then
      let w1 := {| now := Qred (now w + io_time (tick w));
                   tick := S (tick w) |} in
      measure_loop io_time sleep_late query_completed fuel start_time
        duration
        (if query_completed (tick w)
         then (S request_count,
               response_times ++ [(now w1 - now w) * 1000], error_count)
         else (request_count, response_times, S error_count))
        {| now := Qred (now w1 + 0.1 + sleep_late (tick w1));
           tick := S (tick w1) |}
    else Some ((request_count, response_times, error_count), w).
Proof.
  cbn [measure_loop]. unfold mbind, M_bind, time_time.
  destruct (Qlt_bool (now w - start_time) duration); [| reflexivity].
  unfold io, sleep, mbind, M_bind, mret, M_ret. cbn beta iota zeta.
  destruct (query_completed (tick w)); reflexivity.
Qed.

(** The loop of one measurement: it ends once [duration] has elapsed,
    after [n] rounds of at least 100 ms each; every round adds one
    request or one error. *)
Lemma measure_loop_spec (start_time duration : Q) (fuel : nat) :
  forall (request_count : nat) (response_times : list Q)
         (error_count : nat) (w : World),
    duration - (now w - start_time) <= inject_Z (Z.of_nat fuel) * 0.1 ->
    exists rc rts ec w' n,
      measure_loop io_time sleep_late query_completed (S fuel) start_time
        duration (request_count, response_times, error_count) w
      = Some ((rc, rts, ec), w')
      /\ duration <= now w' - start_time
      /\ now w + 0.1 * inject_Z (Z.of_nat n) <= now w'
      /\ (n <= fuel)%nat
      /\ (rc + ec = request_count + error_count + n)%nat
      /\ (request_count <= rc)%nat
      /\ (length rts = length response_times + (rc - request_count))%nat
      /\ (Forall (fun t => 0 <= t) response_times ->
          Forall (fun t => 0 <= t) rts)
      /\ ((forall k, query_completed k = false) ->
          rc = request_count /\ rts = response_times).
Proof.
  induction fuel as [| fuel IH]; intros rc0 rts0 ec0 w Hfuel;
    rewrite measure_loop_step.
  - assert (E : Qlt_bool (now w - start_time) duration = false).
    { apply Qlt_bool_false. change (inject_Z (Z.of_nat 0)) with 0 in Hfuel.
      lra. }
    rewrite E. exists rc0, rts0, ec0, w, 0%nat.
    apply Qlt_bool_false in E.
    split; [reflexivity |]. split; [lra |].
    split; [change (inject_Z (Z.of_nat 0)) with 0; lra |].
    repeat split; try lia; auto.
  - destruct (Qlt_bool (now w - start_time) duration) eqn:E.
    + set (w1 := {| now := Qred (now w + io_time (tick w));
                    tick := S (tick w) |}).
      set (w2 := {| now := Qred (now w1 + 0.1 + sleep_late (tick w1));
                    tick := S (tick w1) |}).
      assert (Hw1 : now w1 == now w + io_time (tick w))
        by apply Qred_correct.
      assert (Hw2 : now w2 == now w1 + 0.1 + sleep_late (tick w1))
        by apply Qred_correct.
      pose proof (io_time_nonneg (tick w)).
      pose proof (sleep_late_nonneg (tick w1)).
      cbn zeta. fold w1. fold w2.
      assert (Hfuel' : duration - (now w2 - start_time)
                       <= inject_Z (Z.of_nat fuel) * 0.1).
      { rewrite inject_nat_succ in Hfuel. lra. }
      destruct (query_completed (tick w)) eqn:Q.
      * destruct (IH (S rc0) (rts0 ++ [(now w1 - now w) * 1000]) ec0 w2
                    Hfuel')
          as (rc & rts & ec & w' & n & Hrun & Hend & Htime & Hn & Hcnt
              & Hrc & Hlen & Hpos & Hnone).
        exists rc, rts, ec, w', (S n).
        split; [exact Hrun |]. split; [exact Hend |].
        split; [rewrite inject_nat_succ; lra |].
        split; [lia |]. split; [lia |]. split; [lia |].
        split; [rewrite Hlen, length_app; simpl; lia |].
        split.
        { intros Hp. apply Hpos, Forall_app. split; [exact Hp |].
          constructor; [| constructor]. nra. }
        intros Hall. rewrite Hall in Q. discriminate.
      * destruct (IH rc0 rts0 (S ec0) w2 Hfuel')
          as (rc & rts & ec & w' & n & Hrun & Hend & Htime & Hn & Hcnt
              & Hrc & Hlen & Hpos & Hnone).
        exists rc, rts, ec, w', (S n).
        split; [exact Hrun |]. split; [exact Hend |].
        split; [rewrite inject_nat_succ; lra |].
        split; [lia |]. split; [lia |]. split; [lia |].
        split; [lia |]. split; [exact Hpos | exact Hnone].
    + exists rc0, rts0, ec0, w, 0%nat.
      apply Qlt_bool_false in E.
      split; [reflexivity |]. split; [lra |].
      split; [change (inject_Z (Z.of_nat 0)) with 0; lra |].
      repeat split; try lia; auto.
Qed.

Lemma measure_performance_spec (suite : StabilityTestSuite)
  (use_slave : bool) (config : Config) (w : World) :
  db_configs suite !! (if use_slave then 1 else 0)%nat = Some config ->
  exists perf w',
    _measure_performance io_time sleep_late query_completed 301 suite 30
      use_slave w = Some (Ok perf, w')
    /\ now w + 30 <= now w'
    /\ (request_count perf + error_count perf <= 300)%nat
    /\ 0 <= qps perf /\ qps perf <= 10
    /\ 0 <= avg_response_time perf
    /\ (request_count perf = 0%nat -> avg_response_time perf = 0)
    /\ ((forall k, query_completed k = false) ->
        request_count perf = 0%nat /\ avg_response_time perf = 0).
Proof.
  intros Hcfg. unfold _measure_performance. rewrite Hcfg.
  unfold mbind, M_bind, time_time.
  destruct (measure_loop_spec (now w) 30 300 0%nat [] 0%nat w)
    as (rc & rts & ec & w' & n & Hrun & Hend & Htime & Hn & Hcnt & _
        & Hlen & Hpos & Hnone).
  { change (inject_Z (Z.of_nat 300)) with 300. lra. }
  rewrite Hrun. cbn beta iota.
  assert (E : Qeq_bool (now w' - now w) 0 = false).
  { destruct (Qeq_bool (now w' - now w) 0) eqn:E; [| reflexivity].
    apply Qeq_bool_iff in E. lra. }
  rewrite E. unfold mret, M_ret.
  eexists _, w'. split; [reflexivity |].
  cbn [qps avg_response_time request_count error_count].
  pose proof (inject_nat_nonneg n) as Hn0.
  pose proof (inject_nat_nonneg rc) as Hrc0.
  pose proof (inject_nat_le rc n ltac:(lia)) as Hrcn.
  assert (Hd : 0 < now w' - now w) by lra.
  split; [lra |]. split; [lia |].
  split; [apply Qle_shift_div_l; [exact Hd | lra] |].
  split; [apply Qle_shift_div_r; [exact Hd | lra] |].
  split.
  { destruct rts as [| t ts]; [apply Qle_refl |].
    apply Qle_shift_div_l.
    - pose proof (inject_nat_succ (length ts)).
      pose proof (inject_nat_nonneg (length ts)). cbn [length]. lra.
    - rewrite Qmult_0_l. apply fold_sum_nonneg; [| apply Qle_refl].
      apply Hpos. constructor. }
  split.
  { intros ->. simpl in Hlen. now destruct rts. }
  intros Hall. destruct (Hnone Hall) as [-> ->]. split; reflexivity.
Qed.

Lemma failover_step (suite : StabilityTestSuite) (w : World) :
  _simulate_failover_test io_time sleep_late query_completed 301 suite w
  = match _measure_performance io_time sleep_late query_completed 301
            suite 30 false w with
    | Some (Ok normal_performance, w1) =>
        match _measure_performance io_time sleep_late query_completed 301
                suite 30 true
                {| now := Qred (now w1 + 5 + sleep_late (tick w1));
                   tick := S (tick w1) |} with
        | Some (Ok recovery_performance, w2) =>
            Some (assess_recovery normal_performance recovery_performance
                    (now w2 - now w1), w2)
        | Some (Raise e, w2) => Some (Raise e, w2)
        | None => None
        end
    | Some (Raise e, w1) => Some (Raise e, w1)
    | None => None
    end.
Proof.
  unfold _simulate_failover_test, and_then, mbind, M_bind.
  destruct (_measure_performance _ _ _ _ _ _ false w) as [[[p1 | e1] w1] |];
    try reflexivity.
  unfold time_time, sleep, mret, M_ret. cbn beta iota.
  destruct (_measure_performance _ _ _ _ _ _ true _) as [[[p2 | e2] w2] |];
    reflexivity.
Qed.

(** X4: one 30-second measurement, with fuel for 301 rounds, returns its
    record: at least 30 s pass, there are at most 300 rounds, the
    reported rate lies between 0 and 10 queries per second (every round
    sleeps 100 ms), the average response time is not negative and is [0]
    when no query completed.  Without a configuration for the chosen
    role the measurement raises [IndexError]. *)
Theorem measure_performance_bounds (suite : StabilityTestSuite)
  (use_slave : bool) (w : World) :
  match db_configs suite !! (if use_slave then 1 else 0)%nat with
  | Some _ =>
      exists perf w',
        _measure_performance io_time sleep_late query_completed 301 suite
          30 use_slave w = Some (Ok perf, w')
        /\ now w + 30 <= now w'
        /\ (request_count perf + error_count perf <= 300)%nat
        /\ 0 <= qps perf /\ qps perf <= 10
        /\ 0 <= avg_response_time perf
        /\ (request_count perf = 0%nat -> avg_response_time perf = 0)
  | None =>
      _measure_performance io_time sleep_late query_completed 301 suite
        30 use_slave w = Some (Raise IndexError, w)
  end.
Proof.
  destruct (db_configs suite !! (if use_slave then 1 else 0)%nat)
    as [config |] eqn:Hcfg.
  - destruct (measure_performance_spec suite use_slave config w Hcfg)
      as (perf & w' & H1 & H2 & H3 & H4 & H5 & H6 & H7 & _).
    exists perf, w'. repeat split; assumption.
  - unfold _measure_performance. now rewrite Hcfg.
Qed.

(** X5: with a master and a replica configured, the failover simulation
    returns; when it yields a report, the reported recovery time is at
    least 35 s (the 5 s outage plus the 30 s recovery measurement that
    precedes the second clock reading), so [recovery_success] is
    [False] and the quality is [GOOD] or [NEEDS_IMPROVEMENT], never
    [EXCELLENT]; the only exception it raises is [ZeroDivisionError]. *)
Theorem failover_recovery_time (suite : StabilityTestSuite)
  (master replica : Config) (w : World) :
  db_configs suite !! 0%nat = Some master ->
  db_configs suite !! 1%nat = Some replica ->
  exists outcome w',
    _simulate_failover_test io_time sleep_late query_completed 301 suite w
    = Some (outcome, w')
    /\ match outcome with
       | Ok report =>
           35 <= recovery_time_seconds report
           /\ recovery_success report = false
           /\ recovery_quality report <> "EXCELLENT"
           /\ (recovery_quality report = "GOOD"
               \/ recovery_quality report = "NEEDS_IMPROVEMENT")
           /\ 0 <= performance_impact_percent report
       | Raise e => e = ZeroDivisionError
       end.
Proof.
  intros Hm Hr. rewrite failover_step.
  destruct (measure_performance_spec suite false master w Hm)
    as (p1 & w1 & Hrun1 & Ht1 & _).
  rewrite Hrun1.
  set (w1' := {| now := Qred (now w1 + 5 + sleep_late (tick w1));
                 tick := S (tick w1) |}).
  assert (Hw1' : now w1' == now w1 + 5 + sleep_late (tick w1))
    by apply Qred_correct.
  pose proof (sleep_late_nonneg (tick w1)).
  destruct (measure_performance_spec suite true replica w1' Hr)
    as (p2 & w2 & Hrun2 & Ht2 & _).
  rewrite Hrun2. eexists _, w2. split; [reflexivity |].
  unfold assess_recovery.
  destruct (Qeq_bool (avg_response_time p1) 0); [reflexivity |].
  assert (Hrt : 35 <= now w2 - now w1) by lra.
  assert (E30 : Qle_bool (now w2 - now w1) 30 = false).
  { apply Qle_bool_false. lra. }
  cbn [recovery_time_seconds recovery_success recovery_quality
       performance_impact_percent].
  rewrite E30. cbn [andb].
  split; [exact Hrt |]. split; [reflexivity |].
  split; [| split; [| apply Qabs_nonneg]].
  - destruct (_ && _); discriminate.
  - destruct (_ && _); [left | right]; reflexivity.
Qed.

(** X6: when no query completes (the database is down), the baseline
    has no response time, its average is [0], and the failover
    simulation raises [ZeroDivisionError] after both measurements. *)
Theorem failover_without_baseline (suite : StabilityTestSuite)
  (master replica : Config) (w : World) :
  db_configs suite !! 0%nat = Some master ->
  db_configs suite !! 1%nat = Some replica ->
  (forall k, query_completed k = false) ->
  exists w',
    _simulate_failover_test io_time sleep_late query_completed 301 suite w
    = Some (Raise ZeroDivisionError, w')
    /\ now w + 65 <= now w'.
Proof.
  intros Hm Hr Hdown. rewrite failover_step.
  destruct (measure_performance_spec suite false master w Hm)
    as (p1 & w1 & Hrun1 & Ht1 & _ & _ & _ & _ & _ & Hnone).
  rewrite Hrun1.
  set (w1' := {| now := Qred (now w1 + 5 + sleep_late (tick w1));
                 tick := S (tick w1) |}).
  assert (Hw1' : now w1' == now w1 + 5 + sleep_late (tick w1))
    by apply Qred_correct.
  pose proof (sleep_late_nonneg (tick w1)).
  destruct (measure_performance_spec suite true replica w1' Hr)
    as (p2 & w2 & Hrun2 & Ht2 & _).
  rewrite Hrun2. exists w2. split; [| lra].
  unfold assess_recovery. destruct (Hnone Hdown) as [_ ->]. reflexivity.
Qed.

End Failover.

Lemma measure_performance_bounds_witness :
  exists perf w',
    _measure_performance (fun _ => 0.01) (fun _ => 0) (fun _ => true) 301
      default_suite 30 false {| now := 1700000000; tick := 0 |}
    = Some (Ok perf, w')
    /\ (request_count perf + error_count perf <= 300)%nat
    /\ qps perf <= 10.
Proof.
  destruct (measure_performance_bounds (fun _ => 0.01) (fun _ => 0)
              (fun _ => true)
              (fun n => ltac:(vm_compute; discriminate))
              (fun n => ltac:(vm_compute; discriminate))
              default_suite false {| now := 1700000000; tick := 0 |})
    as (perf & w' & Hrun & _ & Hcnt & _ & Hqps & _).
  exists perf, w'. split; [exact Hrun |]. split; [exact Hcnt | exact Hqps].
Defined.

Lemma failover_recovery_time_witness :
  let io_time := fun n : nat => if (n <? 6)%nat then 9.9 else 10.89 in
  exists report w',
    _simulate_failover_test io_time (fun _ => 0) (fun _ => true) 301
      default_suite {| now := 1700000000; tick := 0 |}
    = Some (Ok report, w')
    /\ 35 <= recovery_time_seconds report
    /\ recovery_success report = false
    /\ performance_impact_percent report == 10
    /\ recovery_quality report = "GOOD".
Proof.
  intros io_time.
  assert (Hio : forall n, 0 <= io_time n).
  { intros n. unfold io_time.
    destruct (n <? 6)%nat; vm_compute; discriminate. }
  assert (Hc : exists report w',
             _simulate_failover_test io_time (fun _ => 0) (fun _ => true)
               301 default_suite {| now := 1700000000; tick := 0 |}
             = Some (Ok report, w')
             /\ performance_impact_percent report == 10
             /\ recovery_quality report = "GOOD").
  { vm_compute. eexists _, _. repeat split; reflexivity. }
  destruct Hc as (report & w' & Hrun0 & Himpact & Hquality).
  destruct (failover_recovery_time io_time (fun _ => 0) (fun _ => true)
              Hio (fun n => ltac:(vm_compute; discriminate))
              default_suite ConnectionManager.example_master
              ConnectionManager.example_slave
              {| now := 1700000000; tick := 0 |} eq_refl eq_refl)
    as (outcome & w'' & Hrun & Hm).
  rewrite Hrun0 in Hrun. injection Hrun as <- <-.
  destruct Hm as (H1 & H2 & _).
  exists report, w'. split; [exact Hrun0 |].
  split; [exact H1 |]. split; [exact H2 |].
  split; [exact Himpact | exact Hquality].
Defined.

Lemma failover_without_baseline_witness :
  exists w',
    _simulate_failover_test (fun _ => 0.01) (fun _ => 0) (fun _ => false)
      301 default_suite {| now := 1700000000; tick := 0 |}
    = Some (Raise ZeroDivisionError, w')
    /\ 1700000000 + 65 <= now w'.
Proof.
  destruct (failover_without_baseline (fun _ => 0.01) (fun _ => 0)
              (fun _ => false)
              (fun n => ltac:(vm_compute; discriminate))
              (fun n => ltac:(vm_compute; discriminate))
              default_suite ConnectionManager.example_master
              ConnectionManager.example_slave
              {| now := 1700000000; tick := 0 |} eq_refl eq_refl
              (fun k => eq_refl))
    as (w' & Hrun & Ht).
  exists w'. split; [exact Hrun | exact Ht].
Defined.

Lemma leak_verdict (initial_memory final_memory : Q) (created : nat)
  (samples : list Q) :
  leak_suspected (leak_analysis initial_memory final_memory created samples)
  = true
  <-> 5 < final_memory - initial_memory
      \/ (0 < initial_memory /\ 1.1 * initial_memory < final_memory).
Proof.
  unfold leak_analysis. cbn [leak_suspected].
  rewrite orb_true_iff, !Qlt_bool_iff.
  destruct (Qlt_bool 0 initial_memory) eqn:E.
  - apply Qlt_bool_iff in E.
    assert (Hrate : 10 < (final_memory - initial_memory) / initial_memory * 100
                    <-> 1.1 * initial_memory < final_memory).
    { split; intros H.
      - destruct (Qlt_le_dec (1.1 * initial_memory) final_memory) as [Hlt | Hle];
          [exact Hlt | exfalso].
        assert ((final_memory - initial_memory) / initial_memory <= 0.1).
        { apply Qle_shift_div_r; [exact E | lra]. }
        lra.
      - assert (0.1 < (final_memory - initial_memory) / initial_memory).
        { apply Qlt_shift_div_l; [exact E | lra]. }
        lra. }
    rewrite Hrate. tauto.
  - apply Qlt_bool_false in E. split.
    + intros [H | H]; [now left | exfalso; lra].
    + intros [H | [H _]]; [now left | exfalso; lra].
Qed.

Section Leak.

Context (io_time sleep_late : nat -> Q).
Context (query_completed : nat -> bool).
Context (memory_rss : nat -> Z).

Lemma mod10 (i n : nat) :
  (i mod 10 = 0)%nat -> (10 * n <= i + 9)%nat -> (10 * S n <= S i + 9)%nat.
Proof.
  intros Hm Hn. pose proof (Nat.div_mod_eq i 10) as E. rewrite Hm in E. lia.
Qed.

Lemma leak_round_counts (suite : StabilityTestSuite) (i created : nat)
  (samples : list Q) (w : World) :
  exists created' samples' w',
    leak_round io_time sleep_late query_completed memory_rss suite i
      (created, samples) w = Some ((created', samples'), w')
    /\ (created <= created' <= S created)%nat
    /\ (length samples <= length samples')%nat
    /\ (length samples' - length samples <= created' - created)%nat
    /\ ((length samples < length samples')%nat -> (i mod 10 = 0)%nat)
    /\ (db_configs suite = [] -> created' = created /\ samples' = samples)
    /\ ((forall n, query_completed n = true) -> db_configs suite <> [] ->
        created' = S created
        /\ length samples'
           = (length samples + if (i mod 10 =? 0)%nat then 1 else 0)%nat).
Proof.
  unfold leak_round, memory_mb, mbind, M_bind, io, sleep, mret, M_ret.
  destruct (Nat.eqb_spec (i mod 10) 0) as [Hm | Hm];
    (destruct (db_configs suite) as [| config rest] eqn:Hcfg;
     [| destruct (query_completed (tick w)) eqn:Q1;
        [destruct (query_completed (S (tick w))) eqn:Q2;
         [destruct (query_completed (S (S (tick w)))) eqn:Q3 |] |]]);
    cbn -[Nat.modulo Qplus Qred Qdiv Qmult Qinv inject_Z];
    rewrite ?Q1; cbn -[Nat.modulo Qplus Qred Qdiv Qmult Qinv inject_Z];
    rewrite ?Q2; cbn -[Nat.modulo Qplus Qred Qdiv Qmult Qinv inject_Z];
    rewrite ?Q3; cbn -[Nat.modulo Qplus Qred Qdiv Qmult Qinv inject_Z];
    (eexists _, _, _; split; [reflexivity |]);
    rewrite ?length_app; cbn [length];
    repeat split; first [lia | congruence].
Qed.

Lemma leak_loop (suite : StabilityTestSuite) (w : World) :
  exists created samples w',
    for_each (leak_round io_time sleep_late query_completed memory_rss suite)
      (seq 0 100) (0%nat, []) w = Some ((created, samples), w')
    /\ (created <= 100)%nat
    /\ (length samples <= 10)%nat
    /\ (length samples <= created)%nat
    /\ (db_configs suite = [] -> created = 0%nat /\ samples = [])
    /\ ((forall n, query_completed n = true) -> db_configs suite <> [] ->
        created = 100%nat /\ length samples = 10%nat).
Proof.
  destruct (ConsistencyProofs.for_each_invariant
              (fun rest (st : nat * list Q) (_ : World) =>
                 exists i, rest = seq i (100 - i) /\ (i <= 100)%nat
                   /\ (st.1 <= i)%nat
                   /\ (10 * length st.2 <= i + 9)%nat
                   /\ (length st.2 <= st.1)%nat
                   /\ (db_configs suite = [] -> st.1 = 0%nat /\ st.2 = [])
                   /\ ((forall n, query_completed n = true) ->
                       db_configs suite <> [] ->
                       st.1 = i /\ (10 * length st.2 = i + 9 - (i + 9) mod 10)%nat))
              (leak_round io_time sleep_late query_completed memory_rss suite))
    with (xs := seq 0 100) (s := (0%nat, @nil Q)) (w := w)
    as ([created samples] & w' & Hrun & i & Hrest & Hi & H1 & H2 & H3 & H4 & H5).
  - intros x xs [created samples] w0
      (i & Hrest & Hi & H1 & H2 & H3 & H4 & H5).
    cbn [fst snd] in *.
    destruct (decide (i = 100%nat)) as [-> | Hne]; [discriminate Hrest |].
    replace (100 - i)%nat with (S (100 - S i)) in Hrest by lia.
    cbn [seq] in Hrest. injection Hrest as -> ->.
    destruct (leak_round_counts suite i created samples w0)
      as (c' & s' & w1 & Hrun & Hc & Hs & Hd & Hm & Hnone & Hall).
    exists (c', s'), w1. split; [exact Hrun |].
    exists (S i). cbn [fst snd].
    split; [reflexivity |]. split; [lia |]. split; [lia |].
    split.
    { destruct (decide (length samples < length s')%nat) as [Hlt | Hge].
      - pose proof (mod10 i (length samples) (Hm Hlt) H2). lia.
      - lia. }
    split; [lia |]. split.
    { intros Hcfg. destruct (Hnone Hcfg) as [-> ->]. now apply H4. }
    intros Hq Hcfg. destruct (Hall Hq Hcfg) as [-> Hlen].
    destruct (H5 Hq Hcfg) as [-> H6]. split; [reflexivity |].
    rewrite Hlen.
    pose proof (Nat.div_mod_eq i 10) as E1.
    pose proof (Nat.mod_upper_bound i 10 ltac:(lia)) as B1.
    pose proof (Nat.div_mod_eq (i + 9) 10) as E2.
    pose proof (Nat.mod_upper_bound (i + 9) 10 ltac:(lia)) as B2.
    pose proof (Nat.div_mod_eq (S i + 9) 10) as E3.
    pose proof (Nat.mod_upper_bound (S i + 9) 10 ltac:(lia)) as B3.
    destruct (Nat.eqb_spec (i mod 10) 0) as [Hm0 | Hm0]; lia.
  - exists 0%nat. cbn [fst snd length]. repeat split; try lia; try reflexivity.
  - exists created, samples, w'. split; [exact Hrun |].
    cbn [fst snd] in *.
    assert (i = 100%nat) as ->.
    { destruct (decide (i = 100%nat)) as [-> | Hne]; [reflexivity |].
      replace (100 - i)%nat with (S (100 - S i)) in Hrest by lia.
      discriminate Hrest. }
    split; [lia |]. split; [lia |]. split; [lia |]. split; [exact H4 |].
    intros Hq Hcfg. destruct (H5 Hq Hcfg) as [-> H6].
    split; [reflexivity |]. change ((100 + 9) mod 10)%nat with 9%nat in H6.
    lia.
Qed.

(** X20: the memory check always returns its report.  At most 100
    connections are counted and at most 10 memory samples are taken,
    never more samples than counted connections (a sample is taken only
    in a round, every tenth, whose connection was opened, queried and
    closed without an exception).  A leak is suspected exactly when the
    memory grew by more than 5 MB, or the initial reading is positive
    and the final one exceeds it by more than 10 percent.  Without a
    configuration nothing is counted; when every round trip succeeds,
    100 connections and 10 samples are reported. *)
Theorem memory_leak_report (suite : StabilityTestSuite) (w : World) :
  exists r w',
    _test_memory_leak io_time sleep_late query_completed memory_rss suite w
    = Some (r, w')
    /\ (connections_tested r <= 100)%nat
    /\ (length (memory_samples r) <= 10)%nat
    /\ (length (memory_samples r) <= connections_tested r)%nat
    /\ memory_increase_mb r = final_memory_mb r - initial_memory_mb r
    /\ (leak_suspected r = true
        <-> 5 < final_memory_mb r - initial_memory_mb r
            \/ (0 < initial_memory_mb r
                /\ 1.1 * initial_memory_mb r < final_memory_mb r))
    /\ (db_configs suite = [] ->
        connections_tested r = 0%nat /\ memory_samples r = [])
    /\ ((forall n, query_completed n = true) -> db_configs suite <> [] ->
        connections_tested r = 100%nat
        /\ length (memory_samples r) = 10%nat).
Proof.
  unfold _test_memory_leak, memory_mb, mbind, M_bind, io.
  set (w1 := {| now := _; tick := _ |}).
  destruct (leak_loop suite w1)
    as (created & samples & w2 & Hrun & H1 & H2 & H3 & H4 & H5).
  rewrite Hrun. cbn beta iota. unfold mret, M_ret.
  eexists _, _. split; [reflexivity |].
  cbn [fst snd].
  split; [exact H1 |]. split; [exact H2 |]. split; [exact H3 |].
  split; [reflexivity |]. split; [apply leak_verdict |].
  split; [exact H4 | exact H5].
Qed.

End Leak.

Section Load.

Context (io_time sleep_late : nat -> Q).
Context (query_completed : nat -> bool).

Hypothesis io_time_nonneg : forall n, 0 <= io_time n.
Hypothesis sleep_late_nonneg : forall n, 0 <= sleep_late n.

Lemma run_queries_step (query : string) (rest : list string)
  (total : nat) (rts : list Q) (w : World) :
  run_queries io_time query_completed (query :: rest) (total, rts) w
  = let w1 := {| now := Qred (now w + io_time (tick w));
                 tick := S (tick w) |} in
    if query_completed (tick w)
    then run_queries io_time query_completed rest
           (S total, rts ++ [(now w1 - now w) * 1000]) w1
    else Some ((false, (total, rts)), w1).
Proof.
  cbn [run_queries]. unfold mbind, M_bind, time_time, io, mret, M_ret.
  cbn beta iota zeta. now destruct (query_completed (tick w)).
Qed.

Lemma run_queries_spec (queries : list string) :
  forall (total : nat) (rts : list Q) (w : World),
  exists ok total' rts' w',
    run_queries io_time query_completed queries (total, rts) w
    = Some ((ok, (total', rts')), w')
    /\ now w <= now w'
    /\ (total <= total' <= total + length queries)%nat
    /\ (length rts' = length rts + (total' - total))%nat
    /\ (Forall (fun t => 0 <= t) rts -> Forall (fun t => 0 <= t) rts')
    /\ (ok = true -> total' = (total + length queries)%nat)
    /\ ((forall n, query_completed n = true) -> ok = true)
    /\ ((forall n, query_completed n = false) ->
        total' = total /\ rts' = rts).
Proof.
  induction queries as [| query rest IH]; intros total rts w.
  - exists true, total, rts, w. simpl. split; [reflexivity |].
    split; [apply Qle_refl |]. repeat split; try lia; auto.
  - rewrite run_queries_step. cbn zeta.
    set (w1 := {| now := Qred (now w + io_time (tick w));
                  tick := S (tick w) |}).
    assert (Hw1 : now w1 == now w + io_time (tick w)) by apply Qred_correct.
    pose proof (io_time_nonneg (tick w)) as Hio.
    destruct (query_completed (tick w)) eqn:Q.
    + destruct (IH (S total) (rts ++ [(now w1 - now w) * 1000]) w1)
        as (ok & total' & rts' & w' & Hrun & Ht & Hc & Hlen & Hpos & Hok
            & Hall & Hnone).
      exists ok, total', rts', w'. split; [exact Hrun |].
      split; [lra |]. split; [simpl; lia |].
      split; [rewrite Hlen, length_app; simpl; lia |].
      split.
      { intros Hp. apply Hpos, Forall_app. split; [exact Hp |].
        constructor; [| constructor]. nra. }
      split; [intros H; rewrite (Hok H); simpl; lia |].
      split; [exact Hall |].
      intros H. rewrite H in Q. discriminate.
    + exists false, total, rts, w1. split; [reflexivity |].
      split; [lra |]. split; [simpl; lia |]. split; [lia |].
      split; [auto |]. split; [discriminate |].
      split; [intros H; rewrite H in Q; discriminate | auto].
Qed.

Lemma load_attempt_spec (suite : StabilityTestSuite) (total : nat)
  (rts : list Q) (w : World) :
  exists ok total' rts' w',
    load_attempt io_time query_completed suite (total, rts) w
    = Some ((ok, (total', rts')), w')
    /\ now w <= now w'
    /\ (total <= total' <= total + 4)%nat
    /\ (length rts' = length rts + (total' - total))%nat
    /\ (Forall (fun t => 0 <= t) rts -> Forall (fun t => 0 <= t) rts')
    /\ (ok = true -> total' = (total + 4)%nat)
    /\ (db_configs suite = [] -> ok = false /\ total' = total)
    /\ ((forall n, query_completed n = false) ->
        ok = false /\ total' = total).
Proof.
  unfold load_attempt.
  destruct (db_configs suite) as [| config rest] eqn:Hcfg; cbn [lookup list_lookup].
  { exists false, total, rts, w. split; [reflexivity |].
    split; [apply Qle_refl |]. repeat split; try lia; auto; discriminate. }
  unfold mbind, M_bind, io, mret, M_ret. cbn beta iota.
  set (w1 := {| now := Qred (now w + io_time (tick w));
                tick := S (tick w) |}).
  assert (Hw1 : now w1 == now w + io_time (tick w)) by apply Qred_correct.
  pose proof (io_time_nonneg (tick w)) as Hio.
  destruct (query_completed (tick w)) eqn:Q.
  2: { exists false, total, rts, w1. split; [reflexivity |].
       split; [lra |]. repeat split; try lia; auto; discriminate. }
  destruct (run_queries_spec load_queries total rts w1)
    as (ok & total' & rts' & w2 & Hrun & Ht & Hc & Hlen & Hpos & Hok & _
        & Hnone).
  rewrite Hrun. cbn beta iota. cbn [fst snd].
  change (length load_queries) with 4%nat in Hc, Hok.
  destruct ok.
  - set (w3 := {| now := Qred (now w2 + io_time (tick w2));
                  tick := S (tick w2) |}).
    assert (Hw3 : now w3 == now w2 + io_time (tick w2))
      by apply Qred_correct.
    pose proof (io_time_nonneg (tick w2)) as Hio2.
    exists (query_completed (tick w2)), total', rts', w3.
    split; [reflexivity |]. split; [lra |]. split; [lia |].
    split; [exact Hlen |]. split; [exact Hpos |].
    split; [intros _; now apply Hok |].
    split; [discriminate |].
    intros H. rewrite H in Q. discriminate.
  - exists false, total', rts', w2.
    split; [reflexivity |]. split; [lra |]. split; [lia |].
    split; [exact Hlen |]. split; [exact Hpos |].
    split; [discriminate |]. split; [discriminate |].
    intros H. rewrite H in Q. discriminate.
Qed.

Lemma continuous_load_step (fuel : nat) (suite : StabilityTestSuite)
  (start_time test_duration : Q) (total : nat) (rts : list Q) (errs : nat)
  (w : World) :
  continuous_load io_time sleep_late query_completed (S fuel) suite
    start_time test_duration (total, rts, errs) w
  = if Qlt_bool (now w - start_time) test_duration then
      match load_attempt io_time query_completed suite (total, rts) w with
      | Some ((ok, (total', rts')), w1) =>
          if ok
          then continuous_load io_time sleep_late query_completed fuel suite
                 start_time test_duration (total', rts', errs)
                 {| now := Qred (now w1 + 0.1 + sleep_late (tick w1));
                    tick := S (tick w1) |}
          else continuous_load io_time sleep_late query_completed fuel suite
                 start_time test_duration (total', rts', S errs)
                 {| now := Qred (now w1 + 1 + sleep_late (tick w1));
                    tick := S (tick w1) |}
      | None => None
      end
    else Some ((total, rts, errs), w).
Proof.
  cbn [continuous_load]. unfold mbind, M_bind, time_time.
  destruct (Qlt_bool (now w - start_time) test_duration); [| reflexivity].
  destruct (load_attempt io_time query_completed suite (total, rts) w)
    as [[[ok [total' rts']] w1] |]; [| reflexivity].
  cbn [fst snd]. unfold sleep. now destruct ok.
Qed.

Lemma continuous_load_spec (suite : StabilityTestSuite)
  (start_time test_duration : Q) (fuel : nat) :
  forall (total : nat) (rts : list Q) (errs : nat) (w : World),
    test_duration - (now w - start_time) <= inject_Z (Z.of_nat fuel) * 0.1 ->
    exists total' rts' errs' w',
      continuous_load io_time sleep_late query_completed (S fuel) suite
        start_time test_duration (total, rts, errs) w
      = Some ((total', rts', errs'), w')
      /\ test_duration <= now w' - start_time
      /\ now w <= now w'
      /\ (total <= total' <= total + 4 * fuel)%nat
      /\ (errs <= errs')%nat
      /\ (test_duration - (now w - start_time) <= 0 ->
          errs' = errs /\ total' = total)
      /\ (0 < test_duration - (now w - start_time) ->
          inject_Z (Z.of_nat errs')
          < inject_Z (Z.of_nat errs)
            + (test_duration - (now w - start_time)) + 1)
      /\ (length rts' = length rts + (total' - total))%nat
      /\ (Forall (fun t => 0 <= t) rts -> Forall (fun t => 0 <= t) rts')
      /\ (db_configs suite = [] -> total' = total)
      /\ ((forall n, query_completed n = false) -> total' = total).
Proof.
  induction fuel as [| fuel IH]; intros total rts errs w Hfuel;
    rewrite continuous_load_step.
  - assert (E : Qlt_bool (now w - start_time) test_duration = false).
    { apply Qlt_bool_false. change (inject_Z (Z.of_nat 0)) with 0 in Hfuel.
      lra. }
    rewrite E. apply Qlt_bool_false in E.
    exists total, rts, errs, w. split; [reflexivity |].
    split; [lra |]. split; [apply Qle_refl |].
    repeat split; try lia; auto. intros H. lra.
  - destruct (Qlt_bool (now w - start_time) test_duration) eqn:E.
    2: { apply Qlt_bool_false in E.
         exists total, rts, errs, w. split; [reflexivity |].
         split; [lra |]. split; [apply Qle_refl |].
         repeat split; try lia; auto. intros H. lra. }
    apply Qlt_bool_iff in E.
    destruct (load_attempt_spec suite total rts w)
      as (ok & total1 & rts1 & w1 & Hrun & Ht1 & Hc1 & Hlen1 & Hpos1 & Hok1
          & Hcfg1 & Hnone1).
    rewrite Hrun.
    pose proof (sleep_late_nonneg (tick w1)) as Hlate.
    pose proof (inject_nat_succ fuel) as Hfs.
    pose proof (inject_nat_succ errs) as Hes.
    destruct ok.
    + set (w2 := {| now := Qred (now w1 + 0.1 + sleep_late (tick w1));
                    tick := S (tick w1) |}).
      assert (Hw2 : now w2 == now w1 + 0.1 + sleep_late (tick w1))
        by apply Qred_correct.
      destruct (IH total1 rts1 errs w2)
        as (total' & rts' & errs' & w' & Hloop & Hend & Ht & Hc & He & Hzero
            & Hbound & Hlen & Hpos & Hcfg & Hnone); [lra |].
      exists total', rts', errs', w'. split; [exact Hloop |].
      split; [exact Hend |]. split; [lra |]. split; [lia |].
      split; [exact He |]. split; [intros H; lra |].
      split.
      { intros _.
        destruct (Qlt_le_dec 0 (test_duration - (now w2 - start_time)))
          as [Hpos2 | Hneg2].
        - specialize (Hbound Hpos2). lra.
        - destruct (Hzero Hneg2) as [-> _]. lra. }
      split; [lia |]. split; [auto |].
      split.
      { intros H. destruct (Hcfg1 H) as [Hf _]. discriminate Hf. }
      intros H. destruct (Hnone1 H) as [Hf _]. discriminate Hf.
    + set (w2 := {| now := Qred (now w1 + 1 + sleep_late (tick w1));
                    tick := S (tick w1) |}).
      assert (Hw2 : now w2 == now w1 + 1 + sleep_late (tick w1))
        by apply Qred_correct.
      destruct (IH total1 rts1 (S errs) w2)
        as (total' & rts' & errs' & w' & Hloop & Hend & Ht & Hc & He & Hzero
            & Hbound & Hlen & Hpos & Hcfg & Hnone); [lra |].
      exists total', rts', errs', w'. split; [exact Hloop |].
      split; [exact Hend |]. split; [lra |]. split; [lia |].
      split; [lia |]. split; [intros H; lra |].
      split.
      { intros _.
        destruct (Qlt_le_dec 0 (test_duration - (now w2 - start_time)))
          as [Hpos2 | Hneg2].
        - specialize (Hbound Hpos2). lra.
        - destruct (Hzero Hneg2) as [-> _]. lra. }
      split; [lia |]. split; [auto |].
      split.
      { intros H. destruct (Hcfg1 H) as [_ ->]. now apply Hcfg. }
      intros H. destruct (Hnone1 H) as [_ ->]. now apply Hnone.
Qed.

Lemma availability_range (total errs : nat) (rts : list Q) :
  (errs <= 180)%nat ->
  Forall (fun t => 0 <= t) rts ->
  let r := availability total errs rts in
  -179 <= LongRunning.success_rate r
  /\ LongRunning.success_rate r <= 1
  /\ 0 <= LongRunning.avg_response_time_ms r
  /\ (total = 0%nat -> LongRunning.success_rate r = 0)
  /\ ((0 < total)%nat ->
      (LongRunning.success_rate r == 1 <-> errs = 0%nat)
      /\ (LongRunning.success_rate r < 0 <-> (total < errs)%nat)).
Proof.
  intros He Hpos r. unfold r, availability.
  cbn [LongRunning.success_rate LongRunning.avg_response_time_ms].
  assert (Havg : 0 <= match rts with
                      | [] => 0
                      | _ => py_sum rts / inject_Z (Z.of_nat (length rts))
                      end).
  { destruct rts as [| t ts]; [apply Qle_refl |].
    apply Qle_shift_div_l.
    - pose proof (inject_nat_succ (length ts)).
      pose proof (inject_nat_nonneg (length ts)). cbn [length]. lra.
    - rewrite Qmult_0_l. apply fold_sum_nonneg; [exact Hpos | apply Qle_refl]. }
  destruct (Nat.ltb_spec 0 total) as [Ht | Ht].
  - assert (HT : 1 <= inject_Z (Z.of_nat total)).
    { change 1 with (inject_Z 1). rewrite <- Zle_Qle. lia. }
    assert (HE0 : 0 <= inject_Z (Z.of_nat errs)) by apply inject_nat_nonneg.
    assert (HE : inject_Z (Z.of_nat errs) <= 180).
    { change 180 with (inject_Z 180). rewrite <- Zle_Qle. lia. }
    assert (Hsub : inject_Z (Z.of_nat total - Z.of_nat errs)
                   == inject_Z (Z.of_nat total) - inject_Z (Z.of_nat errs)).
    { unfold Z.sub. rewrite inject_Z_plus, inject_Z_opp. reflexivity. }
    assert (Hdiv : inject_Z (Z.of_nat total - Z.of_nat errs)
                   / inject_Z (Z.of_nat total)
                   == 1 - inject_Z (Z.of_nat errs) / inject_Z (Z.of_nat total)).
    { rewrite Hsub. field. lra. }
    set (T := inject_Z (Z.of_nat total)) in *.
    set (E := inject_Z (Z.of_nat errs)) in *.
    assert (Hq0 : 0 <= E / T) by (apply Qle_shift_div_l; lra).
    assert (Hq1 : E / T <= 180) by (apply Qle_shift_div_r; nra).
    split; [rewrite Hdiv; lra |]. split; [rewrite Hdiv; lra |].
    split; [exact Havg |]. split; [lia |]. intros _. split.
    + rewrite Hdiv. split.
      * intros H.
        assert (Hz : E / T <= 0) by lra.
        assert (HE' : E <= 0).
        { destruct (Qlt_le_dec 0 E) as [Hlt | Hle]; [| exact Hle].
          assert (0 < E / T) by (apply Qlt_shift_div_l; lra). lra. }
        assert (Hz' : (Z.of_nat errs <= 0)%Z).
        { rewrite Zle_Qle. exact HE'. }
        lia.
      * intros ->. unfold E. change (inject_Z (Z.of_nat 0)) with 0.
        unfold Qdiv. rewrite Qmult_0_l. reflexivity.
    + rewrite Hdiv. split.
      * intros H.
        assert (Hlt : T < E).
        { destruct (Qlt_le_dec T E) as [Hlt | Hle]; [exact Hlt |].
          assert (E / T <= 1) by (apply Qle_shift_div_r; lra). lra. }
        unfold T, E in Hlt. rewrite <- Zlt_Qlt in Hlt. lia.
      * intros H.
        assert (Hlt : T < E).
        { unfold T, E. rewrite <- Zlt_Qlt. lia. }
        assert (1 < E / T) by (apply Qlt_shift_div_l; lra). lra.
  - assert (total = 0%nat) as -> by lia.
    split; [discriminate |]. split; [discriminate |].
    split; [exact Havg |]. split; [reflexivity |]. lia.
Qed.

(** X21: with fuel for 1801 rounds the load task of the long-running
    test ends, after at least 180 s.  It counts at most 180 errors
    (every failed round sleeps one second) and at most 7200 requests
    (four per round, every round sleeps at least 100 ms).  The reported
    success rate compares requests with failed rounds: it lies between
    [-179] and [1], is [0] when no request completed, is [1] exactly
    when no round failed, and is negative exactly when more rounds
    failed than requests completed.  No request is counted without a
    configuration or when every round trip fails. *)
Theorem long_running_load_report (suite : StabilityTestSuite) (w : World) :
  exists r w',
    long_running_load io_time sleep_late query_completed 1801 suite w
    = Some (r, w')
    /\ now w + 180 <= now w'
    /\ (LongRunning.error_count r <= 180)%nat
    /\ (LongRunning.total_requests r <= 4 * 1800)%nat
    /\ -179 <= LongRunning.success_rate r
    /\ LongRunning.success_rate r <= 1
    /\ 0 <= LongRunning.avg_response_time_ms r
    /\ (LongRunning.total_requests r = 0%nat ->
        LongRunning.success_rate r = 0)
    /\ ((0 < LongRunning.total_requests r)%nat ->
        (LongRunning.success_rate r == 1
         <-> LongRunning.error_count r = 0%nat)
        /\ (LongRunning.success_rate r < 0
            <-> (LongRunning.total_requests r
                 < LongRunning.error_count r)%nat))
    /\ (db_configs suite = [] \/ (forall n, query_completed n = false) ->
        LongRunning.total_requests r = 0%nat).
Proof.
  unfold long_running_load, mbind, M_bind, time_time.
  destruct (continuous_load_spec suite (now w) 180 1800 0%nat [] 0%nat w)
    as (total & rts & errs & w' & Hrun & Hend & _ & Hc & _ & _ & Hbound
        & _ & Hpos & Hcfg & Hnone).
  { change (inject_Z (Z.of_nat 1800)) with 1800. lra. }
  rewrite Hrun. cbn beta iota. unfold mret, M_ret.
  exists (availability total errs rts), w'. split; [reflexivity |].
  assert (He : (errs <= 180)%nat).
  { assert (H : inject_Z (Z.of_nat errs) < inject_Z 181).
    { change (inject_Z 181) with 181.
      change (inject_Z (Z.of_nat 0)) with 0 in Hbound. lra. }
    rewrite <- Zlt_Qlt in H. lia. }
  destruct (availability_range total errs rts He (Hpos (Forall_nil_2 _)))
    as (H1 & H2 & H3 & H4 & H5).
  split; [lra |]. split; [exact He |]. split; [simpl; lia |].
  split; [exact H1 |]. split; [exact H2 |]. split; [exact H3 |].
  split; [exact H4 |]. split; [exact H5 |].
  intros [H | H]; simpl; auto.
Qed.

End Load.

Lemma long_running_load_report_witness :
  let io_time := fun _ : nat => 0.01 in
  let sleep_late := fun n : nat => if (n <? 5)%nat then 0 else 200 in
  let query_completed := fun n : nat => (n <? 2)%nat in
  exists r w',
    long_running_load io_time sleep_late query_completed 1801 default_suite
      {| now := 0; tick := 0 |} = Some (r, w')
    /\ LongRunning.total_requests r = 1%nat
    /\ LongRunning.error_count r = 2%nat
    /\ LongRunning.success_rate r < 0
    /\ -179 <= LongRunning.success_rate r.
Proof.
  intros io_time sleep_late query_completed.
  destruct (long_running_load_report io_time sleep_late query_completed
              (fun n => ltac:(vm_compute; discriminate))
              (fun n => ltac:(unfold sleep_late; destruct (n <? 5)%nat;
                              vm_compute; discriminate))
              default_suite {| now := 0; tick := 0 |})
    as (r & w' & Hrun & _ & _ & _ & Hlow & _).
  assert (Hc : exists r0 w0,
             long_running_load io_time sleep_late query_completed 1801
               default_suite {| now := 0; tick := 0 |} = Some (r0, w0)
             /\ LongRunning.total_requests r0 = 1%nat
             /\ LongRunning.error_count r0 = 2%nat
             /\ LongRunning.success_rate r0 < 0).
  { vm_compute. eexists _, _. repeat split; reflexivity. }
  destruct Hc as (r0 & w0 & Hc & H1 & H2 & H3).
  rewrite Hc in Hrun. injection Hrun as <- <-.
  exists r0, w0. repeat split; assumption.
Defined.

End StabilityProofs.
